(** * Hybrid DOM + vision web agent: action executor, stability waiter,
      response parsers and authentication handler

    A shallow embedding of the Python sources

    - [src/agent/schemas.py]            ([AgentAction])
    - [src/agent/vision_agent.py]       ([VisionWebAgent.decide_next_action],
                                         [VisionWebAgent._parse_action_response])
    - [src/browser/vision_login_agent.py] ([VisionLoginAgent.decide_login_action])
    - [src/browser/som_marker.py]       ([SoMMarker])
    - [src/browser/action_executor.py]  ([ActionExecutor])
    - [src/browser/controller.py]       ([BrowserController.wait_for_stability])
    - [src/browser/auth_handler.py]     ([AuthHandler])
    - [src/screenshot/manager.py]       ([ScreenshotManager])
    - [src/screenshot/guide_generator.py] ([GuideGenerator.generate_json])

    The browser (Playwright page, element handles), the language model
    and [json.loads] are external collaborators.  They are interfaces here:
    the code is embedded over an arbitrary implementation of them, every
    primitive may raise, and every call is recorded in a trace.  A small
    mock page implements the interface for the concrete runs. *)

From stdpp Require Import base strings gmap list.
From Stdlib Require Import ZArith Ascii String DecimalString List Lia.
Import ListNotations.
Open Scope string_scope.
Open Scope Z_scope.

(** ** Python string operations

    A string is a sequence of code points below 256 (Latin-1), one per
    character; the functions act on them as Python's act on such a [str].
    Strings that hold other code points are outside the model. *)
Module PyStr.

Definition len (s : string) : Z := Z.of_nat (String.length s).

(** [s.startswith(p)] *)
Definition startswith (s p : string) : bool := String.prefix p s.

(** [s.endswith(p)] *)
Definition endswith (s p : string) : bool :=
  String.prefix (String.rev p) (String.rev s).

(** [sub in s] *)
Fixpoint contains (s sub : string) : bool :=
  String.prefix sub s ||
  match s with
  | EmptyString => false
  | String _ t => contains t sub
  end.

(** [s.find(sub)]: lowest index, [-1] when absent *)
Fixpoint find (s sub : string) : Z :=
  if String.prefix sub s then 0
  else match s with
       | EmptyString => -1
       | String _ t => let r := find t sub in if r <? 0 then -1 else r + 1
       end.

(** [s.rfind(sub)]: highest index, [-1] when absent *)
Fixpoint rfind (s sub : string) : Z :=
  match s with
  | EmptyString => if String.prefix sub s then 0 else -1
  | String _ t =>
      let r := rfind t sub in
      if 0 <=? r then r + 1 else if String.prefix sub s then 0 else -1
  end.

(** An index of a slice, as Python clamps it *)
Definition clamp (n i : Z) : Z :=
  if i <? 0 then Z.max 0 (i + n) else Z.min i n.

(** [s[a:b]] *)
Definition slice (s : string) (a b : Z) : string :=
  let n := len s in
  let a' := clamp n a in
  let b' := clamp n b in
  if b' <=? a' then EmptyString
  else String.substring (Z.to_nat a') (Z.to_nat (b' - a')) s.

(** [s[a:]] *)
Definition slice_from (s : string) (a : Z) : string := slice s a (len s).

(** [s[:b]] *)
Definition slice_to (s : string) (b : Z) : string := slice s 0 b.

(** [s.find(sub, start)] for [0 <= start] *)
Definition find_from (s sub : string) (start : Z) : Z :=
  if len s <? start then -1
  else let r := find (slice_from s start) sub in
       if r <? 0 then -1 else r + start.

(** White space, as [str.isspace] has it below 256: the ASCII white space,
    U+0085 and U+00A0 *)
Definition is_space (c : ascii) : bool :=
  let n := nat_of_ascii c in
  ((9 <=? n) && (n <=? 13) || (28 <=? n) && (n <=? 32)
   || (n =? 133) || (n =? 160))%nat.

Fixpoint lstrip (s : string) : string :=
  match s with
  | String c t => if is_space c then lstrip t else s
  | EmptyString => s
  end.

(** [s.strip()] *)
Definition strip (s : string) : string :=
  String.rev (lstrip (String.rev (lstrip s))).

(** The lower case of a character: A-Z, and U+00C0 to U+00DE but for the
    multiplication sign U+00D7 *)
Definition lower_ascii (c : ascii) : ascii :=
  let n := nat_of_ascii c in
  if ((65 <=? n) && (n <=? 90)
      || (192 <=? n) && (n <=? 222) && negb (n =? 215))%nat
  then ascii_of_nat (n + 32) else c.

(** [s.lower()] *)
Fixpoint lower (s : string) : string :=
  match s with
  | EmptyString => EmptyString
  | String c t => String (lower_ascii c) (lower t)
  end.

(** A decimal digit: 0 to 9 *)
Definition is_decimal (c : ascii) : bool :=
  let n := nat_of_ascii c in ((48 <=? n) && (n <=? 57))%nat.

(** A digit, as [str.isdigit] has it below 256: the decimal digits and the
    superscripts U+00B2, U+00B3, U+00B9 *)
Definition is_digit (c : ascii) : bool :=
  let n := nat_of_ascii c in
  is_decimal c || ((n =? 178) || (n =? 179) || (n =? 185))%nat.

(** [s.isascii()] *)
Fixpoint isascii (s : string) : bool :=
  match s with
  | EmptyString => true
  | String c t => (nat_of_ascii c <? 128)%nat && isascii t
  end.

Fixpoint all_decimal (s : string) : bool :=
  match s with
  | EmptyString => true
  | String c t => is_decimal c && all_decimal t
  end.

(** [s.isdecimal()]: at least one character, all of them decimal digits *)
Definition isdecimal (s : string) : bool :=
  match s with
  | EmptyString => false
  | _ => all_decimal s
  end.

Fixpoint all_digits (s : string) : bool :=
  match s with
  | EmptyString => true
  | String c t => is_digit c && all_digits t
  end.

(** [s.isdigit()]: at least one character, all of them digits *)
Definition isdigit (s : string) : bool :=
  match s with
  | EmptyString => false
  | _ => all_digits s
  end.

Definition digit_value (c : ascii) : Z := Z.of_nat (nat_of_ascii c) - 48.

(** Decimal digits with single underscores between them *)
Fixpoint digits_value (acc : Z) (after_digit : bool) (s : string) : option Z :=
  match s with
  | EmptyString => if after_digit then Some acc else None
  | String c t =>
      if is_decimal c then digits_value (10 * acc + digit_value c) true t
      else if Ascii.eqb c "_"
           then (if after_digit then digits_value acc false t else None)
           else None
  end.

(** The white space that [int] skips around a number: the white space of
    C below 128, that of [str.isspace] above *)
Definition is_int_space (c : ascii) : bool :=
  let n := nat_of_ascii c in
  ((9 <=? n) && (n <=? 13) || (n =? 32) || (n =? 133) || (n =? 160))%nat.

Fixpoint int_lstrip (s : string) : string :=
  match s with
  | String c t => if is_int_space c then int_lstrip t else s
  | EmptyString => s
  end.

Definition int_strip (s : string) : string :=
  String.rev (int_lstrip (String.rev (int_lstrip s))).

(** The number of decimal digits of a string *)
Fixpoint count_decimal (s : string) : nat :=
  match s with
  | EmptyString => O
  | String c t => if is_decimal c then S (count_decimal t) else count_decimal t
  end.

(** The limit of CPython on the digits of a string that [int] converts
    ([sys.int_info.default_max_str_digits]) *)
Definition max_str_digits : nat := 4300.

(** [int(s)]: surrounding white space, an optional sign, decimal digits,
    at most [max_str_digits] of them.  [None] stands for [ValueError]. *)
Definition int (s : string) : option Z :=
  let t := int_strip s in
  if (max_str_digits <? count_decimal t)%nat then None
  else
    match t with
    | String "-" t => Z.opp <$> digits_value 0 false t
    | String "+" t => digits_value 0 false t
    | t => digits_value 0 false t
    end.

(** [str(n)] for a natural number *)
Definition str_of_nat (n : nat) : string :=
  NilEmpty.string_of_uint (Nat.to_uint n).

(** [bool(s)]: a string is true when it is not empty *)
Definition truthy (s : string) : bool :=
  match s with EmptyString => false | _ => true end.

End PyStr.

(** ** JSON values, as [json.loads] builds them

    A number is an integer or a decimal float [mantissa * 10 ^ exponent];
    a dictionary keeps its pairs in document order, a repeated key is read
    at its last occurrence. *)
#[warnings="-register-all"] Inductive json :=
| JNull
| JBool (b : bool)
| JInt (n : Z)
| JFloat (mantissa exponent : Z)
| JStr (s : string)
| JList (l : list json)
| JDict (d : list (string * json)).

(** [d.get(k)] *)
Fixpoint dict_get (d : list (string * json)) (k : string) : option json :=
  match d with
  | [] => None
  | (k', v) :: t =>
      match dict_get t k with
      | Some v' => Some v'
      | None => if String.eqb k k' then Some v else None
      end
  end.

(** The float that [m] times ten to the [e] is read as is 0.0: the number
    is at most half of the least positive double, two to the -1075 *)
Definition float_is_zero (m e : Z) : bool :=
  if 0 <=? e then m =? 0
  else Z.abs m * 2 ^ 1075 <=? 10 ^ (- e).

(** It is 1.0: the number lies between the midpoints to the doubles next
    to 1.0, one minus two to the -54 and one plus two to the -53 *)
Definition float_is_one (m e : Z) : bool :=
  if 0 <=? e then m * 10 ^ e =? 1
  else ((2 ^ 54 - 1) * 10 ^ (- e) <=? m * 2 ^ 54)
       && (m * 2 ^ 53 <=? (2 ^ 53 + 1) * 10 ^ (- e)).

(** [bool(v)] *)
Definition json_truthy (v : json) : bool :=
  match v with
  | JNull => false
  | JBool b => b
  | JInt n => negb (n =? 0)
  | JFloat m e => negb (float_is_zero m e)
  | JStr s => PyStr.truthy s
  | JList l => match l with [] => false | _ => true end
  | JDict d => match d with [] => false | _ => true end
  end.

(** [json.loads]: [None] stands for [json.JSONDecodeError]. *)
Class JsonReader := { json_loads : string -> option json }.

(** ** Exceptions

    The classes derived from [Exception] that the modelled code raises or
    catches.  [json.JSONDecodeError] and pydantic's [ValidationError] derive
    from [ValueError]. *)
Inductive exn :=
| ValueError
| JSONDecodeError
| ValidationError
| AttributeError
| TypeError
| KeyError
| PlaywrightError
| TimeoutError
| OSError.

Definition isinstance_Exception (e : exn) : bool := true.

Definition isinstance_ValueError (e : exn) : bool :=
  match e with
  | ValueError | JSONDecodeError | ValidationError => true
  | _ => false
  end.

Definition isinstance_JSONDecodeError (e : exn) : bool :=
  match e with
  | JSONDecodeError => true
  | _ => false
  end.

Inductive Res (A : Type) :=
| Ok (a : A)
| Raise (e : exn).
Arguments Ok {A} a.
Arguments Raise {A} e.

Definition res_bind {A B} (r : Res A) (k : A -> Res B) : Res B :=
  match r with
  | Ok a => k a
  | Raise e => Raise e
  end.

Declare Scope res_scope.
Delimit Scope res_scope with res.
Notation "x <~ r ;; k" := (res_bind r (fun x => k))
  (at level 100, r at next level, right associativity) : res_scope.
Open Scope res_scope.

(** ** schemas.py *)
Inductive ActionType :=
| act_click
| act_type
| act_navigate
| act_wait
| act_scroll
| act_done.

Inductive ScrollDirection :=
| scroll_up
| scroll_down.

Record AgentAction := {
  reasoning : string;
  action_type : ActionType;
  target : option string;
  value : option string;
  should_capture_screenshot : bool;
  step_description : string;
  scroll_direction : option ScrollDirection
}.

Record ElementInfo := {
  marker_id : Z;
  tag_name : string;
  text : option string;
  role : option string;
  aria_label : option string;
  placeholder : option string;
  href : option string;
  type : option string
}.

Definition ActionType_of_string (s : string) : option ActionType :=
  if String.eqb s "click" then Some act_click
  else if String.eqb s "type" then Some act_type
  else if String.eqb s "navigate" then Some act_navigate
  else if String.eqb s "wait" then Some act_wait
  else if String.eqb s "scroll" then Some act_scroll
  else if String.eqb s "done" then Some act_done
  else None.

Definition ScrollDirection_of_string (s : string) : option ScrollDirection :=
  if String.eqb s "up" then Some scroll_up
  else if String.eqb s "down" then Some scroll_down
  else None.

(** Field validation of the model.  An argument is [None] when it is not
    passed.  A [str] field takes a JSON string, the [bool] field what
    [required_bool] reads, an [Optional] field also [null] or nothing. *)
Definition required_str (a : option json) : option string :=
  match a with
  | Some (JStr s) => Some s
  | _ => None
  end.

Definition optional_str (a : option json) : option (option string) :=
  match a with
  | None | Some JNull => Some None
  | Some (JStr s) => Some (Some s)
  | _ => None
  end.

(** The strings that the validation of a [bool] field reads as a boolean,
    whatever their case *)
Definition str_as_bool (s : string) : option bool :=
  let s := PyStr.lower s in
  if existsb (String.eqb s) ["0"; "off"; "f"; "false"; "n"; "no"] then Some false
  else if existsb (String.eqb s) ["1"; "on"; "t"; "true"; "y"; "yes"] then Some true
  else None.

(** A [bool] field is validated in lax mode: a boolean, the numbers 0 and
    1, and the strings of [str_as_bool] *)
Definition required_bool (a : option json) : option bool :=
  match a with
  | Some (JBool b) => Some b
  | Some (JInt n) => if n =? 0 then Some false else if n =? 1 then Some true else None
  | Some (JFloat m e) =>
      if float_is_zero m e then Some false
      else if float_is_one m e then Some true else None
  | Some (JStr s) => str_as_bool s
  | _ => None
  end.

Definition required_action_type (a : option json) : option ActionType :=
  match a with
  | Some (JStr s) => ActionType_of_string s
  | _ => None
  end.

Definition optional_direction (a : option json) : option (option ScrollDirection) :=
  match a with
  | None | Some JNull => Some None
  | Some (JStr s) => Some <$> ScrollDirection_of_string s
  | _ => None
  end.

(** [AgentAction(reasoning=..., action_type=..., ...)]: the validated
    model, or [ValidationError]. *)
Definition AgentAction_init
    (a_reasoning a_action_type a_target a_value a_capture a_description
       a_direction : option json) : Res AgentAction :=
  match required_str a_reasoning, required_action_type a_action_type,
        optional_str a_target, optional_str a_value, required_bool a_capture,
        required_str a_description, optional_direction a_direction with
  | Some r, Some k, Some t, Some v, Some c, Some d, Some dir =>
      Ok {| reasoning := r; action_type := k; target := t; value := v;
            should_capture_screenshot := c; step_description := d;
            scroll_direction := dir |}
  | _, _, _, _, _, _, _ => Raise ValidationError
  end.

(** The model built from the keys of a dictionary (keyword unpacking):
    keys that are no fields are ignored. *)
Definition AgentAction_of_dict (d : list (string * json)) : Res AgentAction :=
  AgentAction_init (dict_get d "reasoning") (dict_get d "action_type")
    (dict_get d "target") (dict_get d "value")
    (dict_get d "should_capture_screenshot") (dict_get d "step_description")
    (dict_get d "scroll_direction").

(** ** The browser interface

    Selectors are kept as syntax trees of the forms the sources use:
    [tag[attr="v"]], [tag[attr*="v"]], [tag[attr*="v" i]],
    [:has-text("t")], [:not(...)], [.class], [:visible], and the text
    engine [text="t"]. *)
Inductive attr_op :=
| attr_equals
| attr_contains
| attr_contains_i.

Inductive simple_selector :=
| sel_attr (name : string) (op : attr_op) (v : string)
| sel_not_attr (name : string) (op : attr_op) (v : string)
| sel_has_text (t : string)
| sel_not_has_text (t : string)
| sel_class (c : string)
| sel_visible.

Inductive selector :=
| css (tag : string) (conds : list simple_selector)
| text_exact (t : string).

Definition ElementHandle := nat.

(** The [config] of a marker: the dictionary it keeps, with whatever keys
    it was given *)
Definition SoMConfig := list (string * json).

(** What the marker script is built from: the three values that are
    concatenated to its text, and the two that go through [str] *)
Record MarkerStyle := {
  background_color : string;
  text_color : string;
  padding : string;
  font_size : json;
  z_index : json
}.

(** The calls that reach the page, an element handle, the file system or
    the language model, indexed by the type of their result.  Durations are
    in milliseconds. *)
Inductive call : Type -> Type :=
(* som_marker.py: page.evaluate of the three scripts *)
| MarkerScript (style : MarkerStyle) : call (list ElementInfo)
| RemoveMarkersScript : call unit
| HighlightScript (background : json) (color : string) (marker_id : Z) : call unit
(* action_executor.py *)
| GetElementScript (marker_id : Z) : call (option ElementHandle)
| ClickScript (marker_id : Z) : call bool
| ScrollBy (pixels : Z) : call unit
| Goto (url : string) (timeout : Z) : call unit
| WaitForLoadState (timeout : Z) : call unit
| KeyboardType (text : string) (delay : Z) : call unit
| KeyboardPress (key : string) : call unit
(* element handles *)
| ElementClick (el : ElementHandle) (force : bool) (timeout : option Z) : call unit
| ElementFill (el : ElementHandle) (text : string) (timeout : option Z) : call unit
| ElementPress (el : ElementHandle) (key : string) : call unit
| ElementTagName (el : ElementHandle) : call string
| ElementGetAttribute (el : ElementHandle) (name : string) : call (option string)
| ElementIsContentEditable (el : ElementHandle) : call bool
| ElementIsVisible (el : ElementHandle) : call bool
| ElementInnerText (el : ElementHandle) : call string
(* page *)
| QuerySelector (s : selector) : call (option ElementHandle)
| Content : call string
| Title : call string
| Screenshot (path : string) : call unit
(* the screenshot file and the language model *)
| ReadFile (path : string) : call string
| LlmCreate (screenshot : string) (email : option string) (current_url : string)
    (element_summary : string) : call string.

(** The trace keeps every call with its answer, and every sleep. *)
Inductive event :=
| Called {R : Type} (c : call R) (r : Res R)
| Slept (ms : Z).

(** A browser session over a state [Σ]: the answer to every call, what
    [asyncio.sleep] lets happen, and the two reads that cannot fail
    ([page.url] and the event loop's clock, in milliseconds). *)
Class Browser (Σ : Type) := {
  respond : forall R, call R -> Σ -> Res R * Σ;
  elapse : Z -> Σ -> Σ;
  url_of : Σ -> string;
  time_of : Σ -> Z
}.

Record World (Σ : Type) := {
  page : Σ;
  trace : list event
}.
Arguments page {Σ} w.
Arguments trace {Σ} w.

(** ** The monad of the embedded code: state and exceptions *)
Definition M (Σ A : Type) : Type := World Σ -> Res A * World Σ.

Definition ret {Σ A} (a : A) : M Σ A := fun w => (Ok a, w).

Definition bind {Σ A B} (m : M Σ A) (k : A -> M Σ B) : M Σ B :=
  fun w =>
    match m w with
    | (Ok a, w') => k a w'
    | (Raise e, w') => (Raise e, w')
    end.

Definition raise {Σ A} (e : exn) : M Σ A := fun w => (Raise e, w).

(** [try: m  except C: handler] *)
Definition try_except {Σ A} (m : M Σ A) (C : exn -> bool) (handler : M Σ A) : M Σ A :=
  fun w =>
    match m w with
    | (Ok a, w') => (Ok a, w')
    | (Raise e, w') => if C e then handler w' else (Raise e, w')
    end.

Definition lift_res {Σ A} (r : Res A) : M Σ A := fun w => (r, w).

Declare Scope prog_scope.
Delimit Scope prog_scope with prog.
Notation "x <- m ;; k" := (bind m (fun x => k))
  (at level 100, m at next level, right associativity) : prog_scope.
Notation "m ;;; k" := (bind m (fun _ => k))
  (at level 100, right associativity) : prog_scope.
Open Scope prog_scope.

Section Primitives.
Context {Σ : Type} {browser : Browser Σ}.

Definition perform {R : Type} (c : call R) : M Σ R :=
  fun w =>
    let (r, p) := respond R c (page w) in
    (r, {| page := p; trace := trace w ++ [Called c r] |}).

(** [await asyncio.sleep(ms / 1000)] *)
Definition sleep (ms : Z) : M Σ unit :=
  fun w => (Ok tt, {| page := elapse ms (page w); trace := trace w ++ [Slept ms] |}).

(** [self.page.url] *)
Definition page_url : M Σ string := fun w => (Ok (url_of (page w)), w).

(** [asyncio.get_event_loop().time()] *)
Definition loop_time : M Σ Z := fun w => (Ok (time_of (page w)), w).

End Primitives.

(** ** som_marker.py *)
Module SoMMarker.
Section SoMMarker.
Context {Σ : Type} {browser : Browser Σ}.

Definition default_config : SoMConfig :=
  [ ("background_color", JStr "#FF0000");
    ("text_color", JStr "#FFFFFF");
    ("font_size", JInt 12);
    ("padding", JStr "2px 6px");
    ("z_index", JInt 10000) ].

(** [SoMMarker(config)]: [self.config = config or {...}] *)
Definition init (config : option SoMConfig) : SoMConfig :=
  match config with
  | None | Some [] => default_config
  | Some given => given
  end.

(** [self.config[key]] *)
Definition getitem (self : SoMConfig) (key : string) : Res json :=
  match dict_get self key with
  | Some v => Ok v
  | None => Raise KeyError
  end.

(** [text + v]: only a string is concatenated to a string *)
Definition concatenated (v : json) : Res string :=
  match v with
  | JStr s => Ok s
  | _ => Raise TypeError
  end.

(** The reads that build the text of the marker script, in the order of
    its concatenation; they come before the [try] of [mark_page] *)
Definition marker_style (self : SoMConfig) : Res MarkerStyle :=
  v <~ getitem self "background_color" ;;
  background_color <~ concatenated v ;;
  v <~ getitem self "text_color" ;;
  text_color <~ concatenated v ;;
  v <~ getitem self "padding" ;;
  padding <~ concatenated v ;;
  font_size <~ getitem self "font_size" ;;
  z_index <~ getitem self "z_index" ;;
  Ok {| background_color := background_color; text_color := text_color;
        padding := padding; font_size := font_size; z_index := z_index |}.

Definition mark_page (self : SoMConfig) : M Σ (list ElementInfo) :=
  style <- lift_res (marker_style self) ;;
  try_except (perform (MarkerScript style)) isinstance_Exception (ret []).

Definition remove_markers (self : SoMConfig) : M Σ unit :=
  try_except (perform RemoveMarkersScript) isinstance_Exception (ret tt).

(** The script text reads [self.config['background_color']] before the
    [try] *)
Definition highlight_element (self : SoMConfig) (marker_id : Z) : M Σ unit :=
  background <- lift_res (getitem self "background_color") ;;
  try_except (perform (HighlightScript background "#00FF00" marker_id))
    isinstance_Exception (ret tt).

End SoMMarker.
End SoMMarker.

(** ** action_executor.py *)
Module ActionExecutor.
Section ActionExecutor.
Context {Σ : Type} {browser : Browser Σ}.

(** The executor's [som_marker]; its [page] is the world. *)
Variable self : SoMConfig.

Definition _get_element_by_marker (marker_id : Z) : M Σ (option ElementHandle) :=
  try_except (perform (GetElementScript marker_id)) isinstance_Exception (ret None).

Definition _try_click_marker (marker_id : Z) : M Σ bool :=
  try_except
    (element <- _get_element_by_marker marker_id ;;
     clicked <- match element with
                | Some el =>
                    try_except
                      (perform (ElementClick el true (Some 2000)) ;;; ret true)
                      isinstance_Exception (ret false)
                | None => ret false
                end ;;
     if clicked : bool then ret true
     else perform (ClickScript marker_id))
    isinstance_Exception (ret false).

Definition is_marker_target (target : string) : bool :=
  PyStr.startswith target "[" && PyStr.endswith target "]".

Definition mentions_button (a : AgentAction) : bool :=
  let action_desc_lower := PyStr.lower (step_description a) in
  PyStr.contains action_desc_lower "button"
  || PyStr.contains action_desc_lower "continue".

Definition is_text_input (tag_name : string) (element_type : option string) : bool :=
  String.eqb tag_name "input" &&
  match element_type with
  | Some t => String.eqb t "password" || String.eqb t "text" || String.eqb t "email"
  | None => false
  end.

(** The one-step lookahead of a click: the marker after the resolved one
    when the description speaks of a button and the element is a text input *)
Definition adjust_marker (a : AgentAction) (marker_id : Z) : M Σ Z :=
  element <- _get_element_by_marker marker_id ;;
  match element with
  | Some el =>
      tag_name <- perform (ElementTagName el) ;;
      element_type <- perform (ElementGetAttribute el "type") ;;
      if mentions_button a && is_text_input tag_name element_type
      then ret (marker_id + 1)
      else ret marker_id
  | None => ret marker_id
  end.

(** The requested marker, then the next one, then the one before *)
Definition click_with_fallback (marker_id : Z) : M Σ bool :=
  r <- _try_click_marker marker_id ;;
  if r : bool then sleep 500 ;;; ret true
  else
    r1 <- _try_click_marker (marker_id + 1) ;;
    if r1 : bool then sleep 500 ;;; ret true
    else if 0 <? marker_id then
      r2 <- _try_click_marker (marker_id - 1) ;;
      if r2 : bool then sleep 500 ;;; ret true
      else ret false
    else ret false.

Definition _execute_click (action : AgentAction) : M Σ bool :=
  match target action with
  | None => ret false
  | Some t =>
      if negb (PyStr.truthy t) then ret false
      else if is_marker_target t then
        try_except
          (match PyStr.int (PyStr.slice t 1 (-1)) with
           | None => raise ValueError
           | Some marker_id =>
               SoMMarker.highlight_element self marker_id ;;;
               marker_id' <- adjust_marker action marker_id ;;
               click_with_fallback marker_id'
           end)
          isinstance_ValueError (ret false)
      else ret false
  end.

Definition not_typeable (element_type : option string) : bool :=
  match element_type with
  | Some t => String.eqb t "checkbox" || String.eqb t "radio"
              || String.eqb t "submit" || String.eqb t "button"
  | None => false
  end.

(** [for offset in range(1, 5)]: the first text-capable input among the
    next four markers; [offsets] are the offsets still to try *)
Fixpoint find_text_input (marker_id : Z) (offsets : list Z)
    : M Σ (option (ElementHandle * Z)) :=
  match offsets with
  | [] => ret None
  | offset :: rest =>
      let alt_marker := marker_id + offset in
      alt_element <- _get_element_by_marker alt_marker ;;
      match alt_element with
      | Some alt =>
          alt_type <- perform (ElementGetAttribute alt "type") ;;
          alt_tag <- perform (ElementTagName alt) ;;
          if (String.eqb alt_tag "input" || String.eqb alt_tag "textarea")
             && negb (not_typeable alt_type)
          then ret (Some (alt, alt_marker))
          else find_text_input marker_id rest
      | None => find_text_input marker_id rest
      end
  end.

Definition keyboard_typing (element : ElementHandle) (text : string) : M Σ unit :=
  perform (ElementClick element false None) ;;;
  sleep 300 ;;;
  perform (KeyboardType text 20).

Definition type_into (marker_id : Z) (text : string) : M Σ bool :=
  element <- _get_element_by_marker marker_id ;;
  match element with
  | Some el =>
      _ <- perform (ElementTagName el) ;;
      element_type <- perform (ElementGetAttribute el "type") ;;
      found <- (if not_typeable element_type
                then find_text_input marker_id [1; 2; 3; 4]
                else ret None) ;;
      let '(element, marker_id) :=
        match found with
        | Some (alt, alt_marker) => (alt, alt_marker)
        | None => (el, marker_id)
        end in
      SoMMarker.highlight_element self marker_id ;;;
      is_contenteditable <- perform (ElementIsContentEditable element) ;;
      tag_name <- perform (ElementTagName element) ;;
      (if is_contenteditable || String.eqb tag_name "div"
       then keyboard_typing element text
       else try_except (perform (ElementFill element text (Some 5000)))
              isinstance_Exception (keyboard_typing element text)) ;;;
      sleep 300 ;;;
      ret true
  | None => ret false
  end.

Definition _execute_type (action : AgentAction) : M Σ bool :=
  match target action, value action with
  | Some t, Some v =>
      if negb (PyStr.truthy t) || negb (PyStr.truthy v) then ret false
      else if is_marker_target t then
        try_except
          (match PyStr.int (PyStr.slice t 1 (-1)) with
           | None => raise ValueError
           | Some marker_id => type_into marker_id v
           end)
          isinstance_Exception (ret false)
      else ret false
  | _, _ => ret false
  end.

Definition _execute_navigate (action : AgentAction) : M Σ bool :=
  match value action with
  | None => ret false
  | Some url =>
      if negb (PyStr.truthy url) then ret false
      else try_except (perform (Goto url 30000) ;;; ret true)
             isinstance_Exception (ret false)
  end.

Definition _execute_wait (action : AgentAction) : M Σ bool :=
  try_except (perform (WaitForLoadState 10000) ;;; sleep 1000 ;;; ret true)
    isinstance_Exception (ret true).

Definition _execute_scroll (action : AgentAction) : M Σ bool :=
  let direction := default scroll_down (scroll_direction action) in
  let pixels := match direction with scroll_down => 500 | scroll_up => -500 end in
  try_except (perform (ScrollBy pixels) ;;; sleep 500 ;;; ret true)
    isinstance_Exception (ret false).

Definition execute (action : AgentAction) : M Σ bool :=
  try_except
    (match action_type action with
     | act_click => _execute_click action
     | act_type => _execute_type action
     | act_navigate => _execute_navigate action
     | act_wait => _execute_wait action
     | act_scroll => _execute_scroll action
     | act_done => ret true
     end)
    isinstance_Exception (ret false).

End ActionExecutor.
End ActionExecutor.

(** Run a computation and hand back its outcome instead of raising:
    the [try] of a block whose handler leaves a loop. *)
Definition attempt {Σ A} (m : M Σ A) : M Σ (Res A) :=
  fun w => let (r, w') := m w in (Ok r, w').

(** [hashlib.md5(data.encode()).hexdigest()].  The digest is kept symbolic:
    two digests are equal when their data are, collisions are left out. *)
Inductive hexdigest :=
| md5 (data : string).

Definition hexdigest_eqb (a b : hexdigest) : bool :=
  match a, b with
  | md5 x, md5 y => String.eqb x y
  end.

(** ** agent/vision_agent.py: the response parser of the task loop *)
Module VisionWebAgent.
Section VisionWebAgent.
Context {reader : JsonReader}.

Definition fallback_action : AgentAction :=
  {| reasoning := "Failed to parse LLM response";
     action_type := act_wait;
     target := None;
     value := None;
     should_capture_screenshot := false;
     step_description := "Waiting due to parse error";
     scroll_direction := None |}.

(** The body of the [try] block *)
Definition parse_action (response : string) : Res AgentAction :=
  let start_idx := PyStr.find response "{" in
  let end_idx := PyStr.rfind response "}" + 1 in
  if (start_idx =? -1) || (end_idx =? 0) then Raise ValueError
  else
    let json_str := PyStr.slice response start_idx end_idx in
    match json_loads json_str with
    | None => Raise JSONDecodeError
    | Some (JDict action_dict) => AgentAction_of_dict action_dict
    | Some _ => Raise TypeError
    end.

Definition _parse_action_response (response : string) : AgentAction :=
  match parse_action response with
  | Ok action => action
  | Raise _ => fallback_action
  end.

End VisionWebAgent.
End VisionWebAgent.

(** ** browser/vision_login_agent.py *)
Module VisionLoginAgent.

(** [a or b] on optional strings *)
Definition str_or (a b : option string) : option string :=
  match a with
  | Some s => if PyStr.truthy s then a else b
  | None => b
  end.

Definition opt_truthy (a : option string) : bool :=
  match a with
  | Some s => PyStr.truthy s
  | None => false
  end.

Definition dquote : string := String (ascii_of_nat 34) EmptyString.
Definition newline : string := String (ascii_of_nat 10) EmptyString.

Definition str_of_Z (n : Z) : string := NilEmpty.string_of_int (Z.to_int n).

Fixpoint join (sep : string) (l : list string) : string :=
  match l with
  | [] => EmptyString
  | [x] => x
  | x :: rest => x ++ sep ++ join sep rest
  end.

Definition element_line (elem : ElementInfo) : string :=
  join " "
    (["[" ++ str_of_Z (marker_id elem) ++ "]"]
     ++ (if PyStr.truthy (tag_name elem) then [tag_name elem] else [])
     ++ (if opt_truthy (text elem)
         then [dquote ++ PyStr.slice_to (default "" (text elem)) 50 ++ dquote] else [])
     ++ (if opt_truthy (placeholder elem)
         then ["placeholder=" ++ dquote ++ default "" (placeholder elem) ++ dquote] else [])
     ++ (if opt_truthy (type elem) then ["type=" ++ default "" (type elem)] else [])).

Definition _build_element_summary (elements : list ElementInfo) (max_elements : nat)
    : string :=
  match elements with
  | [] => "No interactive elements marked"
  | _ =>
      let summary_lines := element_line <$> take max_elements elements in
      let more :=
        if (max_elements <? length elements)%nat
        then ["... and " ++ PyStr.str_of_nat (length elements - max_elements)
                ++ " more elements"]
        else [] in
      join newline (summary_lines ++ more)
  end.

(** The result dictionary of [decide_login_action] *)
Record LoginDecision := {
  action : AgentAction;
  is_logged_in : json;
  is_login_page : json;
  decision_reasoning : json
}.

(** The text handed to [json.loads]: the inside of a code fence, or the
    span from the first opening to the last closing brace *)
Definition extract_json (response_text : string) : string :=
  if PyStr.contains response_text "```json" then
    let json_start := PyStr.find response_text "```json" + 7 in
    let json_end := PyStr.find_from response_text "```" json_start in
    PyStr.strip (PyStr.slice response_text json_start json_end)
  else if PyStr.contains response_text "```" then
    let json_start := PyStr.find response_text "```" + 3 in
    let json_end := PyStr.find_from response_text "```" json_start in
    PyStr.strip (PyStr.slice response_text json_start json_end)
  else
    let json_start := PyStr.find response_text "{" in
    let json_end := PyStr.rfind response_text "}" + 1 in
    if negb (json_start =? -1) && (json_start <? json_end)
    then PyStr.strip (PyStr.slice response_text json_start json_end)
    else response_text.

Definition safe_default : LoginDecision :=
  {| action := {| reasoning := "Failed to parse login decision";
                  action_type := act_wait;
                  target := None;
                  value := None;
                  should_capture_screenshot := true;
                  step_description := "Waiting to analyze page";
                  scroll_direction := None |};
     is_logged_in := JBool false;
     is_login_page := JBool false;
     decision_reasoning := JStr "" |}.

(** [v.get(k, d)]: only a dictionary has [get] *)
Definition get_or (v : json) (k : string) (d : json) : Res json :=
  match v with
  | JDict fields => Ok (default d (dict_get fields k))
  | _ => Raise AttributeError
  end.

Definition is_placeholder (v : json) : bool :=
  match v with
  | JStr s => String.eqb s "[password]" || String.eqb s "[provided]"
  | _ => false
  end.

Definition json_of_opt_str (a : option string) : json :=
  match a with
  | Some s => JStr s
  | None => JNull
  end.

(** [if target and target.isdigit(): target = f"[{target}]"] *)
Definition fix_target (target : json) : Res json :=
  if json_truthy target then
    match target with
    | JStr s => if PyStr.isdigit s then Ok (JStr ("[" ++ s ++ "]")) else Ok target
    | _ => Raise AttributeError
    end
  else Ok target.

(** What follows the [try] block: from the decoded decision to the result *)
Definition decision_of_json (credentials : gmap string string) (decision : json)
    : Res LoginDecision :=
  action_data <~ get_or decision "action" (JDict []) ;;
  value <~ get_or action_data "value" JNull ;;
  let value :=
    if is_placeholder value
    then json_of_opt_str (credentials !! "password") else value in
  target <~ get_or action_data "target" JNull ;;
  target <~ fix_target target ;;
  a_action_type <~ get_or action_data "action_type" (JStr "wait") ;;
  a_reasoning <~ get_or action_data "reasoning" (JStr "") ;;
  a_description <~ get_or action_data "step_description" (JStr "") ;;
  action <~ AgentAction_init (Some a_reasoning) (Some a_action_type) (Some target)
              (Some value) (Some (JBool true)) (Some a_description) None ;;
  logged <~ get_or decision "is_logged_in" (JBool false) ;;
  login <~ get_or decision "is_login_page" (JBool false) ;;
  why <~ get_or decision "reasoning" (JStr "") ;;
  Ok {| action := action; is_logged_in := logged; is_login_page := login;
        decision_reasoning := why |}.

Section VisionLoginAgent.
Context {reader : JsonReader}.

(** The parsing part of [decide_login_action]: the [try] block with its
    [except json.JSONDecodeError], then the extraction of the action *)
Definition parse_login_decision (credentials : gmap string string)
    (response_text : string) : Res LoginDecision :=
  match json_loads (extract_json response_text) with
  | None => Ok safe_default
  | Some decision => decision_of_json credentials decision
  end.

Context {Σ : Type} {browser : Browser Σ}.

Definition decide_login_action (screenshot_path : string)
    (credentials : gmap string string) (elements : list ElementInfo)
    (current_url : string) : M Σ LoginDecision :=
  screenshot_data <- perform (ReadFile screenshot_path) ;;
  let element_summary := _build_element_summary elements 30 in
  let email := str_or (credentials !! "email") (credentials !! "username") in
  response_text <- perform (LlmCreate screenshot_data email current_url element_summary) ;;
  lift_res (parse_login_decision credentials response_text).

End VisionLoginAgent.
End VisionLoginAgent.

(** ** browser/controller.py: the stability waiter *)
Module BrowserController.
Section BrowserController.
Context {Σ : Type} {browser : Browser Σ}.

Definition same_hash (current_hash : hexdigest) (previous_hash : option hexdigest) : bool :=
  match previous_hash with
  | Some h => hexdigest_eqb current_hash h
  | None => false
  end.

(** The [for] loop of [wait_for_stability]: [inl true] when it returns
    from inside the loop, [inr stable_count] when the loop is left, by
    running out of attempts or by the [break] of the handler *)
Fixpoint poll_loop (attempts : nat) (previous_hash : option hexdigest)
    (stable_count : Z) : M Σ (bool + Z) :=
  match attempts with
  | O => ret (inr stable_count)
  | S attempts' =>
      sleep 300 ;;;
      dom <- attempt (perform Content) ;;
      match dom with
      | Raise _ => ret (inr stable_count)
      | Ok dom =>
          let current_hash := md5 dom in
          if same_hash current_hash previous_hash then
            let stable_count := stable_count + 1 in
            if 3 <=? stable_count then ret (inl true)
            else poll_loop attempts' (Some current_hash) stable_count
          else poll_loop attempts' (Some current_hash) 0
      end
  end.

Definition wait_for_stability (max_attempts : nat) : M Σ bool :=
  r <- poll_loop max_attempts None 0 ;;
  match r with
  | inl b => ret b
  | inr stable_count =>
      try_except (perform (WaitForLoadState 5000)) isinstance_Exception (ret tt) ;;;
      ret (2 <=? stable_count)
  end.

End BrowserController.
End BrowserController.

(** ** pathlib: a directory joined with a file name (POSIX paths) *)
Module PyPath.

Definition kept (component : string) : list string :=
  if String.eqb component "" || String.eqb component "." then [] else [component].

(** The components between the slashes of a path, the empty ones and the
    dots left out; [current] is the component read so far *)
Fixpoint parts_from (current s : string) : list string :=
  match s with
  | EmptyString => kept current
  | String c t =>
      if Ascii.eqb c "/" then (kept current ++ parts_from "" t)%list
      else parts_from (current ++ String c "") t
  end.

(** The root: one slash, also for three slashes and more; two for exactly
    two *)
Definition root (s : string) : string :=
  match s with
  | String "/" (String "/" (String "/" _)) => "/"
  | String "/" (String "/" _) => "//"
  | String "/" _ => "/"
  | _ => ""
  end.

(** [str(Path(directory) / name)] for a [name] of one component *)
Definition joined (directory name : string) : string :=
  root directory ++ VisionLoginAgent.join "/" (parts_from "" directory ++ [name]).

End PyPath.

(** ** browser/auth_handler.py *)
Module AuthHandler.

(** [self.actions_taken] *)
Record ActionsTaken := {
  navigated_to_login : bool;
  filled_email : bool;
  clicked_continue_after_email : bool;
  filled_password : bool;
  submitted_login : bool
}.

(** The keys of [actions_taken] *)
Inductive milestone :=
| k_navigated_to_login
| k_filled_email
| k_clicked_continue_after_email
| k_filled_password
| k_submitted_login.

Definition taken (a : ActionsTaken) (k : milestone) : bool :=
  match k with
  | k_navigated_to_login => navigated_to_login a
  | k_filled_email => filled_email a
  | k_clicked_continue_after_email => clicked_continue_after_email a
  | k_filled_password => filled_password a
  | k_submitted_login => submitted_login a
  end.

(** What [_get_page_state] returns: a digest, or the empty string when the
    page could not be read *)
Inductive page_state :=
| state_hash (h : hexdigest)
| state_empty.

Definition page_state_eqb (a b : page_state) : bool :=
  match a, b with
  | state_hash x, state_hash y => hexdigest_eqb x y
  | state_empty, state_empty => true
  | _, _ => false
  end.

(** The mutable fields of the handler *)
Record AuthProgress := {
  actions_taken : ActionsTaken;
  previous_state : option page_state;
  stuck_counter : Z
}.

(** The fields that [__init__] fixes: the optional marker and executor
    (an executor is given by its own marker) *)
Record Config := {
  som_marker : option SoMConfig;
  action_executor : option SoMConfig
}.

Definition initial : AuthProgress :=
  {| actions_taken :=
       {| navigated_to_login := false; filled_email := false;
          clicked_continue_after_email := false; filled_password := false;
          submitted_login := false |};
     previous_state := None;
     stuck_counter := 0 |}.

Definition max_stuck_iterations : Z := 2.

Definition twofa_keywords : list string :=
  [ "two-factor"; "2fa"; "two factor"; "2-factor";
    "verification code"; "authenticator"; "security code";
    "6-digit"; "authentication code"; "verify your identity";
    "enter code"; "verification"; "multi-factor";
    "check your email"; "email verification"; "sent you an email";
    "sent you a link"; "magic link"; "click the link";
    "verify your email"; "email sent"; "we've sent you";
    "check your inbox"; "sent a link"; "open the email";
    "confirmation email"; "verify email address" ].

Definition set_navigated_to_login (p : AuthProgress) : AuthProgress :=
  let a := actions_taken p in
  {| actions_taken :=
       {| navigated_to_login := true; filled_email := filled_email a;
          clicked_continue_after_email := clicked_continue_after_email a;
          filled_password := filled_password a;
          submitted_login := submitted_login a |};
     previous_state := previous_state p; stuck_counter := stuck_counter p |}.

Definition set_filled_email (p : AuthProgress) : AuthProgress :=
  let a := actions_taken p in
  {| actions_taken :=
       {| navigated_to_login := navigated_to_login a; filled_email := true;
          clicked_continue_after_email := clicked_continue_after_email a;
          filled_password := filled_password a;
          submitted_login := submitted_login a |};
     previous_state := previous_state p; stuck_counter := stuck_counter p |}.

Definition set_clicked_continue_after_email (p : AuthProgress) : AuthProgress :=
  let a := actions_taken p in
  {| actions_taken :=
       {| navigated_to_login := navigated_to_login a; filled_email := filled_email a;
          clicked_continue_after_email := true;
          filled_password := filled_password a;
          submitted_login := submitted_login a |};
     previous_state := previous_state p; stuck_counter := stuck_counter p |}.

Definition set_filled_password (p : AuthProgress) : AuthProgress :=
  let a := actions_taken p in
  {| actions_taken :=
       {| navigated_to_login := navigated_to_login a; filled_email := filled_email a;
          clicked_continue_after_email := clicked_continue_after_email a;
          filled_password := true;
          submitted_login := submitted_login a |};
     previous_state := previous_state p; stuck_counter := stuck_counter p |}.

Definition set_submitted_login (p : AuthProgress) : AuthProgress :=
  let a := actions_taken p in
  {| actions_taken :=
       {| navigated_to_login := navigated_to_login a; filled_email := filled_email a;
          clicked_continue_after_email := clicked_continue_after_email a;
          filled_password := filled_password a;
          submitted_login := true |};
     previous_state := previous_state p; stuck_counter := stuck_counter p |}.

Definition set_stuck_counter (n : Z) (p : AuthProgress) : AuthProgress :=
  {| actions_taken := actions_taken p; previous_state := previous_state p;
     stuck_counter := n |}.

(** [_reset_actions]: a fresh [actions_taken], the other fields stay *)
Definition _reset_actions (p : AuthProgress) : AuthProgress :=
  {| actions_taken :=
       {| navigated_to_login := true;
          filled_email := false;
          clicked_continue_after_email := false;
          filled_password := false;
          submitted_login := false |};
     previous_state := previous_state p;
     stuck_counter := stuck_counter p |}.

(** The start of an iteration: compare the page state with the last one *)
Definition track_state (current_state : page_state) (p : AuthProgress) : AuthProgress :=
  match previous_state p with
  | Some s =>
      if page_state_eqb current_state s
      then set_stuck_counter (stuck_counter p + 1) p
      else {| actions_taken := actions_taken p;
              previous_state := Some current_state; stuck_counter := 0 |}
  | None => {| actions_taken := actions_taken p;
               previous_state := Some current_state; stuck_counter := 0 |}
  end.

(** How an iteration of the loop of [authenticate] ends *)
Inductive flow :=
| Continue
| Return (b : bool).

Definition login_text_selectors : list selector :=
  [ css "a" [sel_has_text "Sign in"; sel_not_has_text "Sign up"];
    css "a" [sel_has_text "Log in"; sel_not_has_text "Sign up"];
    css "button" [sel_has_text "Sign in"; sel_not_has_text "Sign up"];
    css "button" [sel_has_text "Log in"; sel_not_has_text "Sign up"];
    css "a" [sel_has_text "Login"; sel_not_has_text "Sign up"];
    css "button" [sel_has_text "Login"; sel_not_has_text "Sign up"] ].

Definition login_href_selectors : list selector :=
  [ css "" [sel_attr "href" attr_contains "/login"; sel_not_attr "href" attr_contains "sign"];
    css "" [sel_attr "href" attr_contains "/signin"; sel_not_attr "href" attr_contains "signup"] ].

Definition email_selectors : list selector :=
  [ css "input" [sel_attr "type" attr_equals "email"];
    css "input" [sel_attr "name" attr_equals "email"];
    css "input" [sel_attr "placeholder" attr_contains_i "email"];
    css "input" [sel_attr "autocomplete" attr_equals "email"];
    css "input" [sel_attr "autocomplete" attr_equals "username"];
    css "input" [sel_attr "id" attr_contains_i "email"];
    css "input" [sel_attr "name" attr_equals "username"] ].

Definition password_visible_selectors : list selector :=
  [ css "input" [sel_attr "type" attr_equals "password"];
    css "input" [sel_attr "autocomplete" attr_equals "current-password"];
    css "input" [sel_attr "name" attr_equals "password"];
    css "input" [sel_attr "id" attr_contains "password"] ].

Definition continue_selectors : list selector :=
  [ css "button" [sel_has_text "Continue"];
    css "button" [sel_has_text "Next"];
    css "button" [sel_has_text "Continue with email"];
    css "button" [sel_attr "type" attr_equals "submit"; sel_visible] ].

Definition password_selectors : list selector :=
  [ css "input" [sel_attr "type" attr_equals "password"];
    css "input" [sel_attr "name" attr_equals "password"];
    css "input" [sel_attr "autocomplete" attr_equals "current-password"];
    css "input" [sel_attr "id" attr_contains_i "password"] ].

Definition submit_selectors : list selector :=
  [ css "button" [sel_has_text "Continue with password"];
    css "button" [sel_has_text "Log in"];
    css "button" [sel_has_text "Sign in"];
    css "button" [sel_has_text "Continue"];
    css "button" [sel_attr "type" attr_equals "submit"; sel_visible];
    css "input" [sel_attr "type" attr_equals "submit"] ].

Definition error_selectors : list selector :=
  [ text_exact "Incorrect password";
    text_exact "Invalid email";
    text_exact "Invalid credentials";
    text_exact "Login failed";
    css "" [sel_attr "role" attr_equals "alert"];
    css "" [sel_class "error"];
    css "" [sel_class "error-message"];
    css "" [sel_attr "class" attr_contains_i "error"] ].

Section AuthHandler.
Context {Σ : Type} {browser : Browser Σ} {reader : JsonReader}.

Variable self : Config.

(** [for selector in selectors: try: body except Exception: log].  A body
    answers [Some a] where it returns [a] from the function, [None] where
    the loop goes on with the next selector. *)
Fixpoint for_selectors {A} (body : selector -> M Σ (option A))
    (selectors : list selector) : M Σ (option A) :=
  match selectors with
  | [] => ret None
  | selector :: rest =>
      r <- try_except (body selector) isinstance_Exception (ret None) ;;
      match r with
      | Some a => ret (Some a)
      | None => for_selectors body rest
      end
  end.

(** [element = query_selector(selector); if element and is_visible(): then_]
    with nothing returned otherwise *)
Definition when_visible {A} (selector : selector)
    (then_ : ElementHandle -> M Σ (option A)) : M Σ (option A) :=
  element <- perform (QuerySelector selector) ;;
  match element with
  | Some el =>
      visible <- perform (ElementIsVisible el) ;;
      if visible : bool then then_ el else ret None
  | None => ret None
  end.

Definition is_signup_text (text_lower : string) : bool :=
  PyStr.contains text_lower "sign up" || PyStr.contains text_lower "signup"
  || PyStr.contains text_lower "register".

Definition click_login_text (selector : selector) : M Σ (option bool) :=
  when_visible selector (fun element =>
    text <- perform (ElementInnerText element) ;;
    let text_lower := PyStr.lower text in
    if is_signup_text text_lower then ret None
    else perform (ElementClick element false None) ;;; ret (Some true)).

Definition click_login_href (selector : selector) : M Σ (option bool) :=
  when_visible selector (fun element =>
    text <- perform (ElementInnerText element) ;;
    if negb (PyStr.contains (PyStr.lower text) "sign up")
       && negb (PyStr.contains (PyStr.lower text) "signup")
    then perform (ElementClick element false None) ;;; ret (Some true)
    else ret None).

Definition _navigate_to_login_page : M Σ bool :=
  r <- for_selectors click_login_text login_text_selectors ;;
  match r with
  | Some b => ret b
  | None =>
      r <- for_selectors click_login_href login_href_selectors ;;
      ret (default false r)
  end.

Definition _fill_email_field (email : string) : M Σ bool :=
  r <- for_selectors (fun selector =>
         when_visible selector (fun element =>
           perform (ElementClick element false None) ;;;
           perform (KeyboardPress "Control+A") ;;;
           perform (ElementFill element email None) ;;;
           ret (Some true)))
       email_selectors ;;
  ret (default false r).

(** The loop of [_is_password_field_visible] has no handler of its own *)
Fixpoint any_visible (selectors : list selector) : M Σ bool :=
  match selectors with
  | [] => ret false
  | selector :: rest =>
      element <- perform (QuerySelector selector) ;;
      match element with
      | Some el =>
          visible <- perform (ElementIsVisible el) ;;
          if visible : bool then ret true else any_visible rest
      | None => any_visible rest
      end
  end.

Definition _is_password_field_visible : M Σ bool :=
  try_except (any_visible password_visible_selectors) isinstance_Exception (ret false).

Definition _click_continue_button : M Σ bool :=
  r <- for_selectors (fun selector =>
         when_visible selector (fun element =>
           perform (ElementClick element false None) ;;; ret (Some true)))
       continue_selectors ;;
  ret (default false r).

Definition _fill_password_field (password : string) : M Σ bool :=
  r <- for_selectors (fun selector =>
         when_visible selector (fun element =>
           perform (ElementClick element false None) ;;;
           sleep 200 ;;;
           perform (KeyboardPress "Control+A") ;;;
           sleep 100 ;;;
           perform (KeyboardPress "Backspace") ;;;
           sleep 100 ;;;
           perform (ElementFill element password None) ;;;
           ret (Some true)))
       password_selectors ;;
  ret (default false r).

Definition _submit_login_form : M Σ bool :=
  r <- for_selectors (fun selector =>
         when_visible selector (fun element =>
           perform (ElementClick element false None) ;;; ret (Some true)))
       submit_selectors ;;
  match r with
  | Some b => ret b
  | None =>
      r <- try_except
             (when_visible (css "input" [sel_attr "type" attr_equals "password"])
                (fun pwd_field =>
                   perform (ElementPress pwd_field "Enter") ;;; ret (Some true)))
             isinstance_Exception (ret None) ;;
      ret (default false r)
  end.

Definition _check_for_error_messages : M Σ (option string) :=
  for_selectors (fun selector =>
    when_visible selector (fun element =>
      text <- perform (ElementInnerText element) ;;
      ret (Some (PyStr.strip text))))
    error_selectors.

Definition _take_screenshot (screenshot_dir : option string) (step : nat) : M Σ string :=
  let name := "auth_step_" ++ PyStr.str_of_nat step ++ ".png" in
  let path := if VisionLoginAgent.opt_truthy screenshot_dir
              then PyPath.joined (default "" screenshot_dir) name
              else "/tmp/" ++ name in
  perform (Screenshot path) ;;;
  ret path.

Definition _get_page_state : M Σ page_state :=
  try_except
    (url <- page_url ;;
     content <- perform Content ;;
     let state_string := url ++ ":" ++ PyStr.slice_to content 500 in
     ret (state_hash (md5 state_string)))
    isinstance_Exception (ret state_empty).

Definition _vision_fallback_action (vision_state : VisionLoginAgent.LoginDecision)
    (screenshot_path : string) : M Σ bool :=
  match som_marker self, action_executor self with
  | Some marker, Some executor =>
      try_except
        (let action := VisionLoginAgent.action vision_state in
         SoMMarker.mark_page marker ;;;
         success <- ActionExecutor.execute executor action ;;
         SoMMarker.remove_markers marker ;;;
         ret success)
        isinstance_Exception (ret false)
  | _, _ => ret false
  end.

Definition _detect_2fa_page : M Σ bool :=
  try_except
    (content <- perform Content ;;
     title <- perform Title ;;
     url <- page_url ;;
     let all_text := PyStr.lower (content ++ " " ++ title ++ " " ++ url) in
     ret (existsb (fun keyword => PyStr.contains all_text (PyStr.lower keyword))
            twofa_keywords))
    isinstance_Exception (ret false).

(** The [while True] of [wait_for_human_intervention].  A round sleeps two
    seconds of loop time, so the test [elapsed > max_wait_seconds] ends the
    loop within [max_wait_seconds / 2 + 2] rounds; [rounds] is that bound. *)
Fixpoint human_wait_loop (rounds : nat) (max_wait_seconds : Z)
    (initial_state : page_state) (initial_url : string) (start_time : Z) : M Σ bool :=
  match rounds with
  | O => ret false
  | S rounds' =>
      now <- loop_time ;;
      let elapsed := now - start_time in
      if max_wait_seconds * 1000 <? elapsed then ret false
      else
        sleep 2000 ;;;
        current_state <- _get_page_state ;;
        current_url <- page_url ;;
        if negb (page_state_eqb current_state initial_state)
           || negb (String.eqb current_url initial_url)
        then ret true
        else human_wait_loop rounds' max_wait_seconds initial_state initial_url start_time
  end.

Definition wait_for_human_intervention (max_wait_seconds : Z) : M Σ bool :=
  initial_state <- _get_page_state ;;
  initial_url <- page_url ;;
  start_time <- loop_time ;;
  human_wait_loop (Z.to_nat (max_wait_seconds / 2 + 2)) max_wait_seconds
    initial_state initial_url start_time.

(** *** The stages of one iteration of [authenticate]

    A stage answers [Some flow] where the source leaves the iteration with
    [continue] or [return], and [None] where control falls through to the
    next stage. *)

(** [if self.stuck_counter >= self.max_stuck_iterations] *)
Definition stuck_stage (vision_state : VisionLoginAgent.LoginDecision)
    (screenshot_path : string) (p : AuthProgress) : M Σ (option flow * AuthProgress) :=
  if max_stuck_iterations <=? stuck_counter p then
    success <- _vision_fallback_action vision_state screenshot_path ;;
    if success : bool
    then sleep 2000 ;;; ret (Some Continue, set_stuck_counter 0 p)
    else ret (None, p)
  else ret (None, p).

(** [if not self.actions_taken["navigated_to_login"]] *)
Definition navigate_stage (vision_state : VisionLoginAgent.LoginDecision)
    (screenshot_path : string) (p : AuthProgress) : M Σ (option flow * AuthProgress) :=
  if navigated_to_login (actions_taken p) then ret (None, p)
  else if json_truthy (VisionLoginAgent.is_login_page vision_state)
  then ret (Some Continue, set_navigated_to_login p)
  else
    navigated <- _navigate_to_login_page ;;
    if navigated : bool
    then sleep 2000 ;;; ret (Some Continue, set_navigated_to_login p)
    else
      match action_type (VisionLoginAgent.action vision_state) with
      | act_click =>
          success <- _vision_fallback_action vision_state screenshot_path ;;
          if success : bool
          then sleep 2000 ;;; ret (Some Continue, set_navigated_to_login p)
          else ret (None, p)
      | _ => ret (None, p)
      end.

(** Step 1: [if not self.actions_taken["filled_email"]] *)
Definition fill_email_stage (email : string) (p : AuthProgress)
    : M Σ (option flow * AuthProgress) :=
  if filled_email (actions_taken p) then ret (None, p)
  else
    filled <- _fill_email_field email ;;
    if filled : bool
    then sleep 500 ;;; ret (Some Continue, set_filled_email p)
    else ret (Some Continue, p).

(** After a click on Continue: an email verification page ends the run *)
Definition verification_after_continue (p : AuthProgress)
    : M Σ (option flow * AuthProgress) :=
  sleep 2000 ;;;
  detected <- _detect_2fa_page ;;
  if detected : bool then
    success <- wait_for_human_intervention 300 ;;
    ret (Some (Return success), p)
  else ret (Some Continue, p).

(** Step 2: [if not self.actions_taken["clicked_continue_after_email"]] *)
Definition continue_stage (vision_state : VisionLoginAgent.LoginDecision)
    (screenshot_path : string) (p : AuthProgress) : M Σ (option flow * AuthProgress) :=
  if clicked_continue_after_email (actions_taken p) then ret (None, p)
  else
    password_visible <- _is_password_field_visible ;;
    if password_visible : bool
    then ret (Some Continue, set_clicked_continue_after_email p)
    else
      continue_clicked <- _click_continue_button ;;
      if continue_clicked : bool
      then verification_after_continue (set_clicked_continue_after_email p)
      else
        success <- _vision_fallback_action vision_state screenshot_path ;;
        if success : bool
        then verification_after_continue (set_clicked_continue_after_email p)
        else sleep 1000 ;;; ret (Some Continue, p).

(** Step 3: [if not self.actions_taken["filled_password"]] *)
Definition fill_password_stage (password : string) (p : AuthProgress)
    : M Σ (option flow * AuthProgress) :=
  if filled_password (actions_taken p) then ret (None, p)
  else
    filled <- _fill_password_field password ;;
    if filled : bool
    then sleep 500 ;;; ret (Some Continue, set_filled_password p)
    else ret (Some Continue, p).

(** Step 4: [if not self.actions_taken["submitted_login"]] *)
Definition submit_stage (p : AuthProgress) : M Σ (option flow * AuthProgress) :=
  if submitted_login (actions_taken p) then ret (None, p)
  else
    submitted <- _submit_login_form ;;
    if submitted : bool then
      let p := set_submitted_login p in
      sleep 3000 ;;;
      detected <- _detect_2fa_page ;;
      if detected : bool then
        success <- wait_for_human_intervention 300 ;;
        if success : bool then ret (None, p) else ret (Some (Return false), p)
      else ret (None, p)
    else ret (None, p).

(** The check for errors that ends an iteration *)
Definition error_stage (p : AuthProgress) : M Σ (option flow * AuthProgress) :=
  error_msg <- _check_for_error_messages ;;
  if VisionLoginAgent.opt_truthy error_msg
  then sleep 2000 ;;; ret (Some Continue, _reset_actions p)
  else ret (Some Continue, p).

(** Run [next] where [stage] falls through *)
Definition and_then (stage : M Σ (option flow * AuthProgress))
    (next : AuthProgress -> M Σ (option flow * AuthProgress))
    : M Σ (option flow * AuthProgress) :=
  r <- stage ;;
  match r with
  | (Some f, p) => ret (Some f, p)
  | (None, p) => next p
  end.

(** The stages that follow the check [is_logged_in] *)
Definition stages (vision_state : VisionLoginAgent.LoginDecision)
    (screenshot_path email password : string) (p : AuthProgress)
    : M Σ (option flow * AuthProgress) :=
  and_then (stuck_stage vision_state screenshot_path p) (fun p =>
  and_then (navigate_stage vision_state screenshot_path p) (fun p =>
  and_then (fill_email_stage email p) (fun p =>
  and_then (continue_stage vision_state screenshot_path p) (fun p =>
  and_then (fill_password_stage password p) (fun p =>
  and_then (submit_stage p) error_stage))))).

(** The part of an iteration before the stages: page state, markers,
    screenshot, the decision of the login agent *)
Definition observe (credentials : gmap string string) (screenshot_dir : option string)
    (step : nat) (p : AuthProgress)
    : M Σ (VisionLoginAgent.LoginDecision * string * AuthProgress) :=
  sleep 1000 ;;;
  current_state <- _get_page_state ;;
  let p := track_state current_state p in
  match som_marker self with
  | Some marker => SoMMarker.mark_page marker ;;; ret tt
  | None => ret tt
  end ;;;
  screenshot_path <- _take_screenshot screenshot_dir step ;;
  current_url <- page_url ;;
  vision_state <- VisionLoginAgent.decide_login_action screenshot_path credentials
                    [] current_url ;;
  match som_marker self with
  | Some marker => SoMMarker.remove_markers marker
  | None => ret tt
  end ;;;
  ret (vision_state, screenshot_path, p).

(** The body of [for step in range(1, max_steps + 1)] *)
Definition auth_step (credentials : gmap string string) (email password : string)
    (screenshot_dir : option string) (step : nat) (p : AuthProgress)
    : M Σ (flow * AuthProgress) :=
  o <- observe credentials screenshot_dir step p ;;
  let '(vision_state, screenshot_path, p) := o in
  if json_truthy (VisionLoginAgent.is_logged_in vision_state)
  then ret (Return true, p)
  else
    r <- stages vision_state screenshot_path email password p ;;
    ret (default Continue (fst r), snd r).

Fixpoint auth_loop (credentials : gmap string string) (email password : string)
    (screenshot_dir : option string) (remaining step : nat) (p : AuthProgress)
    : M Σ (bool * AuthProgress) :=
  match remaining with
  | O => ret (false, p)
  | S remaining' =>
      r <- auth_step credentials email password screenshot_dir step p ;;
      match r with
      | (Return b, p) => ret (b, p)
      | (Continue, p) =>
          auth_loop credentials email password screenshot_dir remaining' (S step) p
      end
  end.

(** [authenticate]: the result and the handler's fields at the end *)
Definition authenticate (credentials : gmap string string) (max_steps : nat)
    (screenshot_dir : option string) (p : AuthProgress) : M Σ (bool * AuthProgress) :=
  let email := VisionLoginAgent.str_or (credentials !! "email") (credentials !! "username") in
  let password := credentials !! "password" in
  if negb (VisionLoginAgent.opt_truthy email) || negb (VisionLoginAgent.opt_truthy password)
  then ret (false, p)
  else auth_loop credentials (default "" email) (default "" password)
         screenshot_dir max_steps 1 p.

End AuthHandler.
End AuthHandler.

(** ** A mock page

    A static document given by its interactive elements in marker order, a
    script of the successive answers of [page.content()], and a script of
    the replies of the language model.  The scripts of the executor behave
    as their JavaScript does on such a document. *)
Module Mock.

Record Element := {
  e_tag : string;
  e_text : string;
  e_attrs : list (string * string);
  e_classes : list string;
  e_visible : bool
}.

Record Page := {
  elements : list Element;
  contents : list string;
  replies : list string;
  title : string;
  url : string;
  clock : Z
}.

Fixpoint attr (attrs : list (string * string)) (name : string) : option string :=
  match attrs with
  | [] => None
  | (n, v) :: rest => if String.eqb n name then Some v else attr rest name
  end.

Definition attr_matches (e : Element) (name : string) (op : attr_op) (v : string) : bool :=
  match attr (e_attrs e) name with
  | None => false
  | Some a =>
      match op with
      | attr_equals => String.eqb a v
      | attr_contains => PyStr.contains a v
      | attr_contains_i => PyStr.contains (PyStr.lower a) (PyStr.lower v)
      end
  end.

Definition has_text (e : Element) (t : string) : bool :=
  PyStr.contains (PyStr.lower (e_text e)) (PyStr.lower t).

Definition simple_matches (e : Element) (c : simple_selector) : bool :=
  match c with
  | sel_attr n op v => attr_matches e n op v
  | sel_not_attr n op v => negb (attr_matches e n op v)
  | sel_has_text t => has_text e t
  | sel_not_has_text t => negb (has_text e t)
  | sel_class c => existsb (String.eqb c) (e_classes e)
  | sel_visible => e_visible e
  end.

Definition matches (s : selector) (e : Element) : bool :=
  match s with
  | css tag conds =>
      (String.eqb tag "" || String.eqb tag (e_tag e)) && forallb (simple_matches e) conds
  | text_exact t => String.eqb (e_text e) t
  end.

(** [query_selector]: the first match in document order *)
Fixpoint first_match (s : selector) (l : list Element) (i : nat) : option ElementHandle :=
  match l with
  | [] => None
  | e :: rest => if matches s e then Some i else first_match s rest (S i)
  end.

Definition info (i : nat) (e : Element) : ElementInfo :=
  {| marker_id := Z.of_nat i; tag_name := e_tag e; text := Some (e_text e);
     role := attr (e_attrs e) "role"; aria_label := attr (e_attrs e) "aria-label";
     placeholder := attr (e_attrs e) "placeholder"; href := attr (e_attrs e) "href";
     type := attr (e_attrs e) "type" |}.

(** An answer read off an element; a stale handle raises *)
Definition on_element {R} (p : Page) (el : ElementHandle) (f : Element -> R) : Res R * Page :=
  match elements p !! el with
  | Some e => (Ok (f e), p)
  | None => (Raise PlaywrightError, p)
  end.

Definition pop_content (p : Page) : Res string * Page :=
  match contents p with
  | [] => (Ok "", p)
  | c :: rest =>
      (Ok c, {| elements := elements p; contents := rest; replies := replies p;
                title := title p; url := url p; clock := clock p |})
  end.

Definition pop_reply (p : Page) : Res string * Page :=
  match replies p with
  | [] => (Raise OSError, p)
  | c :: rest =>
      (Ok c, {| elements := elements p; contents := contents p; replies := rest;
                title := title p; url := url p; clock := clock p |})
  end.

Definition count (p : Page) : Z := Z.of_nat (length (elements p)).

(** A negative index reads [undefined] from a JavaScript array; the
    scripts that then touch the element throw *)
Definition answer (R : Type) (c : call R) (p : Page) : Res R * Page :=
  match c in call R return Res R * Page with
  | MarkerScript _ => (Ok (imap info (elements p)), p)
  | RemoveMarkersScript => (Ok tt, p)
  | HighlightScript _ _ k => if k <? 0 then (Raise PlaywrightError, p) else (Ok tt, p)
  | GetElementScript k =>
      (Ok (if (0 <=? k) && (k <? count p) then Some (Z.to_nat k) else None), p)
  | ClickScript k =>
      if k <? count p
      then (if k <? 0 then (Raise PlaywrightError, p) else (Ok true, p))
      else (Ok false, p)
  | ScrollBy _ => (Ok tt, p)
  | Goto _ _ => (Ok tt, p)
  | WaitForLoadState _ => (Ok tt, p)
  | KeyboardType _ _ => (Ok tt, p)
  | KeyboardPress _ => (Ok tt, p)
  | ElementClick el _ _ => on_element p el (fun _ => tt)
  | ElementFill el _ _ => on_element p el (fun _ => tt)
  | ElementPress el _ => on_element p el (fun _ => tt)
  | ElementTagName el => on_element p el e_tag
  | ElementGetAttribute el name => on_element p el (fun e => attr (e_attrs e) name)
  | ElementIsContentEditable el => on_element p el (fun _ => false)
  | ElementIsVisible el => on_element p el e_visible
  | ElementInnerText el => on_element p el e_text
  | QuerySelector s => (Ok (first_match s (elements p) 0), p)
  | Content => pop_content p
  | Title => (Ok (title p), p)
  | Screenshot _ => (Ok tt, p)
  | ReadFile _ => (Ok "", p)
  | LlmCreate _ _ _ _ => pop_reply p
  end.

Definition pass_time (ms : Z) (p : Page) : Page :=
  {| elements := elements p; contents := contents p; replies := replies p;
     title := title p; url := url p; clock := clock p + ms |}.

#[global] Instance browser : Browser Page :=
  {| respond := answer; elapse := pass_time;
     url_of := url; time_of := clock |}.

(** [json.dumps] for documents whose strings need no escape *)
Fixpoint dumps (j : json) : string :=
  match j with
  | JNull => "null"
  | JBool true => "true"
  | JBool false => "false"
  | JInt n => VisionLoginAgent.str_of_Z n
  | JFloat m e => VisionLoginAgent.str_of_Z m ++ "e" ++ VisionLoginAgent.str_of_Z e
  | JStr s => VisionLoginAgent.dquote ++ s ++ VisionLoginAgent.dquote
  | JList l => "[" ++ VisionLoginAgent.join ", " (map dumps l) ++ "]"
  | JDict d =>
      "{" ++ VisionLoginAgent.join ", "
               (map (fun kv => VisionLoginAgent.dquote ++ fst kv ++ VisionLoginAgent.dquote
                               ++ ": " ++ dumps (snd kv)) d) ++ "}"
  end.

(** A reader that decodes the documents it is given, each from its
    serialisation, and rejects every other text *)
Definition reader (documents : list json) : JsonReader :=
  {| json_loads s := List.find (fun j => String.eqb (dumps j) s) documents |}.

Definition start (p : Page) : World Page := {| page := p; trace := [] |}.

Definition blank : Page :=
  {| elements := []; contents := []; replies := []; title := ""; url := ""; clock := 0 |}.

Definition with_elements (l : list Element) : Page :=
  {| elements := l; contents := []; replies := []; title := ""; url := ""; clock := 0 |}.

Definition with_contents (l : list string) : Page :=
  {| elements := []; contents := l; replies := []; title := ""; url := ""; clock := 0 |}.

End Mock.

(** ** Observations on states, traces and runs, for the statements *)

(** The milestones that a change from [p] to [p'] un-sets all satisfy [allowed]. *)
Definition only_unsets (allowed : AuthHandler.milestone -> bool)
    (p p' : AuthHandler.AuthProgress) : Prop :=
  forall k, AuthHandler.taken (AuthHandler.actions_taken p) k = true ->
            AuthHandler.taken (AuthHandler.actions_taken p') k = false ->
            allowed k = true.

(** The milestones that concern the secret: its entry and the submission
    that follows it *)
Definition secret_related (k : AuthHandler.milestone) : bool :=
  match k with
  | AuthHandler.k_filled_password | AuthHandler.k_submitted_login => true
  | _ => false
  end.

(** Every milestone but the navigation *)
Definition form_milestone (k : AuthHandler.milestone) : bool :=
  match k with
  | AuthHandler.k_navigated_to_login => false
  | _ => true
  end.



(** The markers of the evaluations of the click script, in order: a failed
    [_try_click_marker] ends in exactly one of them *)
Fixpoint click_script_calls (t : list event) : list Z :=
  match t with
  | [] => []
  | e :: rest =>
      match e with
      | Called c _ =>
          match c with
          | ClickScript k => k :: click_script_calls rest
          | _ => click_script_calls rest
          end
      | Slept _ => click_script_calls rest
      end
  end.

(** The element handles clicked by [element.click()], with or without force *)
Fixpoint clicked_elements (t : list event) : list ElementHandle :=
  match t with
  | [] => []
  | e :: rest =>
      match e with
      | Called c _ =>
          match c with
          | ElementClick el _ _ => el :: clicked_elements rest
          | _ => clicked_elements rest
          end
      | Slept _ => clicked_elements rest
      end
  end.

(** A look at the page that changes nothing: a selector query or a
    visibility test *)
Definition is_probe (e : event) : Prop :=
  match e with
  | Called c _ =>
      match c with
      | QuerySelector _ => True
      | ElementIsVisible _ => True
      | _ => False
      end
  | Slept _ => False
  end.

(** The number of calls of [page.content()] *)
Fixpoint content_calls (t : list event) : nat :=
  match t with
  | [] => O
  | e :: rest =>
      match e with
      | Called c _ =>
          match c with
          | Content => S (content_calls rest)
          | _ => content_calls rest
          end
      | Slept _ => content_calls rest
      end
  end.

Definition res_map {A B} (f : A -> B) (r : Res A) : Res B :=
  match r with
  | Ok a => Ok (f a)
  | Raise e => Raise e
  end.

Section Fingerprints.
Context {Σ : Type} {browser : Browser Σ}.

(** One poll of the stability waiter *)
Definition poll : M Σ (Res string) := sleep 300 ;;; attempt (perform Content).

(** The fingerprints that [n] successive polls see from a world *)
Fixpoint fingerprints (n : nat) (w : World Σ) : list (Res hexdigest) :=
  match n with
  | O => []
  | S n' =>
      match poll w with
      | (Ok r, w') => res_map md5 r :: fingerprints n' w'
      | (Raise _, _) => []
      end
  end.

End Fingerprints.

(** The verdict of the polling loop as a function of the fingerprints *)
Fixpoint verdict (polls : list (Res hexdigest)) (previous_hash : option hexdigest)
    (stable_count : Z) : bool + Z :=
  match polls with
  | [] => inr stable_count
  | Raise _ :: _ => inr stable_count
  | Ok current_hash :: rest =>
      if BrowserController.same_hash current_hash previous_hash then
        let stable_count := stable_count + 1 in
        if 3 <=? stable_count then inl true
        else verdict rest (Some current_hash) stable_count
      else verdict rest (Some current_hash) 0
  end.

(** Every poll succeeds and differs from the one before *)
Fixpoint ever_changing (previous_hash : option hexdigest) (polls : list (Res hexdigest))
    : Prop :=
  match polls with
  | [] => True
  | Ok h :: rest => previous_hash <> Some h /\ ever_changing (Some h) rest
  | Raise _ :: _ => False
  end.

(** A credential that is missing or empty *)
Definition absent_or_empty (credentials : gmap string string) (k : string) : Prop :=
  credentials !! k = None \/ credentials !! k = Some "".

Definition is_dict (v : json) : bool :=
  match v with
  | JDict _ => true
  | _ => false
  end.

(** *** Concrete inputs *)

Definition click_action (target description : string) : AgentAction :=
  {| reasoning := ""; action_type := act_click; target := Some target; value := None;
     should_capture_screenshot := true; step_description := description;
     scroll_direction := None |}.

Definition type_action (target value : option string) : AgentAction :=
  {| reasoning := ""; action_type := act_type; target := target; value := value;
     should_capture_screenshot := true; step_description := "";
     scroll_direction := None |}.

(** The handler after a submission: every milestone reached *)
Definition all_done : AuthHandler.AuthProgress :=
  {| AuthHandler.actions_taken :=
       {| AuthHandler.navigated_to_login := true; AuthHandler.filled_email := true;
          AuthHandler.clicked_continue_after_email := true;
          AuthHandler.filled_password := true; AuthHandler.submitted_login := true |};
     AuthHandler.previous_state := None;
     AuthHandler.stuck_counter := 0 |}.

(** A link to the login page whose text speaks of registration first *)
Definition register_or_log_in : Mock.Element :=
  {| Mock.e_tag := "a"; Mock.e_text := "Register or log in";
     Mock.e_attrs := [("href", "/login")]; Mock.e_classes := [];
     Mock.e_visible := true |}.

Definition email_input : Mock.Element :=
  {| Mock.e_tag := "input"; Mock.e_text := "";
     Mock.e_attrs := [("type", "email")]; Mock.e_classes := [];
     Mock.e_visible := true |}.

Definition password_input : Mock.Element :=
  {| Mock.e_tag := "input"; Mock.e_text := "";
     Mock.e_attrs := [("type", "password")]; Mock.e_classes := [];
     Mock.e_visible := true |}.

Definition sign_in_button : Mock.Element :=
  {| Mock.e_tag := "button"; Mock.e_text := "Sign in";
     Mock.e_attrs := [("type", "submit")]; Mock.e_classes := [];
     Mock.e_visible := true |}.

(** The answer of the task-loop oracle with a bare-digit target *)
Definition click_seven : json :=
  JDict [ ("reasoning", JStr "the sign-in button");
          ("action_type", JStr "click");
          ("target", JStr "7");
          ("should_capture_screenshot", JBool true);
          ("step_description", JStr "Click sign in") ].

(** The same action inside a decision of the login oracle *)
Definition login_click_seven : json :=
  JDict [ ("is_login_page", JBool false);
          ("is_logged_in", JBool false);
          ("reasoning", JStr "landing page");
          ("action", JDict [ ("action_type", JStr "click");
                             ("target", JStr "7");
                             ("reasoning", JStr "the sign-in button");
                             ("step_description", JStr "Click sign in") ]) ].

(** A page of eight markers, the sign-in button last *)
Definition eight_markers : Mock.Page :=
  Mock.with_elements (repeat email_input 7 ++ [sign_in_button]).

Definition some_credentials : gmap string string :=
  {[ "email" := "u@x.com"; "password" := "p" ]}.

Definition plain_handler : AuthHandler.Config :=
  {| AuthHandler.som_marker := None; AuthHandler.action_executor := None |}.

(** A page whose login oracle answers [null] *)
Definition null_reply : Mock.Page :=
  {| Mock.elements := []; Mock.contents := []; Mock.replies := ["null"];
     Mock.title := ""; Mock.url := ""; Mock.clock := 0 |}.


(** The element and the text of an answered [inner_text()] *)
Definition read_text (e : event) : option (ElementHandle * string) :=
  match e with
  | Called c r =>
      match c in call R return Res R -> option (ElementHandle * string) with
      | ElementInnerText el =>
          fun r => match r with
                   | Ok text => Some (el, text)
                   | Raise _ => None
                   end
      | _ => fun _ => None
      end r
  | Slept _ => None
  end.

Definition clicked (e : event) : option ElementHandle :=
  match e with
  | Called c _ =>
      match c with
      | ElementClick el _ _ => Some el
      | _ => None
      end
  | Slept _ => None
  end.

(** Every click on an element comes directly after a read of the inner
    text of that element, and the text read satisfies [accepted]. *)
Fixpoint clicks_guarded (accepted : string -> bool) (previous : option event)
    (evs : list event) : Prop :=
  match evs with
  | [] => True
  | e :: rest =>
      match clicked e with
      | Some el =>
          (exists text, previous ≫= read_text = Some (el, text) /\ accepted text = true)
          /\ clicks_guarded accepted (Some e) rest
      | None => clicks_guarded accepted (Some e) rest
      end
  end.

(** The filter of the text selectors, and the filter of the href fallback *)
Definition no_signup_term (text : string) : bool :=
  negb (AuthHandler.is_signup_text (PyStr.lower text)).

Definition no_sign_up (text : string) : bool :=
  negb (PyStr.contains (PyStr.lower text) "sign up")
  && negb (PyStr.contains (PyStr.lower text) "signup").

(** The answer of the login oracle on a login page *)
Definition on_login_page : json :=
  JDict [ ("is_login_page", JBool true);
          ("is_logged_in", JBool false);
          ("reasoning", JStr "a login form");
          ("action", JDict [ ("action_type", JStr "type");
                             ("target", JStr "0");
                             ("value", JStr "u@x.com");
                             ("reasoning", JStr "the email field");
                             ("step_description", JStr "Type the email") ]) ].

(** A login form with identifier and secret on one page *)
Definition single_page_login : Mock.Page :=
  {| Mock.elements := [email_input; password_input; sign_in_button];
     Mock.contents := []; Mock.replies := [Mock.dumps on_login_page];
     Mock.title := "Sign in"; Mock.url := "https://app.example/login";
     Mock.clock := 0 |}.

(** The handler after the identifier was filled *)
Definition identifier_filled : AuthHandler.AuthProgress :=
  AuthHandler.set_filled_email (AuthHandler.set_navigated_to_login AuthHandler.initial).

(** ** A faulty page

    Markers resolve to a handle, and every other call raises. *)
Module Faulty.

Definition answer (R : Type) (c : call R) (p : unit) : Res R * unit :=
  match c in call R return Res R * unit with
  | GetElementScript _ => (Ok (Some O), p)
  | _ => (Raise PlaywrightError, p)
  end.

Definition browser : Browser unit :=
  {| respond := answer; elapse := fun _ p => p;
     url_of := fun _ => ""; time_of := fun _ => 0 |}.

Definition start : World unit := {| page := tt; trace := [] |}.

End Faulty.

(** ** Proof steps for runs *)

(** A run that ends here: name the events it added to the trace. *)
Ltac run_ends :=
  intros [= <- <-]; eexists; (split; [cbn; rewrite <- ?app_assoc; reflexivity|]).

(** ** screenshot/manager.py

    The manager is its two fields that change, the list of records and the
    step counter, next to its output directory.  [time.time()] is an
    argument of [add_screenshot]; a float is kept as the mantissa and the
    exponent of [JFloat].  The creation of the directory in [__init__] is
    left out. *)
Module ScreenshotManager.

Record ScreenshotRecord := {
  path : string;
  description : string;
  action_type : string;
  timestamp : Z * Z;
  element_target : option string;
  step_number : Z
}.

Record ScreenshotManager := {
  output_dir : string;
  screenshots : list ScreenshotRecord;
  step_counter : Z
}.

Definition init (output_dir : string) : ScreenshotManager :=
  {| output_dir := output_dir; screenshots := []; step_counter := 0 |}.

(** The manager after the call, and the record that the call returns *)
Definition add_screenshot (self : ScreenshotManager)
    (screenshot_path description action_type : string) (element_target : option string)
    (now : Z * Z) : ScreenshotManager * ScreenshotRecord :=
  let step_counter := step_counter self + 1 in
  let record :=
    {| path := screenshot_path; description := description; action_type := action_type;
       element_target := element_target; timestamp := now;
       step_number := step_counter |} in
  ({| output_dir := output_dir self;
      screenshots := screenshots self ++ [record];
      step_counter := step_counter |}, record).

Definition get_all_screenshots (self : ScreenshotManager) : list ScreenshotRecord :=
  screenshots self.

Definition get_screenshot_by_step (self : ScreenshotManager) (step_number : Z)
    : option ScreenshotRecord :=
  List.find (fun screenshot => ScreenshotManager.step_number screenshot =? step_number)
    (screenshots self).

Definition clear (self : ScreenshotManager) : ScreenshotManager :=
  {| output_dir := output_dir self; screenshots := []; step_counter := 0 |}.

(** A call that changes the manager *)
Inductive update :=
| Add (screenshot_path description action_type : string) (element_target : option string)
      (now : Z * Z)
| Clear.

Definition apply (self : ScreenshotManager) (u : update) : ScreenshotManager :=
  match u with
  | Add p d a t now => fst (add_screenshot self p d a t now)
  | Clear => clear self
  end.

(** The manager after a sequence of calls, the first call first *)
Definition after (updates : list update) (self : ScreenshotManager) : ScreenshotManager :=
  fold_left apply updates self.

End ScreenshotManager.

(** ** screenshot/guide_generator.py: the JSON guide

    [generate_json] as the dictionary it returns; the writing of the
    dictionary to [output_path], when one is given, is left out. *)
Module GuideGenerator.

Definition step_of (record : ScreenshotManager.ScreenshotRecord) : json :=
  JDict [ ("step_number", JInt (ScreenshotManager.step_number record));
          ("description", JStr (ScreenshotManager.description record));
          ("action_type", JStr (ScreenshotManager.action_type record));
          ("element_target",
           VisionLoginAgent.json_of_opt_str (ScreenshotManager.element_target record));
          ("screenshot_path", JStr (ScreenshotManager.path record));
          ("timestamp", JFloat (fst (ScreenshotManager.timestamp record))
                          (snd (ScreenshotManager.timestamp record))) ].

Definition generate_json (screenshots : list ScreenshotManager.ScreenshotRecord)
    (task_goal : string) : json :=
  JDict [ ("task_goal", JStr task_goal);
          ("total_steps", JInt (Z.of_nat (length screenshots)));
          ("steps", JList (step_of <$> screenshots)) ].

End GuideGenerator.

(** ** agent/vision_agent.py: [decide_next_action]

    The agent's [action_history] is passed in and handed back.  The query
    of the provider ([_call_claude] or [_call_openai], by [self.provider]),
    the builder of the prompt (prompts.py) and the text [str(e)] of an
    exception are parameters.  A float is kept as the mantissa and the
    exponent of [JFloat]. *)
Module TaskAgent.

Record PageState := {
  url : string;
  title : string;
  screenshot_path : option string;
  elements : list ElementInfo;
  dom_hash : option string;
  timestamp : Z * Z
}.

Record AgentResponse := {
  action : AgentAction;
  confidence : Z * Z;
  is_task_complete : bool;
  error : option string
}.

(** An entry of [elements_dict] *)
Record ElementDict := {
  d_marker_id : Z;
  d_tag_name : string;
  d_text : option string;
  d_aria_label : option string;
  d_placeholder : option string;
  d_role : option string
}.

(** An entry of [action_history] *)
Record HistoryEntry := {
  h_action_type : ActionType;
  h_target : option string;
  h_step_description : string
}.

Definition element_dict (el : ElementInfo) : ElementDict :=
  {| d_marker_id := marker_id el; d_tag_name := tag_name el; d_text := text el;
     d_aria_label := aria_label el; d_placeholder := placeholder el;
     d_role := role el |}.

Definition entry_of (a : AgentAction) : HistoryEntry :=
  {| h_action_type := action_type a; h_target := target a;
     h_step_description := step_description a |}.

Definition is_done (k : ActionType) : bool :=
  match k with
  | act_done => true
  | _ => false
  end.

(** [try: m  except C as e: handler e] *)
Definition try_except_as {Σ A} (m : M Σ A) (C : exn -> bool) (handler : exn -> M Σ A)
    : M Σ A :=
  fun w =>
    match m w with
    | (Ok a, w') => (Ok a, w')
    | (Raise e, w') => if C e then handler e w' else (Raise e, w')
    end.

Section TaskAgent.
Context {Σ : Type} {browser : Browser Σ} {reader : JsonReader}.

Variable build_task_prompt :
  string -> string -> list ElementDict -> list HistoryEntry -> string -> string.
Variable call_llm : string -> string -> M Σ string.
Variable str : exn -> string.

(** The agent's [project_objective] *)
Variable project_objective : string.

Definition error_response (e : exn) : AgentResponse :=
  {| action := {| reasoning := "Error: " ++ str e;
                  action_type := act_wait;
                  target := None;
                  value := None;
                  should_capture_screenshot := false;
                  step_description := "Waiting due to error";
                  scroll_direction := None |};
     confidence := (0, 0);
     is_task_complete := false;
     error := Some (str e) |}.

Definition decide_next_action (action_history : list HistoryEntry) (goal : string)
    (current_state : PageState) (screenshot_path : string)
    : M Σ (AgentResponse * list HistoryEntry) :=
  let elements_dict := element_dict <$> elements current_state in
  let task_prompt :=
    build_task_prompt goal (url current_state) elements_dict action_history
      project_objective in
  screenshot_data <- perform (ReadFile screenshot_path) ;;
  try_except_as
    (response <- call_llm task_prompt screenshot_data ;;
     let action := VisionWebAgent._parse_action_response response in
     let action_history := (action_history ++ [entry_of action])%list in
     ret ({| action := action;
             confidence := (85, -2);
             is_task_complete := is_done (action_type action);
             error := None |}, action_history))
    isinstance_Exception
    (fun e => ret (error_response e, action_history)).

(** [reset_history] *)
Definition reset_history (action_history : list HistoryEntry) : list HistoryEntry := [].

End TaskAgent.
End TaskAgent.

(** The marker configuration of tests/test_browser.py: three of the five
    keys *)
Definition three_keys : SoMConfig :=
  [ ("background_color", JStr "#00FF00");
    ("text_color", JStr "#000000");
    ("font_size", JInt 14) ].

(** A handler with the marker and the executor of the vision fallback *)
Definition vision_handler : AuthHandler.Config :=
  {| AuthHandler.som_marker := Some SoMMarker.default_config;
     AuthHandler.action_executor := Some SoMMarker.default_config |}.

(** A handler whose marker has the configuration of three keys *)
Definition three_keys_handler : AuthHandler.Config :=
  {| AuthHandler.som_marker := Some three_keys;
     AuthHandler.action_executor := Some SoMMarker.default_config |}.

(** The step numbers that a guide lists, in order *)
Definition guide_step_numbers (guide : json) : list (option json) :=
  match guide with
  | JDict fields =>
      match dict_get fields "steps" with
      | Some (JList steps) =>
          (fun step => match step with
                       | JDict s => dict_get s "step_number"
                       | _ => None
                       end) <$> steps
      | _ => []
      end
  | _ => []
  end.

Definition guide_total_steps (guide : json) : option json :=
  match guide with
  | JDict fields => dict_get fields "total_steps"
  | _ => None
  end.

(** The records are numbered from [off + 1] on, in order *)
Definition numbered_from (off : nat) (l : list ScreenshotManager.ScreenshotRecord) : Prop :=
  ScreenshotManager.step_number <$> l = (fun i => Z.of_nat i + 1) <$> seq off (length l).

(** The numbers from 1 to [n] *)
Definition one_to (n : nat) : list Z := (fun i => Z.of_nat i + 1) <$> seq 0 n.

(** ** What a computation adds to the trace *)

(** Every event that a run of [m] adds to the trace satisfies [Q],
    whatever the outcome. *)
Definition emits {Σ A} (Q : event -> Prop) (m : M Σ A) : Prop :=
  forall w r w', m w = (r, w') ->
    exists evs, trace w' = (trace w ++ evs)%list /\ Forall Q evs.

(** [m] returns a value from every world. *)
Definition never_raises {Σ A} (m : M Σ A) : Prop :=
  forall w, exists a w', m w = (Ok a, w').

(** Events that only look at the page or wait *)
Definition observes (e : event) : Prop :=
  match e with
  | Called c _ =>
      match c with
      | Content | Title | QuerySelector _ | ElementIsVisible _
      | ElementInnerText _ => True
      | _ => False
      end
  | Slept _ => True
  end.

(** What a type action at marker [k] with the text [v] may do: resolve and
    highlight markers from [k] to [k + 4], inspect elements, click an
    element without force, and fill or type exactly [v] *)
Definition typing_event (k : Z) (v : string) (e : event) : Prop :=
  match e with
  | Called c _ =>
      match c with
      | HighlightScript _ _ j => k <= j <= k + 4
      | GetElementScript j => k <= j <= k + 4
      | ElementFill _ text _ => text = v
      | KeyboardType text _ => text = v
      | ElementClick _ force _ => force = false
      | ElementTagName _ | ElementGetAttribute _ _
      | ElementIsContentEditable _ => True
      | _ => False
      end
  | Slept _ => True
  end.

(** What a click action at marker [k] may do: highlight [k], resolve [k]
    and read the tag and the type of its element, then resolve and click
    markers from [k - 1] to [k + 2], every click on an element forced and
    with a timeout of two seconds, and wait half a second *)
Definition clicking_event (k : Z) (e : event) : Prop :=
  match e with
  | Called c _ =>
      match c with
      | HighlightScript _ _ j => j = k
      | GetElementScript j | ClickScript j => k - 1 <= j <= k + 2
      | ElementClick _ force timeout => force = true /\ timeout = Some 2000
      | ElementTagName _ => True
      | ElementGetAttribute _ name => name = "type"
      | _ => False
      end
  | Slept ms => ms = 500
  end.

Definition done_action : AgentAction :=
  {| reasoning := ""; action_type := act_done; target := None; value := None;
     should_capture_screenshot := true; step_description := "";
     scroll_direction := None |}.

Definition scroll_action (direction : option ScrollDirection) : AgentAction :=
  {| reasoning := ""; action_type := act_scroll; target := None; value := None;
     should_capture_screenshot := true; step_description := "";
     scroll_direction := direction |}.


(** An event that is no query of the language model *)
Definition no_llm (e : event) : Prop :=
  match e with
  | Called c _ =>
      match c with
      | LlmCreate _ _ _ _ => False
      | _ => True
      end
  | Slept _ => True
  end.

(** The number of queries of the language model *)
Fixpoint llm_calls (t : list event) : nat :=
  match t with
  | [] => O
  | e :: rest =>
      match e with
      | Called c _ =>
          match c with
          | LlmCreate _ _ _ _ => S (llm_calls rest)
          | _ => llm_calls rest
          end
      | Slept _ => llm_calls rest
      end
  end.

(** A run of [m] queries the language model at most [n] times. *)
Definition queries_at_most {Σ A} (n : nat) (m : M Σ A) : Prop :=
  forall w r w', m w = (r, w') ->
    exists evs, trace w' = (trace w ++ evs)%list /\ (llm_calls evs <= n)%nat.

(** What filling a field with [text] may do: look for the field, click it,
    press keys, wait, and fill in exactly [text] *)
Definition filling_event (text : string) (e : event) : Prop :=
  match e with
  | Called c _ =>
      match c with
      | QuerySelector _ | ElementIsVisible _ | KeyboardPress _ => True
      | ElementClick _ force _ => force = false
      | ElementFill _ filled _ => filled = text
      | _ => False
      end
  | Slept _ => True
  end.

(** The milestones of the form were reached in order: a submission only
    after the password, the password only after the advance step, the
    advance step only after the identifier *)
Definition in_order (a : AuthHandler.ActionsTaken) : bool :=
  implb (AuthHandler.submitted_login a) (AuthHandler.filled_password a)
  && implb (AuthHandler.filled_password a) (AuthHandler.clicked_continue_after_email a)
  && implb (AuthHandler.clicked_continue_after_email a) (AuthHandler.filled_email a).

(** What the helpers that click or submit may do: look for an element,
    read its text, click it without force, press Enter in it *)
Definition pressing_event (e : event) : Prop :=
  match e with
  | Called c _ =>
      match c with
      | QuerySelector _ | ElementIsVisible _ | ElementInnerText _ => True
      | ElementClick _ force timeout => force = false /\ timeout = None
      | ElementPress _ key => key = "Enter"
      | _ => False
      end
  | Slept _ => False
  end.

(** The run from [w] to [w'] ended on an event that [P] describes. *)
Definition ended_on {Σ} (P : event -> Prop) (w w' : World Σ) : Prop :=
  exists pre ev, trace w' = (trace w ++ pre ++ [ev])%list /\ P ev.

(** [m] answers [True] only directly after an event that [P] describes. *)
Definition true_only_after {Σ} (P : event -> Prop) (m : M Σ bool) : Prop :=
  forall w w', m w = (Ok true, w') -> ended_on P w w'.

(** A fill of an element with [text] that did not raise *)
Definition filled (text : string) (e : event) : Prop :=
  exists el, e = Called (ElementFill el text None) (Ok tt).

(** A click on an element, without force, that did not raise *)
Definition clicked_it (e : event) : Prop :=
  exists el, e = Called (ElementClick el false None) (Ok tt).

(** A press of Enter in an element that did not raise *)
Definition pressed_enter (e : event) : Prop :=
  exists el, e = Called (ElementPress el "Enter") (Ok tt).


(** *** Further concrete inputs *)

Definition navigate_action (url : option string) : AgentAction :=
  {| reasoning := ""; action_type := act_navigate; target := None; value := url;
     should_capture_screenshot := true; step_description := "";
     scroll_direction := None |}.

(** A sign-in form on one page; the oracle answers with text that is no
    JSON document *)
Definition sign_in_form : Mock.Page :=
  {| Mock.elements := [email_input; password_input; sign_in_button];
     Mock.contents := []; Mock.replies := repeat "wait" 6;
     Mock.title := "Sign in"; Mock.url := "https://app.example/login";
     Mock.clock := 0 |}.

(** A password field that the page keeps hidden *)
Definition hidden_password_input : Mock.Element :=
  {| Mock.e_tag := "input"; Mock.e_text := "";
     Mock.e_attrs := [("type", "password")]; Mock.e_classes := [];
     Mock.e_visible := false |}.

(** A login form with a hidden password field before the visible one *)
Definition decoy_login : Mock.Page :=
  {| Mock.elements := [email_input; hidden_password_input; password_input; sign_in_button];
     Mock.contents := []; Mock.replies := [Mock.dumps on_login_page];
     Mock.title := "Sign in"; Mock.url := "https://app.example/login";
     Mock.clock := 0 |}.

(** The answer of the login oracle with a click on a marker that the page
    does not have *)
Definition click_nine : json :=
  JDict [ ("is_login_page", JBool true);
          ("is_logged_in", JBool false);
          ("reasoning", JStr "a login form");
          ("action", JDict [ ("action_type", JStr "click");
                             ("target", JStr "[9]");
                             ("reasoning", JStr "the continue button");
                             ("step_description", JStr "Click continue") ]) ].

(** The single-page login form, with that answer of the oracle *)
Definition stuck_login : Mock.Page :=
  {| Mock.elements := [email_input; password_input; sign_in_button];
     Mock.contents := []; Mock.replies := [Mock.dumps click_nine];
     Mock.title := "Sign in"; Mock.url := "https://app.example/login";
     Mock.clock := 0 |}.

(** The handler after the identifier was filled and two iterations that
    left the page of [stuck_login] as it was *)
Definition identifier_filled_stuck : AuthHandler.AuthProgress :=
  {| AuthHandler.actions_taken := AuthHandler.actions_taken identifier_filled;
     AuthHandler.previous_state :=
       Some (AuthHandler.state_hash (md5 "https://app.example/login:"));
     AuthHandler.stuck_counter := 2 |}.

(** The iteration of [authenticate] on [decoy_login], the identifier filled *)
Definition decoy_iteration
    : Res (AuthHandler.flow * AuthHandler.AuthProgress) * World Mock.Page :=
  AuthHandler.auth_step (reader := Mock.reader [on_login_page]) plain_handler
    some_credentials "u@x.com" "p" None 3 identifier_filled (Mock.start decoy_login).

(** The iteration of [authenticate] on [stuck_login] that reaches the
    threshold of the stuck detection *)
Definition stuck_iteration
    : Res (AuthHandler.flow * AuthHandler.AuthProgress) * World Mock.Page :=
  AuthHandler.auth_step (reader := Mock.reader [click_nine]) vision_handler
    some_credentials "u@x.com" "p" None 3 identifier_filled_stuck (Mock.start stuck_login).

(** ** Proof steps for trace properties *)

(** Take apart a computation along its syntax; the loops need their own
    lemmas, given as hints of the database [emits]. *)
Create HintDb emits discriminated.

(** * Properties *)

(** ** Python strings *)

Example int_of_bracketed : PyStr.int (PyStr.slice "[15]" 1 (-1)) = Some 15.
Proof. reflexivity. Qed.

Example int_of_negative : PyStr.int "-1" = Some (-1).
Proof. reflexivity. Qed.

Example int_of_empty : PyStr.int "" = None.
Proof. reflexivity. Qed.

Example find_braces :
  PyStr.find "say {x}" "{" = 4 /\ PyStr.rfind "say {x}" "}" = 6
  /\ PyStr.find "none" "{" = -1 /\ PyStr.rfind "none" "}" = -1.
Proof. repeat split. Qed.

Example slice_to_last : PyStr.slice "abcdef" 2 (-1) = "cde".
Proof. reflexivity. Qed.

Lemma isdigit_first (s : string) :
  PyStr.isdigit s = true ->
  exists c t, s = String c t /\ PyStr.is_digit c = true.
Proof.
  destruct s as [|c t]; simpl; [discriminate|].
  intros E. apply andb_true_iff in E as [E _]. eauto.
Qed.

(** A string that starts with a digit is no marker target. *)
Lemma digits_are_no_marker_target (s : string) :
  PyStr.isdigit s = true -> ActionExecutor.is_marker_target s = false.
Proof.
  intros E. destruct (isdigit_first s E) as (c & t & -> & D).
  unfold ActionExecutor.is_marker_target, PyStr.startswith.
  cbn [String.prefix].
  destruct (ascii_dec "[" c) as [<-|]; [discriminate D|reflexivity].
Qed.

Lemma isdigit_truthy (s : string) : PyStr.isdigit s = true -> PyStr.truthy s = true.
Proof. destruct s; [discriminate|reflexivity]. Qed.

(** ** The monad *)

Lemma try_except_all_ok {Σ A} (m handler : M Σ A) (w : World Σ) :
  (forall w0, exists a w1, handler w0 = (Ok a, w1)) ->
  exists a w', try_except m isinstance_Exception handler w = (Ok a, w').
Proof.
  intros Hh. unfold try_except.
  destruct (m w) as [[a|e] w']; [eauto|]. simpl. apply Hh.
Qed.

(** ** C1: the retry reset *)

(** C1, as amended.  [_reset_actions] leaves the navigation milestone set
    (it sets it, whatever it was), un-sets the four milestones of the form
    (identifier, advance, secret, submission) and nothing else, and keeps
    the stuck counter and the last page state. *)
Theorem reset_keeps_navigation_and_unsets_the_form (p : AuthHandler.AuthProgress) :
  let p' := AuthHandler._reset_actions p in
  AuthHandler.navigated_to_login (AuthHandler.actions_taken p') = true
  /\ (forall k, form_milestone k = true ->
                AuthHandler.taken (AuthHandler.actions_taken p') k = false)
  /\ only_unsets form_milestone p p'
  /\ AuthHandler.previous_state p' = AuthHandler.previous_state p
  /\ AuthHandler.stuck_counter p' = AuthHandler.stuck_counter p.
Proof.
  simpl. repeat split.
  - intros [] E; simpl in *; congruence.
  - intros [] E1 E2; simpl in *; congruence.
Qed.

Lemma reset_witness :
  AuthHandler.navigated_to_login
    (AuthHandler.actions_taken (AuthHandler._reset_actions all_done)) = true
  /\ AuthHandler.taken (AuthHandler.actions_taken (AuthHandler._reset_actions all_done))
       AuthHandler.k_filled_password = false.
Proof.
  destruct (reset_keeps_navigation_and_unsets_the_form all_done) as (Hn & Hf & _).
  split; [exact Hn|]. apply Hf. reflexivity.
Defined.

(** C1, as stated, fails: after a submission the reset un-sets the
    identifier milestone, which is not secret-related. *)
Lemma reset_unsets_the_identifier_milestone :
  AuthHandler.taken (AuthHandler.actions_taken all_done) AuthHandler.k_filled_email = true
  /\ AuthHandler.taken (AuthHandler.actions_taken (AuthHandler._reset_actions all_done))
       AuthHandler.k_filled_email = false
  /\ secret_related AuthHandler.k_filled_email = false
  /\ ~ only_unsets secret_related all_done (AuthHandler._reset_actions all_done).
Proof.
  repeat split.
  intros Hc. specialize (Hc AuthHandler.k_filled_email eq_refl eq_refl). discriminate Hc.
Qed.

(** ** C2: a target of bare digits *)

(** The executor takes a target of bare digits for a description: a click
    on it fails before any call reaches the page. *)
Lemma execute_rejects_bare_digits {Σ} {browser : Browser Σ} (self : SoMConfig)
    (action : AgentAction) (digits : string) (w : World Σ) :
  action_type action = act_click -> target action = Some digits ->
  PyStr.isdigit digits = true ->
  ActionExecutor.execute self action w = (Ok false, w).
Proof.
  intros Hk Ht Hd. unfold ActionExecutor.execute, try_except. rewrite Hk.
  unfold ActionExecutor._execute_click. rewrite Ht.
  rewrite (isdigit_truthy _ Hd), (digits_are_no_marker_target _ Hd). reflexivity.
Qed.

(** The login agent puts a target of digits into brackets. *)
Lemma fix_target_brackets_digits (digits : string) :
  PyStr.isdigit digits = true ->
  VisionLoginAgent.fix_target (JStr digits) = Ok (JStr ("[" ++ digits ++ "]")).
Proof.
  intros Hd. unfold VisionLoginAgent.fix_target. simpl.
  rewrite (isdigit_truthy _ Hd), Hd. reflexivity.
Qed.

(** C2, on the code.  The answer [{"action_type": "click", "target": "7", ...}]
    of the task-loop oracle is parsed into an action whose target is still
    ["7"], and [execute] returns [False] for it without touching a page that
    has a marker 7.  The same action inside a decision of the login oracle
    comes out of [decide_login_action]'s parser with the target ["[7]"], and
    [execute] then clicks marker 7. *)
Theorem task_loop_keeps_bare_digit_target :
  let task_action :=
    VisionWebAgent._parse_action_response (reader := Mock.reader [click_seven])
      (Mock.dumps click_seven) in
  let login_decision :=
    VisionLoginAgent.parse_login_decision (reader := Mock.reader [login_click_seven])
      ∅ (Mock.dumps login_click_seven) in
  action_type task_action = act_click
  /\ target task_action = Some "7"
  /\ ActionExecutor.execute SoMMarker.default_config task_action (Mock.start eight_markers)
     = (Ok false, Mock.start eight_markers)
  /\ (exists d, login_decision = Ok d
        /\ target (VisionLoginAgent.action d) = Some "[7]"
        /\ exists w, ActionExecutor.execute SoMMarker.default_config
                       (VisionLoginAgent.action d) (Mock.start eight_markers) = (Ok true, w)
                     /\ clicked_elements (trace w) = [7%nat]).
Proof.
  split; [vm_compute; reflexivity|].
  split; [vm_compute; reflexivity|].
  split; [vm_compute; reflexivity|].
  eexists. split; [vm_compute; reflexivity|].
  split; [vm_compute; reflexivity|].
  eexists. split; vm_compute; reflexivity.
Qed.

(** ** C3: the stability waiter *)

Lemma same_hash_refl (h : hexdigest) : BrowserController.same_hash h (Some h) = true.
Proof. destruct h. simpl. apply String.eqb_refl. Qed.

Lemma same_hash_differs (h : hexdigest) (previous_hash : option hexdigest) :
  previous_hash <> Some h -> BrowserController.same_hash h previous_hash = false.
Proof.
  destruct previous_hash as [[x]|], h as [y]; simpl; [|reflexivity].
  intros Hne. destruct (String.eqb_spec y x) as [->|]; [|reflexivity].
  contradiction Hne. reflexivity.
Qed.

Lemma content_calls_app (a b : list event) :
  content_calls (a ++ b) = (content_calls a + content_calls b)%nat.
Proof.
  induction a as [|e a IH]; [reflexivity|].
  simpl. destruct e as [R c r|ms]; [|exact IH].
  destruct c; simpl; rewrite IH; reflexivity.
Qed.

(** The loop decides as [verdict] does on the fingerprints it polls. *)
Lemma poll_loop_verdict {Σ} {browser : Browser Σ} (n : nat) :
  forall (previous_hash : option hexdigest) (stable_count : Z) (w : World Σ),
    fst (BrowserController.poll_loop n previous_hash stable_count w)
    = Ok (verdict (fingerprints n w) previous_hash stable_count).
Proof.
  induction n as [|n IH]; intros previous_hash stable_count w; [reflexivity|].
  cbn [BrowserController.poll_loop fingerprints].
  unfold poll, bind, sleep, attempt, perform. cbn.
  destruct (respond string Content (elapse 300 (page w))) as [[dom|e] p]; cbn;
    [|reflexivity].
  destruct (BrowserController.same_hash (md5 dom) previous_hash).
  - destruct (3 <=? stable_count + 1); [reflexivity|apply IH].
  - apply IH.
Qed.

Lemma wait_for_stability_verdict {Σ} {browser : Browser Σ} (max_attempts : nat)
    (w : World Σ) :
  fst (BrowserController.wait_for_stability max_attempts w)
  = Ok match verdict (fingerprints max_attempts w) None 0 with
       | inl b => b
       | inr stable_count => 2 <=? stable_count
       end.
Proof.
  unfold BrowserController.wait_for_stability, bind.
  pose proof (poll_loop_verdict max_attempts None 0 w) as V.
  destruct (BrowserController.poll_loop max_attempts None 0 w) as [r w'].
  simpl in V. subst r.
  destruct (verdict (fingerprints max_attempts w) None 0) as [b|c]; [reflexivity|].
  unfold try_except, perform, ret.
  destruct (respond unit (WaitForLoadState 5000) (page w')) as [[u|e] p]; reflexivity.
Qed.

Lemma verdict_same (h : hexdigest) (rest : list (Res hexdigest)) (stable_count : Z) :
  verdict (Ok h :: rest) (Some h) stable_count
  = if 3 <=? stable_count + 1 then inl true
    else verdict rest (Some h) (stable_count + 1).
Proof. cbn [verdict]. rewrite same_hash_refl. reflexivity. Qed.

(** One successful poll: the loop returns true, or goes on from the
    polled hash with a count that is not negative. *)
Lemma verdict_step (h : hexdigest) (rest : list (Res hexdigest))
    (previous_hash : option hexdigest) (stable_count : Z) :
  0 <= stable_count ->
  verdict (Ok h :: rest) previous_hash stable_count = inl true
  \/ exists c, 0 <= c
       /\ verdict (Ok h :: rest) previous_hash stable_count = verdict rest (Some h) c.
Proof.
  intros Hc. cbn [verdict].
  destruct (BrowserController.same_hash h previous_hash).
  - destruct (3 <=? stable_count + 1); [left; reflexivity|].
    right. exists (stable_count + 1). split; [lia|reflexivity].
  - right. exists 0. split; [lia|reflexivity].
Qed.

(** Three identical polls in a row leave a count of at least two. *)
Lemma verdict_three_identical (h : hexdigest) (rest : list (Res hexdigest))
    (previous_hash : option hexdigest) (stable_count : Z) :
  0 <= stable_count ->
  verdict ([Ok h; Ok h; Ok h] ++ rest) previous_hash stable_count = inl true
  \/ exists c, 2 <= c
       /\ verdict ([Ok h; Ok h; Ok h] ++ rest) previous_hash stable_count
          = verdict rest (Some h) c.
Proof.
  intros Hc. cbn [app].
  destruct (verdict_step h ([Ok h; Ok h] ++ rest) previous_hash stable_count Hc)
    as [E|(c & Hc0 & E)]; [left; exact E|].
  cbn [app] in E. rewrite E, verdict_same.
  destruct (3 <=? c + 1); [left; reflexivity|].
  rewrite verdict_same.
  destruct (3 <=? c + 1 + 1); [left; reflexivity|].
  right. exists (c + 1 + 1). split; [lia|reflexivity].
Qed.

Lemma verdict_skip_earlier (P : bool + Z -> Prop) (tail : list (Res hexdigest)) :
  P (inl true) ->
  (forall previous_hash stable_count,
      0 <= stable_count -> P (verdict tail previous_hash stable_count)) ->
  forall (earlier : list hexdigest) previous_hash stable_count,
    0 <= stable_count ->
    P (verdict ((Ok <$> earlier) ++ tail) previous_hash stable_count).
Proof.
  intros Ht Htail earlier.
  induction earlier as [|g earlier IH]; intros previous_hash stable_count Hc.
  - apply Htail, Hc.
  - cbn [fmap list_fmap app].
    destruct (verdict_step g ((Ok <$> earlier) ++ tail) previous_hash stable_count Hc)
      as [E|(c & Hc0 & E)].
    + rewrite E. exact Ht.
    + rewrite E. apply IH, Hc0.
Qed.

Lemma verdict_four_identical (earlier : list hexdigest) (h : hexdigest)
    (later : list (Res hexdigest)) :
  verdict ((Ok <$> earlier) ++ [Ok h; Ok h; Ok h; Ok h] ++ later) None 0 = inl true.
Proof.
  apply (verdict_skip_earlier (fun v => v = inl true)); [reflexivity| |lia].
  intros previous_hash stable_count Hc.
  destruct (verdict_three_identical h (Ok h :: later) previous_hash stable_count Hc)
    as [E|(c & Hc2 & E)]; [exact E|].
  cbn [app] in *. rewrite E, verdict_same.
  destruct (Z.leb_spec 3 (c + 1)); [reflexivity|lia].
Qed.

Lemma verdict_ends_identical (earlier : list hexdigest) (h : hexdigest) :
  match verdict ((Ok <$> earlier) ++ [Ok h; Ok h; Ok h]) None 0 with
  | inl b => b
  | inr stable_count => 2 <=? stable_count
  end = true.
Proof.
  apply (verdict_skip_earlier
           (fun v => match v with inl b => b | inr c => 2 <=? c end = true));
    [reflexivity| |lia].
  intros previous_hash stable_count Hc.
  destruct (verdict_three_identical h [] previous_hash stable_count Hc)
    as [E|(c & Hc2 & E)].
  - cbn [app] in E. rewrite E. reflexivity.
  - cbn [app] in E. rewrite E. simpl. apply Z.leb_le, Hc2.
Qed.

(** When every poll differs from the one before, the loop uses up its
    attempts with a count of zero. *)
Lemma poll_loop_ever_changing {Σ} {browser : Browser Σ} (n : nat) :
  forall (previous_hash : option hexdigest) (w : World Σ),
    ever_changing previous_hash (fingerprints n w) ->
    exists w', BrowserController.poll_loop n previous_hash 0 w = (Ok (inr 0), w')
               /\ content_calls (trace w') = (content_calls (trace w) + n)%nat.
Proof.
  induction n as [|n IH]; intros previous_hash w Hch.
  - exists w. split; [reflexivity|]. simpl. lia.
  - revert Hch. cbn [BrowserController.poll_loop fingerprints].
    unfold poll, bind, sleep, attempt, perform. cbn.
    destruct (respond string Content (elapse 300 (page w))) as [[dom|e] p]; cbn;
      [|intros []].
    intros [Hne Hch].
    rewrite (same_hash_differs _ _ Hne).
    destruct (IH _ _ Hch) as (w' & E & Hcount).
    exists w'. split; [exact E|].
    rewrite Hcount. cbn [trace]. rewrite !content_calls_app. simpl. lia.
Qed.

(** C3, as amended.  Whatever the browser: when four polls in a row within
    the budget see the same fingerprint (three matches with the poll
    before) and no earlier poll fails, the waiter returns true; when the
    budget ends on three identical fingerprints, it returns true; when every
    poll succeeds and differs from the one before, it returns false after
    [max_attempts] polls. *)
Theorem stability_verdicts {Σ} {browser : Browser Σ} (max_attempts : nat) (w : World Σ) :
  (forall (earlier : list hexdigest) (h : hexdigest) (later : list (Res hexdigest)),
      fingerprints max_attempts w
      = ((Ok <$> earlier) ++ [Ok h; Ok h; Ok h; Ok h] ++ later)%list ->
      fst (BrowserController.wait_for_stability max_attempts w) = Ok true)
  /\ (forall (earlier : list hexdigest) (h : hexdigest),
         fingerprints max_attempts w = ((Ok <$> earlier) ++ [Ok h; Ok h; Ok h])%list ->
         fst (BrowserController.wait_for_stability max_attempts w) = Ok true)
  /\ (ever_changing None (fingerprints max_attempts w) ->
      exists w', BrowserController.wait_for_stability max_attempts w = (Ok false, w')
                 /\ content_calls (trace w')
                    = (content_calls (trace w) + max_attempts)%nat).
Proof.
  repeat split.
  - intros earlier h later E.
    rewrite wait_for_stability_verdict, E, verdict_four_identical. reflexivity.
  - intros earlier h E.
    rewrite wait_for_stability_verdict, E, verdict_ends_identical. reflexivity.
  - intros Hch.
    destruct (poll_loop_ever_changing max_attempts None w Hch) as (w' & E & Hcount).
    unfold BrowserController.wait_for_stability, bind. rewrite E.
    unfold try_except, perform, ret.
    destruct (respond unit (WaitForLoadState 5000) (page w')) as [[u|e] p];
      eexists; (split; [reflexivity|]); cbn [trace];
      rewrite content_calls_app, Hcount; simpl; lia.
Qed.

Lemma stability_verdicts_witness :
  fst (BrowserController.wait_for_stability 10
         (Mock.start (Mock.with_contents ["a"; "b"; "b"; "b"; "b"; "c"; "d"; "e"; "f"; "g"])))
  = Ok true
  /\ fst (BrowserController.wait_for_stability 3
            (Mock.start (Mock.with_contents ["a"; "a"; "a"]))) = Ok true
  /\ exists w', BrowserController.wait_for_stability 3
                  (Mock.start (Mock.with_contents ["a"; "b"; "c"])) = (Ok false, w')
                /\ content_calls (trace w') = 3%nat.
Proof.
  split; [|split].
  - apply (proj1 (stability_verdicts 10 _) [md5 "a"] (md5 "b")
             [Ok (md5 "c"); Ok (md5 "d"); Ok (md5 "e"); Ok (md5 "f"); Ok (md5 "g")]).
    vm_compute. reflexivity.
  - apply (proj1 (proj2 (stability_verdicts 3 _)) [] (md5 "a")).
    vm_compute. reflexivity.
  - refine (proj2 (proj2 (stability_verdicts 3
                               (Mock.start (Mock.with_contents ["a"; "b"; "c"])))) _).
    vm_compute. repeat split; discriminate.
Defined.

(** C3, as stated, fails: three identical polls followed by changing
    ones, within a budget of ten, end in not-stable. *)
Lemma three_identical_polls_are_not_enough :
  let w := Mock.start (Mock.with_contents ["a"; "a"; "a"; "b"; "c"; "d"; "e"; "f"; "g"; "h"]) in
  (exists later,
      fingerprints 10 w = ([Ok (md5 "a"); Ok (md5 "a"); Ok (md5 "a")] ++ later)%list)
  /\ fst (BrowserController.wait_for_stability 10 w) = Ok false.
Proof.
  split.
  - eexists. vm_compute. reflexivity.
  - vm_compute. reflexivity.
Qed.

(** ** C4: recovery at the adjacent markers *)




Section ClickRecovery.
Context {Σ : Type} {browser : Browser Σ} (self : SoMConfig).







End ClickRecovery.



(** ** C5: sign-up links during the navigation to the login page *)

Lemma clicks_guarded_any_previous (accepted : string -> bool) (evs : list event)
    (previous : option event) :
  clicks_guarded accepted None evs -> clicks_guarded accepted previous evs.
Proof.
  destruct evs as [|e rest]; [trivial|]. simpl.
  destruct (clicked e); [|trivial].
  intros [(text & [=] & _) _].
Qed.

Lemma clicks_guarded_app (accepted : string -> bool) (a b : list event) :
  forall previous,
    clicks_guarded accepted previous a -> clicks_guarded accepted None b ->
    clicks_guarded accepted previous (a ++ b).
Proof.
  induction a as [|e a IH]; intros previous Ha Hb.
  - apply clicks_guarded_any_previous, Hb.
  - simpl in *. destruct (clicked e).
    + destruct Ha as [Hg Ha]. split; [exact Hg|]. apply IH; assumption.
    + apply IH; assumption.
Qed.

Lemma clicks_guarded_weaken (P Q : string -> bool) (evs : list event) :
  (forall text, P text = true -> Q text = true) ->
  forall previous, clicks_guarded P previous evs -> clicks_guarded Q previous evs.
Proof.
  intros HPQ. induction evs as [|e rest IH]; intros previous; [trivial|].
  simpl. destruct (clicked e).
  - intros [(text & E & Hp) Hr]. split; [exists text; auto|]. apply IH, Hr.
  - apply IH.
Qed.

Section Navigation.
Context {Σ : Type} {browser : Browser Σ}.

(** A loop over selectors keeps what each round of its body keeps. *)
Lemma for_selectors_guarded {A} (accepted : string -> bool)
    (body : selector -> M Σ (option A)) :
  (forall selector w r w',
      body selector w = (r, w') ->
      exists evs, trace w' = (trace w ++ evs)%list /\ clicks_guarded accepted None evs) ->
  forall selectors w r w',
    AuthHandler.for_selectors body selectors w = (r, w') ->
    exists evs, trace w' = (trace w ++ evs)%list /\ clicks_guarded accepted None evs.
Proof.
  intros Hbody selectors.
  induction selectors as [|selector rest IH]; intros w r w' E.
  - injection E as <- <-. exists []. split; [rewrite app_nil_r; reflexivity|exact I].
  - cbn [AuthHandler.for_selectors] in E. unfold bind, try_except in E.
    destruct (body selector w) as [r0 w0] eqn:E0.
    destruct (Hbody _ _ _ _ E0) as (e0 & T0 & G0).
    assert (forall r1 w1, AuthHandler.for_selectors body rest w0 = (r1, w1) ->
              exists evs, trace w1 = (trace w ++ evs)%list
                          /\ clicks_guarded accepted None evs) as Hrest.
    { intros r1 w1 E1. destruct (IH _ _ _ E1) as (e1 & T1 & G1).
      exists (e0 ++ e1)%list. split; [rewrite T1, T0, app_assoc; reflexivity|].
      apply clicks_guarded_app; assumption. }
    destruct r0 as [[a|]|e]; cbn in E.
    + injection E as <- <-. eauto.
    + apply Hrest in E. exact E.
    + apply Hrest in E. exact E.
Qed.

(** One round of the text selectors clicks only after reading a text
    without a sign-up term. *)
Lemma click_login_text_guarded (selector : selector) (w : World Σ)
    (r : Res (option bool)) (w' : World Σ) :
  AuthHandler.click_login_text selector w = (r, w') ->
  exists evs, trace w' = (trace w ++ evs)%list /\ clicks_guarded no_signup_term None evs.
Proof.
  unfold AuthHandler.click_login_text, AuthHandler.when_visible, bind, perform, ret. cbn.
  destruct (respond (option ElementHandle) (QuerySelector selector) (page w))
    as [[[el|]|e] p]; cbn; try (run_ends; repeat split).
  destruct (respond bool (ElementIsVisible el) p) as [[[|]|e] p0]; cbn;
    try (run_ends; repeat split).
  destruct (respond string (ElementInnerText el) p0) as [[text|e] p1]; cbn;
    try (run_ends; repeat split).
  destruct (AuthHandler.is_signup_text (PyStr.lower text)) eqn:Hs; cbn;
    try (run_ends; repeat split).
  destruct (respond unit (ElementClick el false None) p1) as [[u|e] p2]; cbn;
    run_ends; cbn; repeat split; exists text; (split; [reflexivity|]);
    unfold no_signup_term; rewrite Hs; reflexivity.
Qed.

(** One round of the href fallback filters the two spellings of "sign up"
    only. *)
Lemma click_login_href_guarded (selector : selector) (w : World Σ)
    (r : Res (option bool)) (w' : World Σ) :
  AuthHandler.click_login_href selector w = (r, w') ->
  exists evs, trace w' = (trace w ++ evs)%list /\ clicks_guarded no_sign_up None evs.
Proof.
  unfold AuthHandler.click_login_href, AuthHandler.when_visible, bind, perform, ret. cbn.
  destruct (respond (option ElementHandle) (QuerySelector selector) (page w))
    as [[[el|]|e] p]; cbn; try (run_ends; repeat split).
  destruct (respond bool (ElementIsVisible el) p) as [[[|]|e] p0]; cbn;
    try (run_ends; repeat split).
  destruct (respond string (ElementInnerText el) p0) as [[text|e] p1]; cbn;
    try (run_ends; repeat split).
  destruct (negb (PyStr.contains (PyStr.lower text) "sign up")
            && negb (PyStr.contains (PyStr.lower text) "signup")) eqn:Hs; cbn;
    try (run_ends; repeat split).
  destruct (respond unit (ElementClick el false None) p1) as [[u|e] p2]; cbn;
    run_ends; cbn; repeat split; exists text; (split; [reflexivity|exact Hs]).
Qed.

Lemma no_signup_term_no_sign_up (text : string) :
  no_signup_term text = true -> no_sign_up text = true.
Proof.
  unfold no_signup_term, no_sign_up, AuthHandler.is_signup_text.
  destruct (PyStr.contains (PyStr.lower text) "sign up"),
           (PyStr.contains (PyStr.lower text) "signup"),
           (PyStr.contains (PyStr.lower text) "register"); simpl; intros; congruence.
Qed.

(** What holds of C5 on every page: [_navigate_to_login_page] clicks an
    element only directly after reading its inner text, and that text
    contains neither "sign up" nor "signup"; the text selectors also keep
    off every text with "register". *)
Lemma navigation_clicks_are_guarded (w : World Σ) (r : Res bool) (w' : World Σ) :
  AuthHandler._navigate_to_login_page w = (r, w') ->
  exists evs, trace w' = (trace w ++ evs)%list /\ clicks_guarded no_sign_up None evs.
Proof.
  unfold AuthHandler._navigate_to_login_page, bind.
  destruct (AuthHandler.for_selectors AuthHandler.click_login_text
              AuthHandler.login_text_selectors w) as [r0 w0] eqn:E0.
  destruct (for_selectors_guarded no_signup_term _ click_login_text_guarded _ _ _ _ E0)
    as (e0 & T0 & G0).
  apply (clicks_guarded_weaken _ _ _ no_signup_term_no_sign_up) in G0.
  destruct r0 as [[b|]|e]; cbv beta iota.
  - intros [= <- <-]. eauto.
  - destruct (AuthHandler.for_selectors AuthHandler.click_login_href
                AuthHandler.login_href_selectors w0) as [r1 w1] eqn:E1.
    destruct (for_selectors_guarded no_sign_up _ click_login_href_guarded _ _ _ _ E1)
      as (e1 & T1 & G1).
    intros E.
    assert (w' = w1) as ->.
    { destruct r1 as [o|e]; cbn in E; unfold ret in E; congruence. }
    exists (e0 ++ e1)%list. split; [rewrite T1, T0, app_assoc; reflexivity|].
    apply clicks_guarded_app; assumption.
  - intros [= <- <-]. eauto.
Qed.

End Navigation.

(** C5, on the code.  On a page whose only link reads "Register or log in"
    and leads to [/login], the text selectors match the link and skip it
    for its sign-up term, and the href fallback then clicks the same link:
    its filter knows "sign up" and "signup", not "register". *)
Theorem href_fallback_clicks_register_link :
  let w := Mock.start (Mock.with_elements [register_or_log_in]) in
  AuthHandler.is_signup_text (PyStr.lower (Mock.e_text register_or_log_in)) = true
  /\ (exists w0, AuthHandler.for_selectors AuthHandler.click_login_text
                   AuthHandler.login_text_selectors w = (Ok None, w0)
                 /\ clicked_elements (trace w0) = [])
  /\ exists w', AuthHandler._navigate_to_login_page w = (Ok true, w')
                /\ clicked_elements (trace w') = [0%nat]
                /\ List.last (trace w') (Slept 0)
                   = Called (ElementClick 0%nat false None) (Ok tt).
Proof.
  split; [vm_compute; reflexivity|]. split.
  - eexists. split; vm_compute; reflexivity.
  - eexists. split; [vm_compute; reflexivity|]. split; vm_compute; reflexivity.
Qed.

(** ** C6: a secret field that is already visible *)

Section SinglePageLogin.
Context {Σ : Type} {browser : Browser Σ} {reader : JsonReader}.
Variable self : AuthHandler.Config.

(** The visibility loop only looks at the page. *)
Lemma any_visible_probes (selectors : list selector) :
  forall (w : World Σ) (r : Res bool) (w' : World Σ),
    AuthHandler.any_visible selectors w = (r, w') ->
    exists probes, trace w' = (trace w ++ probes)%list /\ Forall is_probe probes.
Proof.
  induction selectors as [|selector rest IH]; intros w r w'.
  - intros [= <- <-]. exists []. split; [rewrite app_nil_r; reflexivity|constructor].
  - cbn [AuthHandler.any_visible]. unfold bind, perform, ret.
    destruct (respond (option ElementHandle) (QuerySelector selector) (page w))
      as [[[el|]|e] p]; cbv beta iota.
    + destruct (respond bool (ElementIsVisible el) _) as [[[|]|e] p0]; cbv beta iota.
      * intros [= <- <-]. eexists. split; [cbn; rewrite <- !app_assoc; reflexivity|].
        repeat constructor.
      * intros E. destruct (IH _ _ _ E) as (probes & T & P).
        eexists. split; [rewrite T; cbn; rewrite <- !app_assoc; reflexivity|].
        repeat constructor. exact P.
      * intros [= <- <-]. eexists. split; [cbn; rewrite <- !app_assoc; reflexivity|].
        repeat constructor.
    + intros E. destruct (IH _ _ _ E) as (probes & T & P).
      eexists. split; [rewrite T; cbn; rewrite <- !app_assoc; reflexivity|].
      repeat constructor. exact P.
    + intros [= <- <-]. eexists. split; [reflexivity|]. repeat constructor.
Qed.

Lemma is_password_field_visible_probes (w : World Σ) (r : Res bool) (w' : World Σ) :
  AuthHandler._is_password_field_visible w = (r, w') ->
  exists probes, trace w' = (trace w ++ probes)%list /\ Forall is_probe probes.
Proof.
  unfold AuthHandler._is_password_field_visible, try_except.
  destruct (AuthHandler.any_visible AuthHandler.password_visible_selectors w)
    as [r0 w0] eqn:E0.
  destruct (any_visible_probes _ _ _ _ E0) as (probes & T & P).
  destruct r0 as [b|e]; cbn; intros [= <- <-]; eauto.
Qed.

(** The advance step with a visible secret field: the milestone, the
    [continue], and a world that only the visibility check has touched. *)
Lemma continue_stage_skips (vision_state : VisionLoginAgent.LoginDecision)
    (screenshot_path : string) (p : AuthHandler.AuthProgress) (w w' : World Σ) :
  AuthHandler.clicked_continue_after_email (AuthHandler.actions_taken p) = false ->
  AuthHandler._is_password_field_visible w = (Ok true, w') ->
  AuthHandler.continue_stage self vision_state screenshot_path p w
  = (Ok (Some AuthHandler.Continue, AuthHandler.set_clicked_continue_after_email p), w').
Proof.
  intros Hc Hv. unfold AuthHandler.continue_stage. rewrite Hc.
  unfold bind. rewrite Hv. reflexivity.
Qed.

(** C6.  In an iteration of [authenticate] that reaches the advance step
    (the oracle does not report a logged-in state, the stuck and navigation
    stages fall through, the identifier is filled, the advance milestone is
    not set) with a secret field visible, the iteration ends there with
    [continue] and the milestone [clicked_continue_after_email] set, and
    from the advance step on the page has only been asked selector queries
    and visibility tests: no click on Continue and no action of the oracle
    is executed.  When the stuck counter is below its threshold and the
    navigation milestone is set, this covers everything that follows the
    observation of the page in that iteration. *)
Theorem visible_secret_field_skips_advance
    (credentials : gmap string string) (email password : string)
    (screenshot_dir : option string) (step : nat)
    (vision_state : VisionLoginAgent.LoginDecision) (screenshot_path : string)
    (p p0 p1 p2 : AuthHandler.AuthProgress) (w w0 w1 w2 w3 : World Σ) :
  AuthHandler.observe self credentials screenshot_dir step p w
  = (Ok (vision_state, screenshot_path, p0), w0) ->
  json_truthy (VisionLoginAgent.is_logged_in vision_state) = false ->
  AuthHandler.stuck_stage self vision_state screenshot_path p0 w0 = (Ok (None, p1), w1) ->
  AuthHandler.navigate_stage self vision_state screenshot_path p1 w1 = (Ok (None, p2), w2) ->
  AuthHandler.filled_email (AuthHandler.actions_taken p2) = true ->
  AuthHandler.clicked_continue_after_email (AuthHandler.actions_taken p2) = false ->
  AuthHandler._is_password_field_visible w2 = (Ok true, w3) ->
  AuthHandler.auth_step self credentials email password screenshot_dir step p w
  = (Ok (AuthHandler.Continue, AuthHandler.set_clicked_continue_after_email p2), w3)
  /\ AuthHandler.clicked_continue_after_email
       (AuthHandler.actions_taken (AuthHandler.set_clicked_continue_after_email p2)) = true
  /\ (exists probes, trace w3 = (trace w2 ++ probes)%list /\ Forall is_probe probes)
  /\ (AuthHandler.stuck_counter p0 < AuthHandler.max_stuck_iterations ->
      AuthHandler.navigated_to_login (AuthHandler.actions_taken p0) = true ->
      exists probes, trace w3 = (trace w0 ++ probes)%list /\ Forall is_probe probes).
Proof.
  intros Ho Hl Hs Hn He Hc Hv.
  pose proof (is_password_field_visible_probes _ _ _ Hv) as Hp.
  split; [|split; [reflexivity|split; [exact Hp|]]].
  - unfold AuthHandler.auth_step, bind. rewrite Ho. cbv beta iota. rewrite Hl.
    unfold AuthHandler.stages, AuthHandler.and_then, bind.
    rewrite Hs. cbv beta iota. rewrite Hn. cbv beta iota.
    unfold AuthHandler.fill_email_stage. rewrite He. unfold ret at 1. cbv beta iota.
    rewrite (continue_stage_skips _ _ _ _ _ Hc Hv). reflexivity.
  - intros Hlow Hnav.
    unfold AuthHandler.stuck_stage in Hs.
    destruct (Z.leb_spec AuthHandler.max_stuck_iterations (AuthHandler.stuck_counter p0));
      [lia|].
    injection Hs as <- <-.
    unfold AuthHandler.navigate_stage in Hn. rewrite Hnav in Hn.
    injection Hn as <- <-. exact Hp.
Qed.

End SinglePageLogin.

Lemma visible_secret_field_witness :
  exists (p' : AuthHandler.AuthProgress) (w' : World Mock.Page),
    AuthHandler.auth_step (reader := Mock.reader [on_login_page]) plain_handler
      some_credentials "u@x.com" "p" None 3 identifier_filled
      (Mock.start single_page_login)
    = (Ok (AuthHandler.Continue, p'), w')
    /\ AuthHandler.clicked_continue_after_email (AuthHandler.actions_taken p') = true
    /\ clicked_elements (trace w') = [].
Proof.
  edestruct (fun vision_state screenshot_path =>
               visible_secret_field_skips_advance (reader := Mock.reader [on_login_page])
                 plain_handler some_credentials "u@x.com" "p" None 3
                 vision_state screenshot_path identifier_filled)
    with (w := Mock.start single_page_login) as (E & Hm & _ & _);
    [ vm_compute; reflexivity | vm_compute; reflexivity | vm_compute; reflexivity
    | vm_compute; reflexivity | vm_compute; reflexivity | vm_compute; reflexivity
    | vm_compute; reflexivity | ].
  eexists _, _. split; [exact E|]. split; [exact Hm|]. vm_compute. reflexivity.
Defined.

(** A visible secret field on the page is not enough, and the iteration as
    a whole may act on the page.  On [decoy_login] a password field is
    visible, but the check of the handler asks for the first match of its
    selector only, which is a hidden field: it answers false, and the
    advance step clicks the submit button.  On [stuck_login] the check
    answers true and the milestone is set, but the stuck counter reaches
    its threshold in that iteration, so the action of the oracle has run
    first: the click script was evaluated for the markers 9, 10 and 8. *)
Lemma visible_secret_field_can_be_missed :
  Mock.elements decoy_login !! 2%nat = Some password_input
  /\ Mock.e_visible password_input = true
  /\ fst (AuthHandler._is_password_field_visible (Mock.start decoy_login)) = Ok false
  /\ (exists p', fst decoy_iteration = Ok (AuthHandler.Continue, p'))
  /\ Mock.elements decoy_login !! 3%nat = Some sign_in_button
  /\ clicked_elements (trace (snd decoy_iteration)) = [3%nat]
  /\ fst (AuthHandler._is_password_field_visible (Mock.start stuck_login)) = Ok true
  /\ (exists p', fst stuck_iteration = Ok (AuthHandler.Continue, p')
                 /\ AuthHandler.clicked_continue_after_email
                      (AuthHandler.actions_taken p') = true)
  /\ click_script_calls (trace (snd stuck_iteration)) = [9; 10; 8].
Proof.
  repeat split; try (vm_compute; reflexivity).
  - eexists. vm_compute. reflexivity.
  - eexists. split; vm_compute; reflexivity.
Qed.

(** ** C7: the executor never raises *)

(** C7.  For every action, every executor and every browser (whatever its
    primitives answer or raise, from whatever state), [execute] returns a
    boolean: its outcome is never an exception. *)
Theorem execute_never_raises {Σ} {browser : Browser Σ} (self : SoMConfig)
    (action : AgentAction) (w : World Σ) :
  exists (b : bool) (w' : World Σ), ActionExecutor.execute self action w = (Ok b, w').
Proof.
  unfold ActionExecutor.execute. apply try_except_all_ok.
  intros w0. exists false, w0. reflexivity.
Qed.

(** The handler of [execute] is needed: on a page whose element handles
    have gone stale, [_execute_click] itself raises. *)
Example execute_click_can_raise :
  fst (ActionExecutor._execute_click (browser := Faulty.browser)
         SoMMarker.default_config (click_action "[0]" "Click sign in") Faulty.start)
  = Raise PlaywrightError
  /\ fst (ActionExecutor.execute (browser := Faulty.browser)
            SoMMarker.default_config (click_action "[0]" "Click sign in") Faulty.start)
     = Ok false.
Proof. split; vm_compute; reflexivity. Qed.

(** ** C8: responses that are no JSON object *)

(** The parser of the task loop is total, and answers the fallback
    whenever the body of its [try] raises. *)
Lemma task_parser_falls_back {reader : JsonReader} (response : string) (e : exn) :
  VisionWebAgent.parse_action response = Raise e ->
  VisionWebAgent._parse_action_response response = VisionWebAgent.fallback_action.
Proof. unfold VisionWebAgent._parse_action_response. intros ->. reflexivity. Qed.

(** A response without braces, or one that [json.loads] rejects, gives the
    fallback of the task loop. *)
Lemma task_parser_waits_on_garbage {reader : JsonReader} (response : string) :
  PyStr.find response "{" = -1 \/ PyStr.rfind response "}" = -1
  \/ json_loads (PyStr.slice response (PyStr.find response "{")
                   (PyStr.rfind response "}" + 1)) = None ->
  VisionWebAgent._parse_action_response response = VisionWebAgent.fallback_action
  /\ action_type (VisionWebAgent._parse_action_response response) = act_wait.
Proof.
  intros Hg.
  assert (exists e, VisionWebAgent.parse_action response = Raise e) as [e He].
  { unfold VisionWebAgent.parse_action.
    destruct Hg as [-> | [-> | Hl]]; simpl; eauto.
    - rewrite orb_true_r. eauto.
    - destruct (_ || _); eauto. rewrite Hl. eauto. }
  rewrite (task_parser_falls_back _ _ He). split; reflexivity.
Qed.

(** The parser of the login agent answers its safe default when
    [json.loads] rejects the extracted text. *)
Lemma login_parser_waits_on_decode_error {reader : JsonReader}
    (credentials : gmap string string) (response_text : string) :
  json_loads (VisionLoginAgent.extract_json response_text) = None ->
  VisionLoginAgent.parse_login_decision credentials response_text
  = Ok VisionLoginAgent.safe_default
  /\ action_type (VisionLoginAgent.action VisionLoginAgent.safe_default) = act_wait.
Proof.
  intros Hl. unfold VisionLoginAgent.parse_login_decision. rewrite Hl.
  split; reflexivity.
Qed.

(** But when the text decodes to a JSON value that is no object, the
    parser of the login agent raises [AttributeError]. *)
Lemma login_parser_raises_on_non_object {reader : JsonReader}
    (credentials : gmap string string) (response_text : string) (v : json) :
  json_loads (VisionLoginAgent.extract_json response_text) = Some v ->
  is_dict v = false ->
  VisionLoginAgent.parse_login_decision credentials response_text = Raise AttributeError.
Proof.
  intros Hl Hv. unfold VisionLoginAgent.parse_login_decision. rewrite Hl.
  destruct v; try discriminate Hv; reflexivity.
Qed.

(** C8, on the code.  For the response [null], which holds no JSON object,
    the parser of the task loop returns its wait action, but the parser of
    the login agent raises [AttributeError], and the exception leaves
    [authenticate]. *)
Theorem login_parser_raises_on_null :
  action_type (VisionWebAgent._parse_action_response (reader := Mock.reader [JNull]) "null")
  = act_wait
  /\ VisionLoginAgent.parse_login_decision (reader := Mock.reader [JNull])
       some_credentials "null" = Raise AttributeError
  /\ fst (AuthHandler.authenticate (reader := Mock.reader [JNull]) plain_handler
            some_credentials 10 None AuthHandler.initial (Mock.start null_reply))
     = Raise AttributeError.
Proof.
  split; [vm_compute; reflexivity|]. split.
  - apply (login_parser_raises_on_non_object (reader := Mock.reader [JNull])
             some_credentials "null" JNull); vm_compute; reflexivity.
  - vm_compute. reflexivity.
Qed.

(** ** C9: a type action without text *)

(** C9.  A type action whose value is missing or the empty string, or whose
    target is missing, makes [execute] return [False] with the page and the
    trace untouched: no primitive is called. *)
Theorem type_without_text_fails_untouched {Σ} {browser : Browser Σ} (self : SoMConfig)
    (action : AgentAction) (w : World Σ) :
  action_type action = act_type ->
  value action = None \/ value action = Some "" \/ target action = None ->
  ActionExecutor.execute self action w = (Ok false, w).
Proof.
  intros Hk Hv. unfold ActionExecutor.execute, try_except. rewrite Hk.
  unfold ActionExecutor._execute_type.
  destruct Hv as [-> | [-> | ->]].
  - destruct (target action); reflexivity.
  - destruct (target action) as [t|]; [|reflexivity].
    simpl. rewrite orb_true_r. reflexivity.
  - reflexivity.
Qed.

Lemma type_without_text_witness :
  ActionExecutor.execute SoMMarker.default_config (type_action (Some "[3]") (Some ""))
    (Mock.start (Mock.with_elements [email_input]))
  = (Ok false, Mock.start (Mock.with_elements [email_input])).
Proof.
  apply (type_without_text_fails_untouched SoMMarker.default_config
           (type_action (Some "[3]") (Some "")));
    [reflexivity | right; left; reflexivity].
Defined.

(** ** C10: missing credentials *)

(** C10.  When the credentials lack an identifier (both ['email'] and
    ['username'] missing or empty) or lack a non-empty ['password'],
    [authenticate] returns [False] at once: the world (page and trace) and
    the handler's fields are unchanged, so no browser call, no screenshot
    and no step took place. *)
Theorem authenticate_without_credentials {Σ} {browser : Browser Σ} {reader : JsonReader}
    (self : AuthHandler.Config) (credentials : gmap string string) (max_steps : nat)
    (screenshot_dir : option string) (p : AuthHandler.AuthProgress) (w : World Σ) :
  (absent_or_empty credentials "email" /\ absent_or_empty credentials "username")
  \/ absent_or_empty credentials "password" ->
  AuthHandler.authenticate self credentials max_steps screenshot_dir p w = (Ok (false, p), w).
Proof.
  unfold AuthHandler.authenticate, absent_or_empty.
  intros [[[He|He] [Hu|Hu]] | [Hp|Hp]]; rewrite ?He, ?Hu, ?Hp; simpl;
    rewrite ?orb_true_r; try reflexivity.
  all: destruct (credentials !! "email") as [[|c s]|]; simpl; try reflexivity.
  all: destruct (credentials !! "username") as [[|c' s']|]; simpl; reflexivity.
Qed.

Lemma authenticate_without_credentials_witness :
  AuthHandler.authenticate (reader := Mock.reader [])
    {| AuthHandler.som_marker := None; AuthHandler.action_executor := None |}
    {[ "email" := "u@x.com" ]} 10 None AuthHandler.initial (Mock.start Mock.blank)
  = (Ok (false, AuthHandler.initial), Mock.start Mock.blank).
Proof.
  apply authenticate_without_credentials. right. left. reflexivity.
Defined.

(** * Further properties *)

(** ** Rules for traces *)

Section EmitsRules.
Context {Σ : Type} {browser : Browser Σ}.
Variable Q : event -> Prop.

Lemma emits_ret {A} (a : A) : emits (Σ := Σ) Q (ret a).
Proof. intros w r w' [= <- <-]. exists []. split; [rewrite app_nil_r; reflexivity|constructor]. Qed.

Lemma emits_raise {A} (e : exn) : emits (Σ := Σ) (A := A) Q (raise e).
Proof. intros w r w' [= <- <-]. exists []. split; [rewrite app_nil_r; reflexivity|constructor]. Qed.

Lemma emits_lift_res {A} (x : Res A) : emits (Σ := Σ) Q (lift_res x).
Proof. intros w r w' [= <- <-]. exists []. split; [rewrite app_nil_r; reflexivity|constructor]. Qed.

Lemma emits_page_url : emits Q page_url.
Proof. intros w r w' [= <- <-]. exists []. split; [rewrite app_nil_r; reflexivity|constructor]. Qed.

Lemma emits_loop_time : emits Q loop_time.
Proof. intros w r w' [= <- <-]. exists []. split; [rewrite app_nil_r; reflexivity|constructor]. Qed.

Lemma emits_bind {A B} (m : M Σ A) (k : A -> M Σ B) :
  emits Q m -> (forall a, emits Q (k a)) -> emits Q (bind m k).
Proof.
  intros Hm Hk w r w'. unfold bind.
  destruct (m w) as [r0 w0] eqn:E0. destruct (Hm _ _ _ E0) as (e0 & T0 & F0).
  destruct r0 as [a|e].
  - intros E1. destruct (Hk a _ _ _ E1) as (e1 & T1 & F1).
    exists (e0 ++ e1)%list. split; [rewrite T1, T0, app_assoc; reflexivity|].
    apply Forall_app_2; assumption.
  - intros [= <- <-]. eauto.
Qed.

Lemma emits_try_except {A} (m handler : M Σ A) (C : exn -> bool) :
  emits Q m -> emits Q handler -> emits Q (try_except m C handler).
Proof.
  intros Hm Hh w r w'. unfold try_except.
  destruct (m w) as [r0 w0] eqn:E0. destruct (Hm _ _ _ E0) as (e0 & T0 & F0).
  destruct r0 as [a|e].
  - intros [= <- <-]. eauto.
  - destruct (C e).
    + intros E1. destruct (Hh _ _ _ E1) as (e1 & T1 & F1).
      exists (e0 ++ e1)%list. split; [rewrite T1, T0, app_assoc; reflexivity|].
      apply Forall_app_2; assumption.
    + intros [= <- <-]. eauto.
Qed.

Lemma emits_attempt {A} (m : M Σ A) : emits Q m -> emits Q (attempt m).
Proof.
  intros Hm w r w'. unfold attempt.
  destruct (m w) as [r0 w0] eqn:E0. intros [= <- <-]. eauto.
Qed.

Lemma emits_perform {R} (c : call R) :
  (forall r, Q (Called c r)) -> emits Q (perform c).
Proof.
  intros Hc w r w'. unfold perform.
  destruct (respond R c (page w)) as [r0 p]. intros [= <- <-].
  eexists. split; [reflexivity|]. repeat constructor. apply Hc.
Qed.

Lemma emits_sleep (ms : Z) : Q (Slept ms) -> emits Q (sleep ms).
Proof.
  intros Hs w r w' [= <- <-]. eexists. split; [reflexivity|]. repeat constructor. exact Hs.
Qed.

End EmitsRules.

Lemma emits_weaken {Σ A} (P Q : event -> Prop) (m : M Σ A) :
  (forall e, P e -> Q e) -> emits P m -> emits Q m.
Proof.
  intros HPQ Hm w r w' E. destruct (Hm _ _ _ E) as (evs & T & F).
  exists evs. split; [exact T|]. revert F. apply Forall_impl. exact HPQ.
Qed.

(** One step along the syntax of a computation *)
Ltac emits_step :=
  first
    [ assumption
    | solve [auto with emits]
    | apply emits_ret
    | apply emits_raise
    | apply emits_lift_res
    | apply emits_page_url
    | apply emits_loop_time
    | apply emits_sleep; cbn; auto
    | apply emits_perform; intros; cbn; auto; lia
    | apply emits_attempt
    | apply emits_try_except
    | apply emits_bind; [|intros]
    | match goal with
      | |- emits _ (if ?b then _ else _) => destruct b
      | |- emits _ (match ?x with _ => _ end) => destruct x
      | |- emits _ (let (_, _) := ?x in _) => destruct x
      end ].

Ltac emits_all := repeat emits_step.

Lemma emits_bind_post {Σ A B} (Q : event -> Prop) (R : A -> Prop)
    (m : M Σ A) (k : A -> M Σ B) :
  emits Q m -> (forall w a w', m w = (Ok a, w') -> R a) ->
  (forall a, R a -> emits Q (k a)) -> emits Q (bind m k).
Proof.
  intros Hm HR Hk w r w'. unfold bind.
  destruct (m w) as [r0 w0] eqn:E0. destruct (Hm _ _ _ E0) as (e0 & T0 & F0).
  destruct r0 as [a|e].
  - intros E1. destruct (Hk a (HR _ _ _ E0) _ _ _ E1) as (e1 & T1 & F1).
    exists (e0 ++ e1)%list. split; [rewrite T1, T0, app_assoc; reflexivity|].
    apply Forall_app_2; assumption.
  - intros [= <- <-]. eauto.
Qed.

(** ** The executor: type actions *)

Section TypeAction.
Context {Σ : Type} {browser : Browser Σ} (self : SoMConfig).

Lemma get_element_emits (Q : event -> Prop) (j : Z) :
  (forall r, Q (Called (GetElementScript j) r)) ->
  emits Q (ActionExecutor._get_element_by_marker j).
Proof. intros HQ. unfold ActionExecutor._get_element_by_marker. emits_all. Qed.

Lemma highlight_emits (Q : event -> Prop) (j : Z) :
  (forall background r, Q (Called (HighlightScript background "#00FF00" j) r)) ->
  emits Q (SoMMarker.highlight_element self j).
Proof. intros HQ. unfold SoMMarker.highlight_element. emits_all. Qed.

Lemma find_text_input_emits (k : Z) (v : string) (offsets : list Z) :
  Forall (fun o => 1 <= o <= 4) offsets ->
  emits (typing_event k v) (ActionExecutor.find_text_input k offsets).
Proof.
  induction 1 as [|o offsets Ho _ IH]; cbn [ActionExecutor.find_text_input].
  - emits_all.
  - apply emits_bind; [apply get_element_emits; intros; cbn; lia|].
    intros [alt|]; [|exact IH]. emits_all; exact IH.
Qed.

Lemma find_text_input_marker (k : Z) (offsets : list Z) :
  Forall (fun o => 1 <= o <= 4) offsets ->
  forall (w : World Σ) alt m w',
    ActionExecutor.find_text_input k offsets w = (Ok (Some (alt, m)), w') ->
    k + 1 <= m <= k + 4.
Proof.
  induction 1 as [|o offsets Ho _ IH]; cbn [ActionExecutor.find_text_input];
    intros w alt m w'.
  - intros [=].
  - unfold bind.
    destruct (ActionExecutor._get_element_by_marker (k + o) w) as [[[a|]|e] w0];
      [|apply IH|intros [=]].
    destruct (perform (ElementGetAttribute a "type") w0) as [[ty|e] w1]; [|intros [=]].
    destruct (perform (ElementTagName a) w1) as [[tag|e] w2]; [|intros [=]].
    destruct (_ && _); [|apply IH].
    intros [= <- <- <-]. lia.
Qed.

Lemma keyboard_typing_emits (k : Z) (v : string) (el : ElementHandle) :
  emits (typing_event k v) (ActionExecutor.keyboard_typing el v).
Proof. unfold ActionExecutor.keyboard_typing. emits_all. Qed.

Lemma type_into_emits (k : Z) (v : string) :
  emits (typing_event k v) (ActionExecutor.type_into self k v).
Proof.
  unfold ActionExecutor.type_into.
  apply emits_bind; [apply get_element_emits; intros; cbn; lia|].
  intros [el|]; [|emits_all].
  apply emits_bind; [emits_all|]. intros _.
  apply emits_bind; [emits_all|]. intros element_type.
  apply (emits_bind_post _
           (fun found => match found with
                         | Some (_, m) => k + 1 <= m <= k + 4
                         | None => True
                         end)).
  - destruct (ActionExecutor.not_typeable element_type); [|emits_all].
    apply find_text_input_emits. repeat constructor; lia.
  - intros w [[alt m]|] w'; [|trivial].
    destruct (ActionExecutor.not_typeable element_type); [|intros [=]].
    apply find_text_input_marker. repeat constructor; lia.
  - intros [[alt m]|] Hm.
    + apply emits_bind; [apply highlight_emits; intros; cbn; lia|]. intros _.
      pose proof (keyboard_typing_emits k v alt). emits_all.
    + apply emits_bind; [apply highlight_emits; intros; cbn; lia|]. intros _.
      pose proof (keyboard_typing_emits k v el). emits_all.
Qed.

(** For every browser: a type action at the marker [k] with the text [v]
    resolves and highlights only markers from [k] to [k + 4], fills in or
    types only [v], never evaluates the click script, never navigates or
    scrolls. *)
Theorem type_action_stays_near_its_marker (action : AgentAction) (t v : string) (k : Z) :
  action_type action = act_type ->
  target action = Some t ->
  value action = Some v ->
  PyStr.int (PyStr.slice t 1 (-1)) = Some k ->
  emits (typing_event k v) (ActionExecutor.execute self action).
Proof.
  intros Hk Ht Hv Hi. unfold ActionExecutor.execute. rewrite Hk.
  unfold ActionExecutor._execute_type. rewrite Ht, Hv, Hi.
  pose proof (type_into_emits k v). emits_all.
Qed.

End TypeAction.

Lemma type_action_witness :
  emits (typing_event 0 "u@x.com")
    (ActionExecutor.execute (Σ := Mock.Page) SoMMarker.default_config
       (type_action (Some "[0]") (Some "u@x.com"))).
Proof.
  apply (type_action_stays_near_its_marker SoMMarker.default_config
           (type_action (Some "[0]") (Some "u@x.com")) "[0]" "u@x.com" 0);
    vm_compute; reflexivity.
Defined.

(** ** The executor: wait, navigate, and targets that are no marker *)

Section OtherActions.
Context {Σ : Type} {browser : Browser Σ} (self : SoMConfig).

(** For every browser: a wait action succeeds, also when waiting for the
    network to settle raises (a timeout); it waits for the load state once. *)
Theorem wait_action_always_succeeds (action : AgentAction) (w : World Σ) :
  action_type action = act_wait ->
  exists w', ActionExecutor.execute self action w = (Ok true, w')
             /\ exists r rest, trace w' = (trace w ++ Called (WaitForLoadState 10000) r :: rest)%list
                               /\ Forall (fun e => exists ms, e = Slept ms) rest.
Proof.
  intros Hk. unfold ActionExecutor.execute. rewrite Hk.
  unfold ActionExecutor._execute_wait, try_except, bind, perform, sleep, ret. cbn.
  destruct (respond unit (WaitForLoadState 10000) (page w)) as [[u|e] p]; cbn;
    eexists; (split; [reflexivity|]); cbn; eexists _, _;
    (split; [rewrite <- ?app_assoc; reflexivity|]); repeat constructor; eauto.
Qed.

(** For every browser: a navigate action without a URL fails and touches
    nothing; with a URL it loads the URL once, with the timeout of thirty
    seconds, and succeeds exactly when the load does not raise. *)
Theorem navigate_action_loads_once (action : AgentAction) (w : World Σ) :
  action_type action = act_navigate ->
  (value action = None \/ value action = Some "" ->
   ActionExecutor.execute self action w = (Ok false, w))
  /\ (forall url, value action = Some url -> url <> "" ->
      exists r p,
        respond unit (Goto url 30000) (page w) = (r, p)
        /\ ActionExecutor.execute self action w
           = (Ok (match r with Ok _ => true | Raise _ => false end),
              {| page := p; trace := trace w ++ [Called (Goto url 30000) r] |})).
Proof.
  intros Hk. unfold ActionExecutor.execute. rewrite Hk.
  unfold ActionExecutor._execute_navigate. split.
  - intros [-> | ->]; reflexivity.
  - intros url -> Hurl.
    assert (PyStr.truthy url = true) as -> by (destruct url; [contradiction|reflexivity]).
    unfold try_except, bind, perform, ret. cbn.
    destruct (respond unit (Goto url 30000) (page w)) as [[u|e] p]; cbn;
      eexists _, _; split; reflexivity.
Qed.

(** For every browser and marker configuration: a click whose target is
    missing, empty, not of the form [[...]], or an ASCII string whose
    brackets hold something that [int] rejects, fails without a single
    call to the page. *)
Theorem click_without_marker_fails_untouched (action : AgentAction) (w : World Σ) :
  action_type action = act_click ->
  (target action = None
   \/ exists t, target action = Some t
                /\ (ActionExecutor.is_marker_target t = false
                    \/ (PyStr.isascii t = true
                        /\ PyStr.int (PyStr.slice t 1 (-1)) = None))) ->
  ActionExecutor.execute self action w = (Ok false, w).
Proof.
  intros Hk Ht. unfold ActionExecutor.execute, try_except. rewrite Hk.
  unfold ActionExecutor._execute_click.
  destruct Ht as [-> | (t & -> & Ht)]; [reflexivity|].
  destruct (PyStr.truthy t); [|reflexivity]. cbn [negb].
  destruct Ht as [-> | [_ Hi]]; [reflexivity|].
  destruct (ActionExecutor.is_marker_target t); [|reflexivity].
  unfold try_except. rewrite Hi. reflexivity.
Qed.

End OtherActions.

Lemma wait_action_witness :
  exists w', ActionExecutor.execute (browser := Faulty.browser) SoMMarker.default_config
               VisionWebAgent.fallback_action Faulty.start = (Ok true, w')
             /\ exists r rest,
                  trace w' = (trace Faulty.start ++ Called (WaitForLoadState 10000) r :: rest)%list
                  /\ Forall (fun e => exists ms, e = Slept ms) rest.
Proof.
  apply (wait_action_always_succeeds (browser := Faulty.browser) SoMMarker.default_config
           VisionWebAgent.fallback_action Faulty.start).
  reflexivity.
Defined.

Lemma navigate_action_witness :
  ActionExecutor.execute SoMMarker.default_config (navigate_action None)
    (Mock.start Mock.blank)
  = (Ok false, Mock.start Mock.blank)
  /\ exists r p,
       respond unit (Goto "https://app.example/login" 30000) (page (Mock.start Mock.blank))
       = (r, p)
       /\ ActionExecutor.execute SoMMarker.default_config
            (navigate_action (Some "https://app.example/login")) (Mock.start Mock.blank)
          = (Ok (match r with Ok _ => true | Raise _ => false end),
             {| page := p;
                trace := trace (Mock.start Mock.blank)
                         ++ [Called (Goto "https://app.example/login" 30000) r] |}).
Proof.
  split.
  - apply (navigate_action_loads_once SoMMarker.default_config (navigate_action None)
             (Mock.start Mock.blank) eq_refl).
    left. reflexivity.
  - apply (proj2 (navigate_action_loads_once SoMMarker.default_config
                    (navigate_action (Some "https://app.example/login"))
                    (Mock.start Mock.blank) eq_refl)
             "https://app.example/login" eq_refl).
    discriminate.
Defined.

Lemma click_without_marker_witness :
  ActionExecutor.execute SoMMarker.default_config (click_action "[next]" "Click next")
    (Mock.start eight_markers)
  = (Ok false, Mock.start eight_markers).
Proof.
  apply (click_without_marker_fails_untouched SoMMarker.default_config
           (click_action "[next]" "Click next") (Mock.start eight_markers)).
  - reflexivity.
  - right. exists "[next]". split; [reflexivity|]. right.
    split; vm_compute; reflexivity.
Defined.

(** ** The executor: the lookahead of a click *)

Section Lookahead.
Context {Σ : Type} {browser : Browser Σ} (self : SoMConfig).


End Lookahead.


(** ** Rules for computations that never raise *)

Section NeverRaises.
Context {Σ : Type} {browser : Browser Σ}.

Lemma never_raises_ret {A} (a : A) : never_raises (Σ := Σ) (ret a).
Proof. intros w. eauto. Qed.

Lemma never_raises_sleep (ms : Z) : never_raises (sleep ms).
Proof. intros w. unfold sleep. eauto. Qed.

Lemma never_raises_page_url : never_raises page_url.
Proof. intros w. unfold page_url. eauto. Qed.

Lemma never_raises_loop_time : never_raises loop_time.
Proof. intros w. unfold loop_time. eauto. Qed.

Lemma never_raises_attempt {A} (m : M Σ A) : never_raises (attempt m).
Proof. intros w. unfold attempt. destruct (m w). eauto. Qed.

Lemma never_raises_bind {A B} (m : M Σ A) (k : A -> M Σ B) :
  never_raises m -> (forall a, never_raises (k a)) -> never_raises (bind m k).
Proof.
  intros Hm Hk w. unfold bind. destruct (Hm w) as (a & w0 & ->). apply Hk.
Qed.

Lemma never_raises_try_except {A} (m handler : M Σ A) :
  never_raises handler -> never_raises (try_except m isinstance_Exception handler).
Proof.
  intros Hh w. unfold try_except. destruct (m w) as [[a|e] w0]; [eauto|]. apply Hh.
Qed.

End NeverRaises.

Ltac total_step :=
  first
    [ assumption
    | solve [auto]
    | apply never_raises_ret
    | apply never_raises_sleep
    | apply never_raises_page_url
    | apply never_raises_loop_time
    | apply never_raises_attempt
    | apply never_raises_try_except
    | apply never_raises_bind; [|intros]
    | match goal with
      | |- never_raises (if ?b then _ else _) => destruct b
      | |- never_raises (match ?x with _ => _ end) => destruct x
      | |- never_raises (let (_, _) := ?x in _) => destruct x
      end ].

Ltac total_all := repeat total_step.

(** ** The marker overlay *)

(** For every browser: removing the markers never raises.  Marking the
    page and highlighting a marker read the configuration before their
    [try]: with the keys they read (all five for the marker script, with
    strings for the two colours and the padding; the background colour for
    the highlight) they never raise, and [mark_page] answers the empty list
    when its script raises; without them they raise [KeyError] (or
    [TypeError] for a colour or padding that is no string) and leave the
    page untouched.  The default configuration has all the keys. *)
Theorem marker_calls_raise_only_for_their_config {Σ} {browser : Browser Σ}
    (self : SoMConfig) :
  never_raises (SoMMarker.remove_markers self)
  /\ (forall style, SoMMarker.marker_style self = Ok style ->
        never_raises (SoMMarker.mark_page self)
        /\ forall (w : World Σ) e p,
             respond _ (MarkerScript style) (page w) = (Raise e, p) ->
             fst (SoMMarker.mark_page self w) = Ok [])
  /\ (forall e, SoMMarker.marker_style self = Raise e ->
        (e = KeyError \/ e = TypeError)
        /\ forall w : World Σ, SoMMarker.mark_page self w = (Raise e, w))
  /\ (forall background, SoMMarker.getitem self "background_color" = Ok background ->
        forall marker_id, never_raises (SoMMarker.highlight_element self marker_id))
  /\ (SoMMarker.getitem self "background_color" = Raise KeyError ->
        forall marker_id (w : World Σ),
          SoMMarker.highlight_element self marker_id w = (Raise KeyError, w))
  /\ exists style, SoMMarker.marker_style (SoMMarker.init None) = Ok style.
Proof.
  split; [unfold SoMMarker.remove_markers; total_all|].
  split; [|split; [|split; [|split]]].
  - intros style Hs. unfold SoMMarker.mark_page. rewrite Hs. split.
    + intros w. unfold bind, lift_res.
      destruct (never_raises_try_except (perform (MarkerScript style)) (ret [])
                  ltac:(apply never_raises_ret) w) as (a & w' & E).
      exists a, w'. exact E.
    + intros w e p H. unfold bind, lift_res, try_except, perform. rewrite H. reflexivity.
  - intros e He. split.
    + revert He. unfold SoMMarker.marker_style, SoMMarker.getitem, SoMMarker.concatenated.
      repeat match goal with
             | |- context [dict_get self ?k] => destruct (dict_get self k) as [[]|]
             end; cbn; intros [=]; subst; auto.
    + intros w. unfold SoMMarker.mark_page. rewrite He. reflexivity.
  - intros background Hb marker_id w. unfold SoMMarker.highlight_element. rewrite Hb.
    unfold bind, lift_res.
    destruct (never_raises_try_except
                (perform (HighlightScript background "#00FF00" marker_id)) (ret tt)
                ltac:(apply never_raises_ret) w) as (a & w' & E).
    exists a, w'. exact E.
  - intros Hb marker_id w. unfold SoMMarker.highlight_element. rewrite Hb. reflexivity.
  - eexists. reflexivity.
Qed.

Lemma marker_calls_witness :
  fst (SoMMarker.mark_page (browser := Faulty.browser) SoMMarker.default_config Faulty.start)
  = Ok []
  /\ SoMMarker.mark_page three_keys (Mock.start sign_in_form)
     = (Raise KeyError, Mock.start sign_in_form)
  /\ exists a w', SoMMarker.highlight_element three_keys 0 (Mock.start sign_in_form)
                  = (Ok a, w').
Proof.
  split; [|split].
  - refine (proj2 (proj1 (proj2 (marker_calls_raise_only_for_their_config
                                   (browser := Faulty.browser) SoMMarker.default_config))
                     _ eq_refl)
              Faulty.start PlaywrightError tt _).
    reflexivity.
  - refine (proj2 (proj1 (proj2 (proj2 (marker_calls_raise_only_for_their_config
                                          three_keys)))
                     KeyError _) (Mock.start sign_in_form)).
    reflexivity.
  - refine (proj1 (proj2 (proj2 (proj2 (marker_calls_raise_only_for_their_config
                                          three_keys))))
              (JStr "#00FF00") _ 0 (Mock.start sign_in_form)).
    reflexivity.
Defined.

(** ** The handler: loops over selectors *)

Section SelectorLoops.
Context {Σ : Type} {browser : Browser Σ}.

Lemma for_selectors_emits {A} (Q : event -> Prop) (body : selector -> M Σ (option A))
    (selectors : list selector) :
  (forall s, emits Q (body s)) -> emits Q (AuthHandler.for_selectors body selectors).
Proof.
  intros Hb. induction selectors as [|s rest IH]; cbn [AuthHandler.for_selectors];
    emits_all.
Qed.


Lemma when_visible_emits {A} (Q : event -> Prop) (s : selector)
    (then_ : ElementHandle -> M Σ (option A)) :
  (forall r, Q (Called (QuerySelector s) r)) ->
  (forall el r, Q (Called (ElementIsVisible el) r)) ->
  (forall el, emits Q (then_ el)) ->
  emits Q (AuthHandler.when_visible s then_).
Proof.
  intros Hq Hv Ht. unfold AuthHandler.when_visible.
  apply emits_bind; [apply emits_perform, Hq|]. intros [el|]; [|emits_all].
  apply emits_bind; [apply emits_perform, Hv|]. intros [|]; [apply Ht|emits_all].
Qed.

(** A loop whose body, when it returns, has just made a call that [P]
    describes, returns only after such a call. *)
Lemma for_selectors_last {A} (P : event -> Prop) (body : selector -> M Σ (option A))
    (selectors : list selector) :
  (forall s, emits (fun _ => True) (body s)) ->
  (forall s w a w', body s w = (Ok (Some a), w') ->
     exists pre ev, trace w' = (trace w ++ pre ++ [ev])%list /\ P ev) ->
  forall w a w', AuthHandler.for_selectors body selectors w = (Ok (Some a), w') ->
    exists pre ev, trace w' = (trace w ++ pre ++ [ev])%list /\ P ev.
Proof.
  intros He Hb. induction selectors as [|s rest IH]; intros w a w';
    cbn [AuthHandler.for_selectors].
  - intros [=].
  - unfold bind, try_except.
    destruct (body s w) as [r0 w0] eqn:E0.
    destruct (He _ _ _ _ E0) as (e0 & T0 & _).
    assert (forall a1 w1, AuthHandler.for_selectors body rest w0 = (Ok (Some a1), w1) ->
              exists pre ev, trace w1 = (trace w ++ pre ++ [ev])%list /\ P ev) as Hrest.
    { intros a1 w1 E1. destruct (IH _ _ _ E1) as (pre & ev & T1 & Hp).
      exists (e0 ++ pre)%list, ev. split; [|exact Hp].
      rewrite T1, T0, <- !app_assoc. reflexivity. }
    destruct r0 as [[a0|]|e]; cbn.
    + intros [= <- <-]. apply (Hb _ _ _ _ E0).
    + apply Hrest.
    + apply Hrest.
Qed.

End SelectorLoops.

(** ** The handler: checks that only look, helpers that never raise *)

Section HandlerChecks.
Context {Σ : Type} {browser : Browser Σ} {reader : JsonReader}.
Variable self : AuthHandler.Config.

Lemma get_page_state_emits : emits observes AuthHandler._get_page_state.
Proof. unfold AuthHandler._get_page_state. emits_all. Qed.


Lemma any_visible_emits (selectors : list selector) :
  emits observes (AuthHandler.any_visible selectors).
Proof.
  induction selectors as [|s rest IH]; cbn [AuthHandler.any_visible]; emits_all.
Qed.

Lemma human_wait_loop_emits (rounds : nat) (max_wait_seconds : Z) (s : AuthHandler.page_state)
    (u : string) (start_time : Z) :
  emits observes (AuthHandler.human_wait_loop rounds max_wait_seconds s u start_time).
Proof.
  pose proof get_page_state_emits.
  induction rounds as [|rounds IH]; cbn [AuthHandler.human_wait_loop]; emits_all.
Qed.


Lemma is_password_field_visible_emits :
  emits observes AuthHandler._is_password_field_visible.
Proof.
  unfold AuthHandler._is_password_field_visible.
  pose proof (any_visible_emits AuthHandler.password_visible_selectors). emits_all.
Qed.

Lemma detect_2fa_page_emits : emits observes AuthHandler._detect_2fa_page.
Proof. unfold AuthHandler._detect_2fa_page. emits_all. Qed.

Lemma check_for_error_messages_emits : emits observes AuthHandler._check_for_error_messages.
Proof.
  unfold AuthHandler._check_for_error_messages.
  apply for_selectors_emits. intros s.
  apply when_visible_emits; cbn; auto. intros el. emits_all.
Qed.

Lemma wait_for_human_intervention_emits (max_wait_seconds : Z) :
  emits observes (AuthHandler.wait_for_human_intervention max_wait_seconds).
Proof.
  unfold AuthHandler.wait_for_human_intervention.
  pose proof get_page_state_emits.
  pose proof (fun s u t => human_wait_loop_emits
                             (Z.to_nat (max_wait_seconds / 2 + 2)) max_wait_seconds s u t).
  emits_all.
Qed.

(** For every browser: reading the page state, testing for a visible
    password field, detecting a verification page, looking for error
    messages and waiting for the human only read the page (content, title,
    selector queries, visibility, inner text) and sleep: they never click,
    fill, press a key or navigate. *)
Theorem handler_checks_only_observe :
  emits observes AuthHandler._get_page_state
  /\ emits observes AuthHandler._is_password_field_visible
  /\ emits observes AuthHandler._detect_2fa_page
  /\ emits observes AuthHandler._check_for_error_messages
  /\ forall max_wait_seconds,
       emits observes (AuthHandler.wait_for_human_intervention max_wait_seconds).
Proof.
  split; [apply get_page_state_emits|].
  split; [apply is_password_field_visible_emits|].
  split; [apply detect_2fa_page_emits|].
  split; [apply check_for_error_messages_emits|].
  apply wait_for_human_intervention_emits.
Qed.



End HandlerChecks.

(** ** The handler: milestones *)

(** Split a run, given as a hypothesis, along the calls it makes. *)
Ltac split_run H :=
  repeat
    (cbv beta iota delta [bind ret sleep AuthHandler.and_then] in H;
     match type of H with
     | context [match ?x with _ => _ end] =>
         lazymatch x with
         | context [match _ with _ => _ end] => fail
         | _ => idtac
         end;
         match type of x with
         | (Res _ * World _)%type => destruct x as [[?|?] ?]
         | (Res _ * _)%type => destruct x as [[?|?] ?]
         | bool => destruct x eqn:?
         | option _ => destruct x
         | (_ * _)%type => destruct x
         | ActionType => destruct x
         end
     | context [if ?x then _ else _] => destruct x eqn:?
     | (_, _) = (_, _) => inversion H; subst; clear H
     end; try discriminate).

Section Milestones.
Context {Σ : Type} {browser : Browser Σ} {reader : JsonReader}.
Variable self : AuthHandler.Config.

Lemma stages_keep_order (vision_state : VisionLoginAgent.LoginDecision)
    (screenshot_path email password : string) (p p' : AuthHandler.AuthProgress)
    (o : option AuthHandler.flow) (w w' : World Σ) :
  AuthHandler.stages self vision_state screenshot_path email password p w
  = (Ok (o, p'), w') ->
  (in_order (AuthHandler.actions_taken p) = true ->
   in_order (AuthHandler.actions_taken p') = true)
  /\ (AuthHandler.navigated_to_login (AuthHandler.actions_taken p) = true ->
      AuthHandler.navigated_to_login (AuthHandler.actions_taken p') = true).
Proof.
  intros H. destruct p as [[n e c f s] ps sc].
  unfold AuthHandler.stages, AuthHandler.stuck_stage, AuthHandler.navigate_stage,
    AuthHandler.fill_email_stage, AuthHandler.continue_stage,
    AuthHandler.verification_after_continue,
    AuthHandler.fill_password_stage, AuthHandler.submit_stage, AuthHandler.error_stage in H.
  cbn [AuthHandler.actions_taken AuthHandler.navigated_to_login AuthHandler.filled_email
       AuthHandler.clicked_continue_after_email AuthHandler.filled_password
       AuthHandler.submitted_login AuthHandler.stuck_counter] in H.
  split_run H.
  all: cbn; unfold in_order; cbn; split; intros; subst; cbn in *; auto.
  all: repeat match goal with b : bool |- _ => destruct b end; cbn in *; congruence.
Qed.

Lemma track_state_keeps_actions (current_state : AuthHandler.page_state)
    (p : AuthHandler.AuthProgress) :
  AuthHandler.actions_taken (AuthHandler.track_state current_state p)
  = AuthHandler.actions_taken p.
Proof.
  unfold AuthHandler.track_state.
  destruct (AuthHandler.previous_state p); [|reflexivity].
  destruct (AuthHandler.page_state_eqb _ _); reflexivity.
Qed.

Lemma observe_keeps_actions (credentials : gmap string string)
    (screenshot_dir : option string) (step : nat) (p p' : AuthHandler.AuthProgress)
    (vision_state : VisionLoginAgent.LoginDecision) (screenshot_path : string)
    (w w' : World Σ) :
  AuthHandler.observe self credentials screenshot_dir step p w
  = (Ok (vision_state, screenshot_path, p'), w') ->
  AuthHandler.actions_taken p' = AuthHandler.actions_taken p.
Proof.
  intros H. unfold AuthHandler.observe in H.
  split_run H.
  all: apply track_state_keeps_actions.
Qed.

Lemma auth_step_keeps_order (credentials : gmap string string) (email password : string)
    (screenshot_dir : option string) (step : nat) (p p' : AuthHandler.AuthProgress)
    (f : AuthHandler.flow) (w w' : World Σ) :
  AuthHandler.auth_step self credentials email password screenshot_dir step p w
  = (Ok (f, p'), w') ->
  (in_order (AuthHandler.actions_taken p) = true ->
   in_order (AuthHandler.actions_taken p') = true)
  /\ (AuthHandler.navigated_to_login (AuthHandler.actions_taken p) = true ->
      AuthHandler.navigated_to_login (AuthHandler.actions_taken p') = true).
Proof.
  intros H. unfold AuthHandler.auth_step in H.
  cbv beta iota delta [bind] in H.
  destruct (AuthHandler.observe _ _ _ _ _ _) as [[[[vs path] q]|?] w1] eqn:Hobs;
    [|discriminate].
  apply observe_keeps_actions in Hobs.
  destruct (json_truthy _).
  - cbv in H. inversion H; subst. rewrite Hobs. auto.
  - destruct (AuthHandler.stages _ _ _ _ _ _ _) as [[[o q']|?] w2] eqn:Hst;
      [|discriminate].
    apply stages_keep_order in Hst. cbv beta iota delta [ret snd] in H.
    inversion H; subst. rewrite Hobs in Hst. exact Hst.
Qed.

Lemma auth_loop_keeps_order (credentials : gmap string string) (email password : string)
    (screenshot_dir : option string) (remaining : nat) :
  forall (step : nat) (p p' : AuthHandler.AuthProgress) (b : bool) (w w' : World Σ),
  AuthHandler.auth_loop self credentials email password screenshot_dir remaining step p w
  = (Ok (b, p'), w') ->
  (in_order (AuthHandler.actions_taken p) = true ->
   in_order (AuthHandler.actions_taken p') = true)
  /\ (AuthHandler.navigated_to_login (AuthHandler.actions_taken p) = true ->
      AuthHandler.navigated_to_login (AuthHandler.actions_taken p') = true).
Proof.
  induction remaining as [|n IH]; intros step p p' b w w' H; cbn [AuthHandler.auth_loop] in H.
  - cbv in H. inversion H; subst. auto.
  - cbv beta iota delta [bind] in H.
    destruct (AuthHandler.auth_step _ _ _ _ _ _ _ _) as [[[f q]|?] w1] eqn:Hstep;
      [|discriminate].
    apply auth_step_keeps_order in Hstep. destruct f.
    + apply IH in H. tauto.
    + cbv in H. inversion H; subst. exact Hstep.
Qed.

Lemma authenticate_keeps_order (credentials : gmap string string) (max_steps : nat)
    (screenshot_dir : option string) (p p' : AuthHandler.AuthProgress) (b : bool)
    (w w' : World Σ) :
  AuthHandler.authenticate self credentials max_steps screenshot_dir p w
  = (Ok (b, p'), w') ->
  (in_order (AuthHandler.actions_taken p) = true ->
   in_order (AuthHandler.actions_taken p') = true)
  /\ (AuthHandler.navigated_to_login (AuthHandler.actions_taken p) = true ->
      AuthHandler.navigated_to_login (AuthHandler.actions_taken p') = true).
Proof.
  intros H. unfold AuthHandler.authenticate in H.
  destruct (_ || _).
  - cbv in H. inversion H; subst. auto.
  - eapply auth_loop_keeps_order; eassumption.
Qed.

(** The milestones of the handler are reached in the order of the form:
    whenever [authenticate] returns, from a handler whose milestones are in
    order (as in a fresh handler), a submission implies a filled secret, a
    filled secret implies the advance past the identifier, and the advance
    implies a filled identifier; this holds for every page, every answer of
    the oracle and every step budget, also across the reset after an error
    message. *)
Theorem authenticate_reaches_milestones_in_order (credentials : gmap string string)
    (max_steps : nat) (screenshot_dir : option string)
    (p p' : AuthHandler.AuthProgress) (b : bool) (w w' : World Σ) :
  in_order (AuthHandler.actions_taken p) = true ->
  AuthHandler.authenticate self credentials max_steps screenshot_dir p w
  = (Ok (b, p'), w') ->
  in_order (AuthHandler.actions_taken p') = true.
Proof.
  intros Hp H. apply authenticate_keeps_order in H. tauto.
Qed.

(** The navigation milestone is never lost: once the handler has
    reached the login page, every return of [authenticate] leaves
    [navigated_to_login] set, whatever the page and the oracle do. *)
Theorem authenticate_never_unsets_navigation (credentials : gmap string string)
    (max_steps : nat) (screenshot_dir : option string)
    (p p' : AuthHandler.AuthProgress) (b : bool) (w w' : World Σ) :
  AuthHandler.navigated_to_login (AuthHandler.actions_taken p) = true ->
  AuthHandler.authenticate self credentials max_steps screenshot_dir p w
  = (Ok (b, p'), w') ->
  AuthHandler.navigated_to_login (AuthHandler.actions_taken p') = true.
Proof.
  intros Hp H. apply authenticate_keeps_order in H. tauto.
Qed.

End Milestones.

Lemma authenticate_order_witness :
  exists b p' w',
    AuthHandler.authenticate (reader := Mock.reader []) plain_handler some_credentials 6
      None AuthHandler.initial (Mock.start sign_in_form) = (Ok (b, p'), w')
    /\ AuthHandler.submitted_login (AuthHandler.actions_taken p') = true
    /\ in_order (AuthHandler.actions_taken p') = true.
Proof.
  eexists _, _, _. split; [vm_compute; reflexivity|]. split; [reflexivity|].
  eapply (authenticate_reaches_milestones_in_order (reader := Mock.reader [])
            plain_handler some_credentials 6 None AuthHandler.initial _ _
            (Mock.start sign_in_form));
    [reflexivity | vm_compute; reflexivity].
Defined.

Lemma authenticate_navigation_witness :
  exists b p' w',
    AuthHandler.authenticate (reader := Mock.reader []) plain_handler some_credentials 2
      None (AuthHandler._reset_actions AuthHandler.initial) (Mock.start sign_in_form)
    = (Ok (b, p'), w')
    /\ AuthHandler.navigated_to_login (AuthHandler.actions_taken p') = true.
Proof.
  eexists _, _, _. split; [vm_compute; reflexivity|].
  eapply (authenticate_never_unsets_navigation (reader := Mock.reader [])
            plain_handler some_credentials 2 None
            (AuthHandler._reset_actions AuthHandler.initial) _ _ (Mock.start sign_in_form));
    [reflexivity | vm_compute; reflexivity].
Defined.

(** ** The handler: what a success means *)

Lemma ended_on_intro {Σ} (P : event -> Prop) (w w' : World Σ) (before : list event)
    (ev : event) :
  trace w' = (before ++ [ev])%list -> (exists pre, before = (trace w ++ pre)%list) ->
  P ev -> ended_on P w w'.
Proof.
  intros T [pre ->] Hp. exists pre, ev. split; [|exact Hp].
  rewrite T, <- app_assoc. reflexivity.
Qed.

Lemma ended_on_later {Σ} (P : event -> Prop) (w w0 w' : World Σ) (evs : list event) :
  trace w0 = (trace w ++ evs)%list -> ended_on P w0 w' -> ended_on P w w'.
Proof.
  intros T (pre & ev & T' & Hp). exists (evs ++ pre)%list, ev. split; [|exact Hp].
  rewrite T', T, <- !app_assoc. reflexivity.
Qed.

(** Close a goal [ended_on P w w'] where the trace of [w'] is written out. *)
Ltac ended :=
  eapply ended_on_intro;
  [ cbn [trace]; reflexivity
  | first [ rewrite <- ?app_assoc; eexists; reflexivity
          | exists []; rewrite app_nil_r; reflexivity ]
  | cbv; eauto ].

Section Success.
Context {Σ : Type} {browser : Browser Σ}.

Lemma fill_email_body_last (email : string) (s : selector) (w : World Σ) (a : bool)
    (w' : World Σ) :
  AuthHandler.when_visible s (fun element =>
    perform (ElementClick element false None) ;;;
    perform (KeyboardPress "Control+A") ;;;
    perform (ElementFill element email None) ;;;
    ret (Some true)) w = (Ok (Some a), w') ->
  exists pre ev, trace w' = (trace w ++ pre ++ [ev])%list /\ filled email ev.
Proof.
  intros H. unfold AuthHandler.when_visible, perform in H. split_run H.
  repeat match goal with u : unit |- _ => destruct u end. ended.
Qed.

Lemma fill_password_body_last (password : string) (s : selector) (w : World Σ) (a : bool)
    (w' : World Σ) :
  AuthHandler.when_visible s (fun element =>
    perform (ElementClick element false None) ;;;
    sleep 200 ;;;
    perform (KeyboardPress "Control+A") ;;;
    sleep 100 ;;;
    perform (KeyboardPress "Backspace") ;;;
    sleep 100 ;;;
    perform (ElementFill element password None) ;;;
    ret (Some true)) w = (Ok (Some a), w') ->
  exists pre ev, trace w' = (trace w ++ pre ++ [ev])%list /\ filled password ev.
Proof.
  intros H. unfold AuthHandler.when_visible, perform in H. split_run H.
  repeat match goal with u : unit |- _ => destruct u end. ended.
Qed.

Lemma click_body_last (s : selector) (w : World Σ) (a : bool) (w' : World Σ) :
  AuthHandler.when_visible s (fun element =>
    perform (ElementClick element false None) ;;; ret (Some true)) w
  = (Ok (Some a), w') ->
  exists pre ev, trace w' = (trace w ++ pre ++ [ev])%list /\ clicked_it ev.
Proof.
  intros H. unfold AuthHandler.when_visible, perform in H. split_run H.
  repeat match goal with u : unit |- _ => destruct u end. ended.
Qed.

Lemma click_login_text_last (s : selector) (w : World Σ) (a : bool) (w' : World Σ) :
  AuthHandler.click_login_text s w = (Ok (Some a), w') ->
  exists pre ev, trace w' = (trace w ++ pre ++ [ev])%list /\ clicked_it ev.
Proof.
  intros H. unfold AuthHandler.click_login_text, AuthHandler.when_visible, perform in H.
  split_run H.
  repeat match goal with u : unit |- _ => destruct u end. ended.
Qed.

Lemma click_login_href_last (s : selector) (w : World Σ) (a : bool) (w' : World Σ) :
  AuthHandler.click_login_href s w = (Ok (Some a), w') ->
  exists pre ev, trace w' = (trace w ++ pre ++ [ev])%list /\ clicked_it ev.
Proof.
  intros H. unfold AuthHandler.click_login_href, AuthHandler.when_visible, perform in H.
  split_run H.
  repeat match goal with u : unit |- _ => destruct u end. ended.
Qed.

Lemma press_enter_last (w : World Σ) (a : bool) (w' : World Σ) :
  try_except
    (AuthHandler.when_visible (css "input" [sel_attr "type" attr_equals "password"])
       (fun pwd_field => perform (ElementPress pwd_field "Enter") ;;; ret (Some true)))
    isinstance_Exception (ret None) w = (Ok (Some a), w') ->
  ended_on pressed_enter w w'.
Proof.
  intros H. unfold try_except, AuthHandler.when_visible, perform in H.
  split_run H.
  repeat match goal with u : unit |- _ => destruct u end. ended.
Qed.

(** The loop over the selectors adds events only *)
Lemma loop_extends {A} (body : selector -> M Σ (option A)) (selectors : list selector)
    (w : World Σ) (r : Res (option A)) (w' : World Σ) :
  (forall s, emits (fun _ => True) (body s)) ->
  AuthHandler.for_selectors body selectors w = (r, w') ->
  exists evs, trace w' = (trace w ++ evs)%list.
Proof.
  intros Hb E.
  destruct (for_selectors_emits (fun _ => True) body selectors Hb _ _ _ E) as (evs & T & _).
  eauto.
Qed.

(** For every browser, a helper of the handler reports success only
    directly after the call that does its work has returned: the fill of
    the field with exactly the credential it was given, the click on the
    link or the button, or the press of Enter in the password field.  A
    success is never reported after a call that raised, nor after a mere
    look at the page. *)
Theorem handler_success_follows_the_call :
  (forall email, true_only_after (filled email) (AuthHandler._fill_email_field email))
  /\ (forall password,
        true_only_after (filled password) (AuthHandler._fill_password_field password))
  /\ true_only_after clicked_it AuthHandler._navigate_to_login_page
  /\ true_only_after clicked_it AuthHandler._click_continue_button
  /\ true_only_after (fun e => clicked_it e \/ pressed_enter e)
       AuthHandler._submit_login_form.
Proof.
  repeat split.
  - intros email w w' H. unfold AuthHandler._fill_email_field in H.
    unfold bind at 1 in H.
    destruct (AuthHandler.for_selectors _ _ w) as [[[a|]|e] w0] eqn:E0;
      cbv in H; try discriminate.
    injection H as -> ->.
    apply (for_selectors_last (filled email) _ _) in E0; [exact E0| |].
    + intros s. apply when_visible_emits; auto. intros el. emits_all.
    + intros s w1 a w2. apply fill_email_body_last.
  - intros password w w' H. unfold AuthHandler._fill_password_field in H.
    unfold bind at 1 in H.
    destruct (AuthHandler.for_selectors _ _ w) as [[[a|]|e] w0] eqn:E0;
      cbv in H; try discriminate.
    injection H as -> ->.
    apply (for_selectors_last (filled password) _ _) in E0; [exact E0| |].
    + intros s. apply when_visible_emits; auto. intros el. emits_all.
    + intros s w1 a w2. apply fill_password_body_last.
  - intros w w' H. unfold AuthHandler._navigate_to_login_page in H.
    unfold bind at 1 in H.
    destruct (AuthHandler.for_selectors _ _ w) as [[[a|]|e] w0] eqn:E0;
      try discriminate.
    + cbv in H. injection H as -> ->.
      apply (for_selectors_last clicked_it _ _) in E0; [exact E0| |].
      * intros s. unfold AuthHandler.click_login_text.
        apply when_visible_emits; auto. intros el. emits_all.
      * intros s w1 a w2. apply click_login_text_last.
    + apply loop_extends in E0;
        [|intros s; unfold AuthHandler.click_login_text;
          apply when_visible_emits; auto; intros el; emits_all].
      destruct E0 as (evs & T0). apply (ended_on_later _ _ _ _ _ T0).
      unfold bind at 1 in H.
      destruct (AuthHandler.for_selectors _ _ w0) as [[[a|]|e] w1] eqn:E1;
        cbv in H; try discriminate.
      injection H as -> ->.
      apply (for_selectors_last clicked_it _ _) in E1; [exact E1| |].
      * intros s. unfold AuthHandler.click_login_href.
        apply when_visible_emits; auto. intros el. emits_all.
      * intros s w2 a w3. apply click_login_href_last.
  - intros w w' H. unfold AuthHandler._click_continue_button in H.
    unfold bind at 1 in H.
    destruct (AuthHandler.for_selectors _ _ w) as [[[a|]|e] w0] eqn:E0;
      cbv in H; try discriminate.
    injection H as -> ->.
    apply (for_selectors_last clicked_it _ _) in E0; [exact E0| |].
    + intros s. apply when_visible_emits; auto. intros el. emits_all.
    + intros s w1 a w2. apply click_body_last.
  - intros w w' H. unfold AuthHandler._submit_login_form in H.
    unfold bind at 1 in H.
    destruct (AuthHandler.for_selectors _ _ w) as [[[a|]|e] w0] eqn:E0;
      try discriminate.
    + cbv in H. injection H as -> ->.
      apply (for_selectors_last clicked_it _ _) in E0.
      * destruct E0 as (pre & ev & T & Hp). exists pre, ev. auto.
      * intros s. apply when_visible_emits; auto. intros el. emits_all.
      * intros s w1 a w2. apply click_body_last.
    + apply loop_extends in E0;
        [|intros s; apply when_visible_emits; auto; intros el; emits_all].
      destruct E0 as (evs & T0). apply (ended_on_later _ _ _ _ _ T0).
      unfold bind at 1 in H.
      match type of H with
      | context [try_except ?m ?c ?h w0] =>
          destruct (try_except m c h w0) as [[[a|]|e] w1] eqn:E1
      end; cbv in H; try discriminate.
      injection H as -> ->.
      apply press_enter_last in E1.
      destruct E1 as (pre & ev & T & Hp). exists pre, ev. auto.
Qed.

End Success.

Lemma handler_success_witness :
  exists w', AuthHandler._fill_password_field "p" (Mock.start sign_in_form) = (Ok true, w')
             /\ ended_on (filled "p") (Mock.start sign_in_form) w'.
Proof.
  eexists. split; [vm_compute; reflexivity|].
  apply (proj1 (proj2 handler_success_follows_the_call) "p").
  vm_compute. reflexivity.
Defined.

(** ** The handler: what its helpers touch *)

Section Touch.
Context {Σ : Type} {browser : Browser Σ}.

Lemma fill_email_field_emits (email : string) :
  emits (filling_event email) (AuthHandler._fill_email_field email).
Proof.
  unfold AuthHandler._fill_email_field.
  apply emits_bind; [|intros; emits_all].
  apply for_selectors_emits. intros s.
  apply when_visible_emits; cbn; auto. intros el. emits_all.
Qed.

Lemma fill_password_field_emits (password : string) :
  emits (filling_event password) (AuthHandler._fill_password_field password).
Proof.
  unfold AuthHandler._fill_password_field.
  apply emits_bind; [|intros; emits_all].
  apply for_selectors_emits. intros s.
  apply when_visible_emits; cbn; auto. intros el. emits_all.
Qed.

Lemma navigate_to_login_page_emits : emits pressing_event AuthHandler._navigate_to_login_page.
Proof.
  unfold AuthHandler._navigate_to_login_page.
  apply emits_bind.
  - apply for_selectors_emits. intros s. unfold AuthHandler.click_login_text.
    apply when_visible_emits; cbn; auto. intros el. emits_all.
  - intros [b|]; [emits_all|]. apply emits_bind; [|intros; emits_all].
    apply for_selectors_emits. intros s. unfold AuthHandler.click_login_href.
    apply when_visible_emits; cbn; auto. intros el. emits_all.
Qed.

Lemma click_continue_button_emits : emits pressing_event AuthHandler._click_continue_button.
Proof.
  unfold AuthHandler._click_continue_button.
  apply emits_bind; [|intros; emits_all].
  apply for_selectors_emits. intros s.
  apply when_visible_emits; cbn; auto. intros el. emits_all.
Qed.

Lemma submit_login_form_emits : emits pressing_event AuthHandler._submit_login_form.
Proof.
  unfold AuthHandler._submit_login_form.
  apply emits_bind.
  - apply for_selectors_emits. intros s.
    apply when_visible_emits; cbn; auto. intros el. emits_all.
  - intros [b|]; [emits_all|]. apply emits_bind; [|intros; emits_all].
    apply emits_try_except; [|emits_all].
    apply when_visible_emits; cbn; auto. intros el. emits_all.
Qed.

(** For every browser: the helpers that fill a field hand the credential
    to [fill] only (never to the keyboard, never to a script), click
    without force, and press keys to clear the field; the helpers that
    click or submit never fill or type anything: they look for elements,
    read their text, click without force and press Enter. *)
Theorem handler_helpers_touch_only_their_target :
  (forall email, emits (filling_event email) (AuthHandler._fill_email_field email))
  /\ (forall password,
        emits (filling_event password) (AuthHandler._fill_password_field password))
  /\ emits pressing_event AuthHandler._navigate_to_login_page
  /\ emits pressing_event AuthHandler._click_continue_button
  /\ emits pressing_event AuthHandler._submit_login_form.
Proof.
  split; [exact fill_email_field_emits|].
  split; [exact fill_password_field_emits|].
  split; [exact navigate_to_login_page_emits|].
  split; [exact click_continue_button_emits|].
  exact submit_login_form_emits.
Qed.

End Touch.

(** ** The handler: queries of the language model, and what may raise *)

Lemma llm_calls_app (a b : list event) :
  llm_calls (a ++ b) = (llm_calls a + llm_calls b)%nat.
Proof.
  induction a as [|e a IH]; [reflexivity|].
  cbn [app llm_calls]. destruct e as [R c r|ms]; [|exact IH].
  destruct c; cbn; rewrite IH; reflexivity.
Qed.

Lemma no_llm_calls (evs : list event) : Forall no_llm evs -> llm_calls evs = 0%nat.
Proof.
  induction 1 as [|e evs He _ IH]; [reflexivity|].
  cbn [llm_calls]. destruct e as [R c r|ms]; [|exact IH].
  destruct c; try exact IH. destruct He.
Qed.

Section Budget.
Context {Σ : Type} {browser : Browser Σ} {reader : JsonReader}.

Lemma queries_none {A} (m : M Σ A) : emits no_llm m -> queries_at_most 0 m.
Proof.
  intros Hm w r w' E. destruct (Hm _ _ _ E) as (evs & T & F).
  exists evs. split; [exact T|]. rewrite (no_llm_calls _ F). lia.
Qed.

Lemma queries_bind {A B} (a b : nat) (m : M Σ A) (k : A -> M Σ B) :
  queries_at_most a m -> (forall x, queries_at_most b (k x)) ->
  queries_at_most (a + b) (bind m k).
Proof.
  intros Hm Hk w r w'. unfold bind.
  destruct (m w) as [r0 w0] eqn:E0. destruct (Hm _ _ _ E0) as (e0 & T0 & F0).
  destruct r0 as [x|e].
  - intros E1. destruct (Hk x _ _ _ E1) as (e1 & T1 & F1).
    exists (e0 ++ e1)%list. split; [rewrite T1, T0, app_assoc; reflexivity|].
    rewrite llm_calls_app. lia.
  - intros [= <- <-]. exists e0. split; [exact T0|]. lia.
Qed.

Lemma queries_weaken {A} (a b : nat) (m : M Σ A) :
  (a <= b)%nat -> queries_at_most a m -> queries_at_most b m.
Proof.
  intros Hab Hm w r w' E. destruct (Hm _ _ _ E) as (evs & T & F).
  exists evs. split; [exact T|]. lia.
Qed.

Lemma try_click_marker_no_llm (k : Z) : emits no_llm (ActionExecutor._try_click_marker k).
Proof. unfold ActionExecutor._try_click_marker, ActionExecutor._get_element_by_marker. emits_all. Qed.

Lemma find_text_input_no_llm (k : Z) (offsets : list Z) :
  emits no_llm (ActionExecutor.find_text_input k offsets).
Proof.
  induction offsets as [|o rest IH]; cbn [ActionExecutor.find_text_input];
    unfold ActionExecutor._get_element_by_marker; emits_all.
Qed.

(** The executor never queries the language model. *)
Lemma execute_no_llm (self : SoMConfig) (action : AgentAction) :
  emits no_llm (ActionExecutor.execute self action).
Proof.
  pose proof try_click_marker_no_llm as Hc.
  pose proof find_text_input_no_llm as Hf.
  unfold ActionExecutor.execute, ActionExecutor._execute_click, ActionExecutor._execute_type,
    ActionExecutor._execute_navigate, ActionExecutor._execute_wait,
    ActionExecutor._execute_scroll, ActionExecutor.click_with_fallback,
    ActionExecutor.adjust_marker, ActionExecutor.type_into, ActionExecutor.keyboard_typing,
    ActionExecutor._get_element_by_marker, SoMMarker.highlight_element.
  emits_all.
Qed.

Lemma observes_no_llm (e : event) : observes e -> no_llm e.
Proof. destruct e as [R c r|ms]; [destruct c|]; cbn; auto. Qed.

Lemma pressing_no_llm (e : event) : pressing_event e -> no_llm e.
Proof. destruct e as [R c r|ms]; [destruct c|]; cbn; auto. Qed.

Lemma filling_no_llm (text : string) (e : event) : filling_event text e -> no_llm e.
Proof. destruct e as [R c r|ms]; [destruct c|]; cbn; auto. Qed.

Variable self : AuthHandler.Config.

Lemma vision_fallback_no_llm (vision_state : VisionLoginAgent.LoginDecision)
    (screenshot_path : string) :
  emits no_llm (AuthHandler._vision_fallback_action self vision_state screenshot_path).
Proof.
  unfold AuthHandler._vision_fallback_action.
  destruct (AuthHandler.som_marker self) as [marker|]; [|emits_all].
  destruct (AuthHandler.action_executor self) as [executor|]; [|emits_all].
  pose proof (execute_no_llm executor (VisionLoginAgent.action vision_state)).
  unfold SoMMarker.mark_page, SoMMarker.remove_markers. emits_all.
Qed.

(** The stages of an iteration never query the language model. *)
Lemma stages_no_llm (vision_state : VisionLoginAgent.LoginDecision)
    (screenshot_path email password : string) (p : AuthHandler.AuthProgress) :
  emits no_llm (AuthHandler.stages self vision_state screenshot_path email password p).
Proof.
  pose proof (vision_fallback_no_llm vision_state screenshot_path).
  pose proof (emits_weaken _ _ _ pressing_no_llm navigate_to_login_page_emits).
  pose proof (emits_weaken _ _ _ pressing_no_llm click_continue_button_emits).
  pose proof (emits_weaken _ _ _ pressing_no_llm submit_login_form_emits).
  pose proof (emits_weaken _ _ _ (filling_no_llm email) (fill_email_field_emits email)).
  pose proof (emits_weaken _ _ _ (filling_no_llm password)
                (fill_password_field_emits password)).
  pose proof (emits_weaken _ _ _ observes_no_llm is_password_field_visible_emits).
  pose proof (emits_weaken _ _ _ observes_no_llm detect_2fa_page_emits).
  pose proof (emits_weaken _ _ _ observes_no_llm check_for_error_messages_emits).
  pose proof (emits_weaken _ _ _ observes_no_llm (wait_for_human_intervention_emits 300)).
  unfold AuthHandler.stages, AuthHandler.and_then, AuthHandler.stuck_stage,
    AuthHandler.navigate_stage, AuthHandler.fill_email_stage, AuthHandler.continue_stage,
    AuthHandler.verification_after_continue, AuthHandler.fill_password_stage,
    AuthHandler.submit_stage, AuthHandler.error_stage.
  emits_all.
Qed.

(** The observation at the start of an iteration queries it once at most. *)
Lemma observe_queries_once (credentials : gmap string string)
    (screenshot_dir : option string) (step : nat) (p : AuthHandler.AuthProgress) :
  queries_at_most 1 (AuthHandler.observe self credentials screenshot_dir step p).
Proof.
  pose proof (emits_weaken _ _ _ observes_no_llm get_page_state_emits) as Hs.
  unfold AuthHandler.observe.
  apply (queries_bind 0 1); [apply queries_none; emits_all|]. intros _.
  apply (queries_bind 0 1); [apply queries_none; exact Hs|]. intros current_state.
  apply (queries_bind 0 1).
  { apply queries_none. unfold SoMMarker.mark_page. emits_all. }
  intros _.
  apply (queries_bind 0 1).
  { apply queries_none. unfold AuthHandler._take_screenshot. emits_all. }
  intros screenshot_path.
  apply (queries_bind 0 1); [apply queries_none; emits_all|]. intros current_url.
  apply (queries_bind 1 0).
  - unfold VisionLoginAgent.decide_login_action.
    apply (queries_bind 0 1); [apply queries_none; emits_all|]. intros data.
    apply (queries_bind 1 0); [|intros; apply queries_none; emits_all].
    intros w r w' E. unfold perform in E.
    destruct (respond _ _ (page w)) as [r0 p0]. injection E as <- <-.
    exists [Called (LlmCreate data
                      (VisionLoginAgent.str_or (credentials !! "email")
                         (credentials !! "username"))
                      current_url (VisionLoginAgent._build_element_summary [] 30)) r0].
    split; [reflexivity|]. cbn. lia.
  - intros vision_state. apply queries_none.
    unfold SoMMarker.remove_markers. emits_all.
Qed.

Lemma auth_step_queries_once (credentials : gmap string string) (email password : string)
    (screenshot_dir : option string) (step : nat) (p : AuthHandler.AuthProgress) :
  queries_at_most 1
    (AuthHandler.auth_step self credentials email password screenshot_dir step p).
Proof.
  unfold AuthHandler.auth_step.
  apply (queries_bind 1 0); [apply observe_queries_once|].
  intros [[vision_state screenshot_path] q]. apply queries_none.
  pose proof (stages_no_llm vision_state screenshot_path email password q).
  emits_all.
Qed.

Lemma auth_loop_queries (credentials : gmap string string) (email password : string)
    (screenshot_dir : option string) (remaining : nat) :
  forall (step : nat) (p : AuthHandler.AuthProgress),
    queries_at_most remaining
      (AuthHandler.auth_loop self credentials email password screenshot_dir remaining
         step p).
Proof.
  induction remaining as [|n IH]; intros step p; cbn [AuthHandler.auth_loop].
  - apply queries_none. emits_all.
  - apply (queries_bind 1 n); [apply auth_step_queries_once|].
    intros [[|b] q]; [apply IH|].
    apply (queries_weaken 0); [lia|]. apply queries_none. emits_all.
Qed.

(** For every browser, JSON reader and credentials: a run of
    [authenticate] with the budget [max_steps] queries the language model
    at most [max_steps] times, whatever the outcome (a result or an
    exception): one query per iteration, none by the stages, the executor
    or the wait for the human. *)
Theorem authenticate_queries_within_budget (credentials : gmap string string)
    (max_steps : nat) (screenshot_dir : option string) (p : AuthHandler.AuthProgress) :
  queries_at_most max_steps
    (AuthHandler.authenticate self credentials max_steps screenshot_dir p).
Proof.
  unfold AuthHandler.authenticate.
  destruct (_ || _).
  - apply (queries_weaken 0); [lia|]. apply queries_none. emits_all.
  - apply auth_loop_queries.
Qed.

End Budget.

Section NoRaise.
Context {Σ : Type} {browser : Browser Σ} {reader : JsonReader}.
Variable self : AuthHandler.Config.











End NoRaise.


(** ** The executor: click and scroll actions *)

Section ClickAction.
Context {Σ : Type} {browser : Browser Σ} (self : SoMConfig).

Lemma try_click_marker_emits (k j : Z) :
  k - 1 <= j <= k + 2 -> emits (clicking_event k) (ActionExecutor._try_click_marker j).
Proof.
  intros Hj. unfold ActionExecutor._try_click_marker, ActionExecutor._get_element_by_marker.
  emits_all.
Qed.

Lemma click_with_fallback_emits (k j : Z) :
  j = k \/ j = k + 1 -> emits (clicking_event k) (ActionExecutor.click_with_fallback j).
Proof.
  intros Hj. unfold ActionExecutor.click_with_fallback.
  pose proof (try_click_marker_emits k j ltac:(lia)).
  pose proof (try_click_marker_emits k (j + 1) ltac:(lia)).
  destruct (Z.ltb_spec 0 j) as [Hpos|Hneg].
  - pose proof (try_click_marker_emits k (j - 1) ltac:(lia)). emits_all.
  - emits_all.
Qed.

Lemma adjust_marker_result (action : AgentAction) (k : Z) (w : World Σ) (j : Z)
    (w' : World Σ) :
  ActionExecutor.adjust_marker action k w = (Ok j, w') -> j = k \/ j = k + 1.
Proof.
  unfold ActionExecutor.adjust_marker. intros H. split_run H; auto.
Qed.

(** For every browser: a click action at the marker [k] highlights [k],
    inspects the element of [k], and resolves or clicks only markers from
    [k - 1] to [k + 2]; every click on an element is forced; it never
    fills or types, never presses a key, never navigates or scrolls. *)
Theorem click_action_stays_near_its_marker (action : AgentAction) (t : string) (k : Z) :
  action_type action = act_click ->
  target action = Some t ->
  PyStr.int (PyStr.slice t 1 (-1)) = Some k ->
  emits (clicking_event k) (ActionExecutor.execute self action).
Proof.
  intros Hk Ht Hi. unfold ActionExecutor.execute. rewrite Hk.
  unfold ActionExecutor._execute_click. rewrite Ht, Hi.
  apply emits_try_except; [|emits_all].
  destruct (negb (PyStr.truthy t)); [emits_all|].
  destruct (ActionExecutor.is_marker_target t); [|emits_all].
  apply emits_try_except; [|emits_all].
  apply emits_bind; [apply highlight_emits; intros; reflexivity|]. intros _.
  apply (emits_bind_post _ (fun j => j = k \/ j = k + 1)).
  - unfold ActionExecutor.adjust_marker.
    apply emits_bind; [apply get_element_emits; intros; cbn; lia|].
    intros [el|]; emits_all.
  - intros w j w'. apply adjust_marker_result.
  - intros j Hj. apply click_with_fallback_emits. exact Hj.
Qed.

(** For every browser: a scroll action scrolls once, by 500 pixels down
    when its direction is down or missing and by 500 pixels up otherwise;
    it succeeds, after a wait of half a second, exactly when the scroll
    script does not raise.  A done action succeeds and touches nothing. *)
Theorem scroll_action_scrolls_once (action : AgentAction) (w : World Σ) :
  (action_type action = act_done -> ActionExecutor.execute self action w = (Ok true, w))
  /\ (action_type action = act_scroll ->
      let pixels := match scroll_direction action with
                    | Some scroll_up => -500
                    | _ => 500
                    end in
      exists r p,
        respond unit (ScrollBy pixels) (page w) = (r, p)
        /\ ActionExecutor.execute self action w
           = match r with
             | Ok _ => (Ok true,
                        {| page := elapse 500 p;
                           trace := trace w ++ [Called (ScrollBy pixels) r; Slept 500] |})
             | Raise _ => (Ok false,
                           {| page := p; trace := trace w ++ [Called (ScrollBy pixels) r] |})
             end).
Proof.
  split; intros Hk; unfold ActionExecutor.execute; rewrite Hk; [reflexivity|].
  unfold ActionExecutor._execute_scroll, try_except, bind, perform, sleep, ret.
  destruct (scroll_direction action) as [[|]|]; cbn;
    match goal with
    | |- context [respond unit (ScrollBy ?n) (page w)] =>
        destruct (respond unit (ScrollBy n) (page w)) as [[u|e] p]
    end; cbn; eexists _, _; (split; [reflexivity|]);
    rewrite <- ?app_assoc; reflexivity.
Qed.

End ClickAction.

Lemma click_action_witness :
  emits (clicking_event 7)
    (ActionExecutor.execute (Σ := Mock.Page) SoMMarker.default_config
       (click_action "[7]" "Click sign in")).
Proof.
  apply (click_action_stays_near_its_marker SoMMarker.default_config
           (click_action "[7]" "Click sign in") "[7]" 7);
    vm_compute; reflexivity.
Defined.

Lemma scroll_action_witness :
  ActionExecutor.execute SoMMarker.default_config done_action
    (Mock.start eight_markers) = (Ok true, Mock.start eight_markers)
  /\ ActionExecutor.execute SoMMarker.default_config (scroll_action None)
       (Mock.start eight_markers)
     = (Ok true,
        {| page := Mock.pass_time 500 eight_markers;
           trace := [Called (ScrollBy 500) (Ok tt); Slept 500] |}).
Proof.
  split.
  - apply (scroll_action_scrolls_once SoMMarker.default_config done_action
             (Mock.start eight_markers)).
    reflexivity.
  - destruct (proj2 (scroll_action_scrolls_once SoMMarker.default_config
                       (scroll_action None) (Mock.start eight_markers)) eq_refl)
      as (r & p & E & ->).
    vm_compute in E. injection E as <- <-. reflexivity.
Defined.

(** ** The login agent: what its parser hands to the executor *)

Lemma bracketed_is_no_digits (s : string) : PyStr.isdigit ("[" ++ s ++ "]") = false.
Proof. reflexivity. Qed.

Lemma fix_target_result (target : json) (fixed : json) :
  VisionLoginAgent.fix_target target = Ok fixed ->
  forall t, optional_str (Some fixed) = Some (Some t) -> PyStr.isdigit t = false.
Proof.
  unfold VisionLoginAgent.fix_target.
  destruct (json_truthy target) eqn:Ht.
  - destruct target as [| | | |s| |]; try discriminate.
    destruct (PyStr.isdigit s) eqn:Hd; intros [= <-] t [= <-];
      [apply bracketed_is_no_digits|exact Hd].
  - intros [= <-] t. destruct target as [| | | |s| |]; try discriminate.
    intros [= <-]. destruct s; [reflexivity|discriminate Ht].
Qed.

Section LoginParser.
Context {reader : JsonReader}.

(** For every JSON reader, credentials and response: an action that the
    parser of the login agent returns never has a target of bare digits
    (which the executor would refuse), always asks for a screenshot, has no
    scroll direction, and carries a password placeholder as its value only
    when the placeholder is the stored password itself. *)
Theorem login_actions_are_ready_for_the_executor (credentials : gmap string string)
    (response_text : string) (d : VisionLoginAgent.LoginDecision) :
  VisionLoginAgent.parse_login_decision credentials response_text = Ok d ->
  (forall t, target (VisionLoginAgent.action d) = Some t -> PyStr.isdigit t = false)
  /\ should_capture_screenshot (VisionLoginAgent.action d) = true
  /\ scroll_direction (VisionLoginAgent.action d) = None
  /\ (forall v, value (VisionLoginAgent.action d) = Some v ->
        v = "[password]" \/ v = "[provided]" -> credentials !! "password" = Some v).
Proof.
  unfold VisionLoginAgent.parse_login_decision.
  destruct (json_loads _) as [decision|].
  2:{ intros [= <-]. repeat split; try discriminate. }
  unfold VisionLoginAgent.decision_of_json.
  destruct (VisionLoginAgent.get_or decision "action" _) as [action_data|]; [|discriminate].
  cbn [res_bind].
  destruct (VisionLoginAgent.get_or action_data "value" _) as [value0|]; [|discriminate].
  cbn [res_bind].
  destruct (VisionLoginAgent.get_or action_data "target" _) as [target0|]; [|discriminate].
  cbn [res_bind].
  destruct (VisionLoginAgent.fix_target target0) as [fixed|] eqn:Hfix; [|discriminate].
  cbn [res_bind].
  destruct (VisionLoginAgent.get_or action_data "action_type" _) as [k|]; [|discriminate].
  cbn [res_bind].
  destruct (VisionLoginAgent.get_or action_data "reasoning" _) as [r|]; [|discriminate].
  cbn [res_bind].
  destruct (VisionLoginAgent.get_or action_data "step_description" _) as [sd|];
    [|discriminate].
  cbn [res_bind].
  unfold AgentAction_init.
  remember (if VisionLoginAgent.is_placeholder value0
            then VisionLoginAgent.json_of_opt_str (credentials !! "password")
            else value0) as value1 eqn:Hvalue1.
  destruct (required_str (Some r)) as [r'|]; [|discriminate].
  destruct (required_action_type (Some k)) as [k'|]; [|discriminate].
  destruct (optional_str (Some fixed)) as [t'|] eqn:Ht; [|discriminate].
  destruct (optional_str (Some value1)) as [v'|] eqn:Hv; [|discriminate].
  cbn [required_bool].
  destruct (required_str (Some sd)) as [sd'|]; [|discriminate].
  cbn [optional_direction res_bind].
  destruct (VisionLoginAgent.get_or decision "is_logged_in" _) as [a1|]; [|discriminate].
  cbn [res_bind].
  destruct (VisionLoginAgent.get_or decision "is_login_page" _) as [a2|]; [|discriminate].
  cbn [res_bind].
  destruct (VisionLoginAgent.get_or decision "reasoning" _) as [a3|]; [|discriminate].
  cbn [res_bind].
  intros [= <-]. cbn.
  split; [|split; [reflexivity|split; [reflexivity|]]].
  - intros t ->. exact (fix_target_result _ _ Hfix t Ht).
  - intros v -> Hp. subst value1.
    destruct (VisionLoginAgent.is_placeholder value0) eqn:Hph.
    + destruct (credentials !! "password") as [pw|]; [|discriminate Hv].
      injection Hv as ->. reflexivity.
    + destruct value0 as [| | | |s| |]; try discriminate Hv.
      injection Hv as ->. cbn in Hph.
      destruct Hp as [-> | ->]; discriminate Hph.
Qed.

End LoginParser.

Lemma login_actions_witness :
  exists d,
    VisionLoginAgent.parse_login_decision (reader := Mock.reader [login_click_seven]) ∅
      (Mock.dumps login_click_seven) = Ok d
    /\ forall t, target (VisionLoginAgent.action d) = Some t -> PyStr.isdigit t = false.
Proof.
  eexists. split; [vm_compute; reflexivity|].
  refine (proj1 (login_actions_are_ready_for_the_executor
                   (reader := Mock.reader [login_click_seven]) ∅
                   (Mock.dumps login_click_seven) _ _)).
  vm_compute. reflexivity.
Defined.

(** ** From the login agent to the executor: targets of digits *)

Lemma append_cons (c : ascii) (s t : string) : String c s ++ t = String c (s ++ t).
Proof. reflexivity. Qed.

Lemma substring_whole (s t : string) : String.substring 0 (String.length s) (s ++ t) = s.
Proof.
  induction s as [|c s IH].
  - destruct t; reflexivity.
  - rewrite append_cons. cbn [String.length String.substring]. rewrite IH. reflexivity.
Qed.

Lemma length_append (s t : string) :
  String.length (s ++ t) = (String.length s + String.length t)%nat.
Proof.
  induction s as [|c s IH]; [reflexivity|].
  rewrite append_cons. cbn [String.length]. rewrite IH. reflexivity.
Qed.

Lemma slice_brackets (s : string) :
  s <> "" -> PyStr.slice ("[" ++ s ++ "]") 1 (-1) = s.
Proof.
  intros Hs. unfold PyStr.slice, PyStr.len, PyStr.clamp.
  change ("[" ++ s ++ "]") with (String "[" (s ++ "]")).
  cbn [String.length]. rewrite length_append. cbn [String.length].
  assert (0 < String.length s)%nat as Hl by (destruct s; [contradiction|cbn; lia]).
  change (-1 <? 0) with true. change (1 <? 0) with false. cbv iota.
  replace (Z.min 1 (Z.of_nat (S (String.length s + 1)))) with 1 by lia.
  replace (Z.max 0 (-1 + Z.of_nat (S (String.length s + 1))))
    with (Z.of_nat (String.length s) + 1) by lia.
  destruct (Z.leb_spec (Z.of_nat (String.length s) + 1) 1) as [H|H]; [lia|].
  replace (Z.to_nat (Z.of_nat (String.length s) + 1 - 1)) with (String.length s) by lia.
  change (Z.to_nat 1) with 1%nat. cbn [String.substring].
  apply substring_whole.
Qed.

Lemma all_decimal_rev_app (s acc : string) :
  PyStr.all_decimal (String.rev_app s acc) = PyStr.all_decimal s && PyStr.all_decimal acc.
Proof.
  revert acc. induction s as [|c s IH]; intros acc;
    cbn [String.rev_app PyStr.all_decimal]; [reflexivity|].
  rewrite IH. cbn [PyStr.all_decimal].
  destruct (PyStr.is_decimal c), (PyStr.all_decimal s); reflexivity.
Qed.

Lemma rev_app_append (s t acc : string) :
  String.rev_app (s ++ t) acc = String.rev_app t (String.rev_app s acc).
Proof.
  revert acc. induction s as [|c s IH]; intros acc; [reflexivity|].
  rewrite append_cons. cbn [String.rev_app]. apply IH.
Qed.

Lemma rev_app_rev_app (s a b : string) :
  String.rev_app (String.rev_app s a) b = String.rev_app a (s ++ b).
Proof.
  revert a b. induction s as [|c s IH]; intros a b; [reflexivity|].
  cbn [String.rev_app]. rewrite IH. reflexivity.
Qed.

Lemma append_empty (s : string) : s ++ "" = s.
Proof.
  induction s as [|c s IH]; [reflexivity|]. rewrite append_cons, IH. reflexivity.
Qed.

Lemma decimal_is_no_int_space (c : ascii) :
  PyStr.is_decimal c = true -> PyStr.is_int_space c = false.
Proof.
  unfold PyStr.is_decimal, PyStr.is_int_space. intros H.
  apply andb_true_iff in H as [H1 H2].
  apply Nat.leb_le in H1. apply Nat.leb_le in H2.
  destruct (Nat.leb_spec 9 (nat_of_ascii c)), (Nat.leb_spec (nat_of_ascii c) 13),
    (Nat.eqb_spec (nat_of_ascii c) 32), (Nat.eqb_spec (nat_of_ascii c) 133),
    (Nat.eqb_spec (nat_of_ascii c) 160);
    cbn; try reflexivity; lia.
Qed.

Lemma decimal_is_digit (c : ascii) : PyStr.is_decimal c = true -> PyStr.is_digit c = true.
Proof. unfold PyStr.is_digit. intros ->. reflexivity. Qed.

Lemma all_decimal_all_digits (s : string) :
  PyStr.all_decimal s = true -> PyStr.all_digits s = true.
Proof.
  induction s as [|c s IH]; [reflexivity|]. cbn [PyStr.all_decimal PyStr.all_digits].
  intros H. apply andb_true_iff in H as [Hc Hs].
  rewrite (decimal_is_digit _ Hc), (IH Hs). reflexivity.
Qed.

Lemma isdecimal_isdigit (s : string) : PyStr.isdecimal s = true -> PyStr.isdigit s = true.
Proof.
  destruct s as [|c s]; [discriminate|]. unfold PyStr.isdecimal, PyStr.isdigit.
  apply all_decimal_all_digits.
Qed.

Lemma int_lstrip_decimal (s : string) :
  PyStr.all_decimal s = true -> PyStr.int_lstrip s = s.
Proof.
  destruct s as [|c s]; [reflexivity|]. cbn [PyStr.all_decimal PyStr.int_lstrip].
  intros H. apply andb_true_iff in H as [H _].
  rewrite (decimal_is_no_int_space _ H). reflexivity.
Qed.

Lemma int_strip_decimal (s : string) :
  PyStr.all_decimal s = true -> PyStr.int_strip s = s.
Proof.
  intros H. unfold PyStr.int_strip. rewrite (int_lstrip_decimal _ H).
  rewrite int_lstrip_decimal.
  - unfold String.rev. rewrite rev_app_rev_app. apply append_empty.
  - unfold String.rev. rewrite all_decimal_rev_app, H. reflexivity.
Qed.

Lemma count_decimal_length (s : string) :
  PyStr.all_decimal s = true -> PyStr.count_decimal s = String.length s.
Proof.
  induction s as [|c s IH]; [reflexivity|].
  cbn [PyStr.all_decimal PyStr.count_decimal String.length].
  intros H. apply andb_true_iff in H as [Hc Hs]. rewrite Hc, (IH Hs). reflexivity.
Qed.

Lemma digits_value_some (s : string) :
  PyStr.all_decimal s = true ->
  forall acc after_digit, 0 <= acc -> after_digit = true \/ s <> "" ->
    exists n, 0 <= n /\ PyStr.digits_value acc after_digit s = Some n.
Proof.
  induction s as [|c s IH]; cbn [PyStr.all_decimal PyStr.digits_value];
    intros H acc after_digit Hacc Hne.
  - destruct Hne as [-> | Hne]; [eauto|contradiction].
  - apply andb_true_iff in H as [Hc Hs]. rewrite Hc.
    apply IH; [exact Hs| |left; reflexivity].
    unfold PyStr.digit_value. unfold PyStr.is_decimal in Hc.
    apply andb_true_iff in Hc as [H1 _]. apply Nat.leb_le in H1. lia.
Qed.

(** A string of decimal digits, no longer than the limit of [int] on
    digits, in brackets is a marker target that the executor reads as an
    index that is not negative.  So the target that the login agent builds
    from such an answer of bare digits names a marker that may exist: the
    executor neither refuses it nor turns it into a negative index. *)
Theorem bracketed_digits_name_a_marker (digits : string) :
  PyStr.isdecimal digits = true ->
  (String.length digits <= PyStr.max_str_digits)%nat ->
  VisionLoginAgent.fix_target (JStr digits) = Ok (JStr ("[" ++ digits ++ "]"))
  /\ ActionExecutor.is_marker_target ("[" ++ digits ++ "]") = true
  /\ exists n, 0 <= n
               /\ PyStr.int (PyStr.slice ("[" ++ digits ++ "]") 1 (-1)) = Some n.
Proof.
  intros Hd Hlen. split; [apply fix_target_brackets_digits, isdecimal_isdigit, Hd|].
  assert (digits <> "" /\ PyStr.all_decimal digits = true) as [Hne Hall].
  { destruct digits; [discriminate Hd|]. split; [discriminate|exact Hd]. }
  split.
  - unfold ActionExecutor.is_marker_target, PyStr.startswith, PyStr.endswith.
    change ("[" ++ digits ++ "]") with (String "[" (digits ++ "]")).
    cbn [String.prefix]. destruct (ascii_dec "[" "["); [|contradiction].
    unfold String.rev. cbn [String.rev_app]. rewrite rev_app_append.
    cbn [String.rev_app String.prefix].
    destruct (ascii_dec "]" "]"); [|contradiction].
    assert (forall x, String.prefix "" x = true) as Hp by (intros []; reflexivity).
    rewrite !Hp. reflexivity.
  - rewrite (slice_brackets _ Hne). unfold PyStr.int.
    rewrite (int_strip_decimal _ Hall), (count_decimal_length _ Hall).
    destruct (Nat.ltb_spec PyStr.max_str_digits (String.length digits)) as [Hlt|_];
      [lia|].
    destruct (digits_value_some digits Hall 0 false ltac:(lia) (or_intror Hne))
      as (n & Hn & E).
    exists n. split; [exact Hn|].
    destruct digits as [|c t]; [contradiction|].
    cbn [PyStr.all_decimal] in Hall. apply andb_true_iff in Hall as [Hc _].
    destruct c as [[] [] [] [] [] [] [] []]; try discriminate Hc; exact E.
Qed.

Lemma bracketed_digits_witness :
  exists n, 0 <= n /\ PyStr.int (PyStr.slice ("[" ++ "15" ++ "]") 1 (-1)) = Some n.
Proof.
  apply (bracketed_digits_name_a_marker "15"); [reflexivity|].
  unfold PyStr.max_str_digits. cbn [String.length]. lia.
Defined.

(** ** The stability waiter: bounds *)

Section Stability.
Context {Σ : Type} {browser : Browser Σ}.



Lemma verdict_short (polls : list (Res hexdigest)) :
  (length polls < 3)%nat ->
  exists stable_count, verdict polls None 0 = inr stable_count /\ stable_count < 2.
Proof.
  intros Hl.
  destruct polls as [|[h1|e1] [|[h2|e2] [|[h3|e3] rest]]]; cbn in Hl; try lia;
    cbn [verdict BrowserController.same_hash]; try (exists 0; split; [reflexivity|lia]).
  destruct (hexdigest_eqb h2 h1); cbn;
    [exists 1|exists 0]; split; try reflexivity; lia.
Qed.

Lemma fingerprints_length (n : nat) : forall w : World Σ, (length (fingerprints n w) <= n)%nat.
Proof.
  induction n as [|n IH]; intros w; cbn [fingerprints]; [cbn; lia|].
  destruct (poll w) as [[r|e] w0]; cbn [length]; [|lia].
  specialize (IH w0). lia.
Qed.

(** For every browser: with a budget of fewer than three polls the
    stability waiter answers not-stable, whatever the page does, also when
    every poll sees the same document. *)
Theorem short_budget_is_never_stable (max_attempts : nat) (w : World Σ) :
  (max_attempts < 3)%nat ->
  fst (BrowserController.wait_for_stability max_attempts w) = Ok false.
Proof.
  intros Hn. rewrite wait_for_stability_verdict.
  pose proof (fingerprints_length max_attempts w) as Hl.
  destruct (verdict_short (fingerprints max_attempts w) ltac:(lia)) as (c & -> & Hc).
  f_equal. apply Z.leb_gt. exact Hc.
Qed.

End Stability.

Lemma short_budget_witness :
  fst (BrowserController.wait_for_stability 2
         (Mock.start (Mock.with_contents ["a"; "a"; "a"; "a"]))) = Ok false.
Proof.
  apply (short_budget_is_never_stable 2). lia.
Defined.

(** ** The screenshot manager and the guide *)

Section ManagerFacts.
Import ScreenshotManager.

Lemma numbered_snoc (l : list ScreenshotRecord) (r : ScreenshotRecord) :
  numbered_from 0 l -> step_number r = Z.of_nat (length l) + 1 ->
  numbered_from 0 (l ++ [r]).
Proof.
  unfold numbered_from. intros Hl Hr.
  rewrite fmap_app, length_app, seq_app, fmap_app, Hl. cbn. rewrite Hr. reflexivity.
Qed.

Lemma after_numbered (updates : list update) :
  forall self : ScreenshotManager,
    numbered_from 0 (screenshots self) ->
    step_counter self = Z.of_nat (length (screenshots self)) ->
    numbered_from 0 (screenshots (after updates self))
    /\ step_counter (after updates self)
       = Z.of_nat (length (screenshots (after updates self)))
    /\ output_dir (after updates self) = output_dir self.
Proof.
  induction updates as [|u updates IH]; intros self Hn Hc; [auto|].
  unfold after. cbn [fold_left]. fold (after updates (apply self u)).
  destruct u as [p d a t now|]; cbn [apply add_screenshot fst clear].
  - edestruct IH as (H1 & H2 & H3); [| |split; [exact H1|split; [exact H2|exact H3]]];
      cbn [screenshots step_counter].
    + apply numbered_snoc; [exact Hn|]. cbn. rewrite Hc. reflexivity.
    + rewrite length_app, Hc. cbn. lia.
  - edestruct IH as (H1 & H2 & H3); [| |split; [exact H1|split; [exact H2|exact H3]]];
      cbn [screenshots step_counter]; reflexivity.
Qed.

Lemma find_numbered (l : list ScreenshotRecord) :
  forall (off i : nat) (r : ScreenshotRecord),
    numbered_from off l -> l !! i = Some r ->
    List.find (fun s => step_number s =? Z.of_nat (off + i) + 1) l = Some r.
Proof.
  induction l as [|x l IH]; intros off i r Hn Hi; [discriminate|].
  unfold numbered_from in Hn. cbn in Hn. injection Hn as Hx Hl.
  cbn [List.find]. destruct i as [|i].
  - injection Hi as ->. rewrite Hx, Nat.add_0_r, Z.eqb_refl. reflexivity.
  - cbn in Hi. rewrite Hx.
    destruct (Z.eqb_spec (Z.of_nat off + 1) (Z.of_nat (off + S i) + 1)) as [E|_]; [lia|].
    replace (off + S i)%nat with (S off + i)%nat by lia.
    apply IH; assumption.
Qed.

Lemma find_out_of_range (l : list ScreenshotRecord) :
  forall (off : nat) (k : Z),
    numbered_from off l ->
    k <= Z.of_nat off \/ Z.of_nat (off + length l) < k ->
    List.find (fun s => step_number s =? k) l = None.
Proof.
  induction l as [|x l IH]; intros off k Hn Hk; [reflexivity|].
  unfold numbered_from in Hn. cbn in Hn. injection Hn as Hx Hl.
  cbn [List.find]. rewrite Hx. cbn [length] in Hk.
  destruct (Z.eqb_spec (Z.of_nat off + 1) k) as [E|_]; [lia|].
  apply (IH (S off)); [exact Hl|lia].
Qed.

End ManagerFacts.

(** From a fresh manager, after any sequence of additions and clears: the
    records carry the step numbers 1, 2, ..., in the order of their
    addition since the last clear; the counter is the number of records;
    the record of a step is found by its number, and a number outside
    1 .. counter finds nothing. *)
Theorem manager_numbers_steps_from_one (output_dir : string)
    (updates : list ScreenshotManager.update) :
  let self := ScreenshotManager.after updates (ScreenshotManager.init output_dir) in
  let records := ScreenshotManager.get_all_screenshots self in
  ScreenshotManager.step_number <$> records = one_to (length records)
  /\ ScreenshotManager.step_counter self = Z.of_nat (length records)
  /\ (forall (i : nat) r, records !! i = Some r ->
        ScreenshotManager.get_screenshot_by_step self (Z.of_nat i + 1) = Some r)
  /\ (forall k, k <= 0 \/ ScreenshotManager.step_counter self < k ->
        ScreenshotManager.get_screenshot_by_step self k = None).
Proof.
  intros self records.
  destruct (after_numbered updates (ScreenshotManager.init output_dir))
    as (Hn & Hc & _); [reflexivity|reflexivity|].
  fold self in Hn, Hc. split; [exact Hn|]. split; [exact Hc|]. split.
  - intros i r Hi. apply (find_numbered _ 0 i r Hn Hi).
  - intros k Hk. apply (find_out_of_range _ 0 k Hn).
    rewrite Hc in Hk. cbn. unfold records, ScreenshotManager.get_all_screenshots in Hk.
    lia.
Qed.

(** The JSON guide of the records of a manager (a fresh one, after any
    sequence of additions and clears) lists the steps 1, 2, ..., [n] in
    order, and its total is the step counter [n] of the manager. *)
Theorem guide_numbers_agree_with_manager (output_dir task_goal : string)
    (updates : list ScreenshotManager.update) :
  let self := ScreenshotManager.after updates (ScreenshotManager.init output_dir) in
  let guide := GuideGenerator.generate_json
                 (ScreenshotManager.get_all_screenshots self) task_goal in
  guide_total_steps guide = Some (JInt (ScreenshotManager.step_counter self))
  /\ guide_step_numbers guide
     = (fun n => Some (JInt n))
       <$> one_to (Z.to_nat (ScreenshotManager.step_counter self)).
Proof.
  intros self guide.
  destruct (after_numbered updates (ScreenshotManager.init output_dir))
    as (Hn & Hc & _); [reflexivity|reflexivity|].
  fold self in Hn, Hc. unfold guide, GuideGenerator.generate_json,
    ScreenshotManager.get_all_screenshots.
  split.
  - cbn. rewrite Hc. reflexivity.
  - unfold guide_step_numbers. cbn [dict_get String.eqb Ascii.eqb Bool.eqb].
    rewrite Hc, Nat2Z.id. unfold one_to.
    unfold numbered_from in Hn. rewrite <- Hn.
    rewrite <- !list_fmap_compose. apply list_fmap_ext. intros i r _. reflexivity.
Qed.

(** ** The task agent: the next action *)

Section NextAction.
Context {Σ : Type} {browser : Browser Σ} {reader : JsonReader}.
Variable build_task_prompt :
  string -> string -> list TaskAgent.ElementDict -> list TaskAgent.HistoryEntry ->
  string -> string.
Variable call_llm : string -> string -> M Σ string.
Variable str : exn -> string.
Variable project_objective : string.

(** For every browser, provider, prompt builder and page state:
    [decide_next_action] raises only when the reading of the screenshot
    file raises, and then before any query.  Otherwise it queries the
    provider once, with the prompt built from the goal, the URL, the
    elements and the history, and with the data of the file.  When the
    provider answers, the response holds the action parsed from that answer
    (the wait fallback when the answer does not parse), no error, the
    confidence 0.85, is complete exactly for a done action, and the history
    has grown by that one action.  When the provider raises, the response
    is a wait action with the text of the exception as its error, the
    confidence 0, not complete, and the history is as it was. *)
Theorem decide_next_action_outcomes (action_history : list TaskAgent.HistoryEntry)
    (goal : string) (current_state : TaskAgent.PageState) (screenshot_path : string)
    (w : World Σ) :
  let run := TaskAgent.decide_next_action build_task_prompt call_llm str project_objective
               action_history goal current_state screenshot_path w in
  let prompt := build_task_prompt goal (TaskAgent.url current_state)
                  (TaskAgent.element_dict <$> TaskAgent.elements current_state)
                  action_history project_objective in
  match perform (ReadFile screenshot_path) w with
  | (Raise e, w0) => run = (Raise e, w0)
  | (Ok data, w0) =>
      match call_llm prompt data w0 with
      | (Ok answer, w1) =>
          let action := VisionWebAgent._parse_action_response answer in
          exists response,
            run = (Ok (response, (action_history ++ [TaskAgent.entry_of action])%list), w1)
            /\ TaskAgent.action response = action
            /\ TaskAgent.error response = None
            /\ TaskAgent.confidence response = (85, -2)
            /\ (TaskAgent.is_task_complete response = true
                <-> action_type action = act_done)
      | (Raise e, w1) =>
          exists response,
            run = (Ok (response, action_history), w1)
            /\ TaskAgent.error response = Some (str e)
            /\ action_type (TaskAgent.action response) = act_wait
            /\ target (TaskAgent.action response) = None
            /\ reasoning (TaskAgent.action response) = "Error: " ++ str e
            /\ TaskAgent.confidence response = (0, 0)
            /\ TaskAgent.is_task_complete response = false
      end
  end.
Proof.
  intros run prompt. subst run prompt.
  cbv beta zeta delta [TaskAgent.decide_next_action bind TaskAgent.try_except_as ret].
  destruct (perform (ReadFile screenshot_path) w) as [[data|e] w0]; [|reflexivity].
  destruct (call_llm _ data w0) as [[answer|e] w1]; cbn.
  - eexists. split; [reflexivity|]. cbn. repeat split; try reflexivity.
    + destruct (action_type _); cbn; congruence.
    + intros ->. reflexivity.
  - eexists. split; [reflexivity|]. cbn. repeat split.
Qed.

End NextAction.

(** ** The task parser: prose around the JSON object *)

Lemma prefix_char (c d : ascii) (s : string) :
  String.prefix (String c "") (String d s) = Ascii.eqb c d.
Proof.
  cbn [String.prefix]. destruct (ascii_dec c d) as [->|Hne].
  - rewrite Ascii.eqb_refl. destruct s; reflexivity.
  - symmetry. apply Ascii.eqb_neq. exact Hne.
Qed.

Lemma contains_cons (c d : ascii) (s : string) :
  PyStr.contains (String d s) (String c "") = false ->
  Ascii.eqb c d = false /\ PyStr.contains s (String c "") = false.
Proof.
  cbn [PyStr.contains]. rewrite prefix_char. apply orb_false_iff.
Qed.

Lemma find_after_prose (c : ascii) (before rest : string) :
  PyStr.contains before (String c "") = false ->
  PyStr.find (before ++ String c rest) (String c "") = PyStr.len before.
Proof.
  induction before as [|d before IH]; intros H.
  - change ("" ++ String c rest) with (String c rest).
    cbn [PyStr.find]. rewrite prefix_char, Ascii.eqb_refl. reflexivity.
  - apply contains_cons in H as [Hd H]. rewrite append_cons.
    cbn [PyStr.find]. rewrite prefix_char, Hd, (IH H).
    unfold PyStr.len. cbn [String.length].
    destruct (Z.ltb_spec (Z.of_nat (String.length before)) 0); lia.
Qed.

Lemma rfind_absent (c : ascii) (s : string) :
  PyStr.contains s (String c "") = false -> PyStr.rfind s (String c "") = -1.
Proof.
  induction s as [|d s IH]; intros H; [reflexivity|].
  apply contains_cons in H as [Hd H]. cbn [PyStr.rfind].
  rewrite (IH H), prefix_char, Hd. reflexivity.
Qed.

Lemma rfind_before_prose (c : ascii) (body after : string) :
  PyStr.contains after (String c "") = false ->
  PyStr.rfind (body ++ String c after) (String c "") = PyStr.len body.
Proof.
  intros H. induction body as [|d body IH].
  - change ("" ++ String c after) with (String c after).
    cbn [PyStr.rfind]. rewrite (rfind_absent _ _ H), prefix_char, Ascii.eqb_refl.
    reflexivity.
  - rewrite append_cons. cbn [PyStr.rfind]. rewrite IH.
    unfold PyStr.len. cbn [String.length].
    destruct (Z.leb_spec 0 (Z.of_nat (String.length body))); lia.
Qed.

Lemma substring_skip (p x : string) (m : nat) :
  String.substring (String.length p) m (p ++ x) = String.substring 0 m x.
Proof.
  induction p as [|c p IH]; [reflexivity|].
  rewrite append_cons. cbn [String.length String.substring]. exact IH.
Qed.

Lemma append_assoc (a b c : string) : (a ++ b) ++ c = a ++ b ++ c.
Proof.
  induction a as [|d a IH]; [reflexivity|]. rewrite !append_cons, IH. reflexivity.
Qed.

Lemma slice_middle (before object after : string) :
  object <> "" ->
  PyStr.slice (before ++ object ++ after) (PyStr.len before)
    (PyStr.len before + PyStr.len object) = object.
Proof.
  intros Hne. unfold PyStr.slice, PyStr.clamp, PyStr.len.
  rewrite !length_append.
  assert (0 < String.length object)%nat by (destruct object; [contradiction|cbn; lia]).
  destruct (Z.ltb_spec (Z.of_nat (String.length before)) 0); [lia|].
  destruct (Z.ltb_spec (Z.of_nat (String.length before)
                        + Z.of_nat (String.length object)) 0); [lia|].
  rewrite !Z.min_l by lia.
  destruct (Z.leb_spec (Z.of_nat (String.length before)
                        + Z.of_nat (String.length object))
              (Z.of_nat (String.length before))); [lia|].
  rewrite Nat2Z.id.
  replace (Z.to_nat (Z.of_nat (String.length before) + Z.of_nat (String.length object)
                     - Z.of_nat (String.length before)))
    with (String.length object) by lia.
  rewrite substring_skip. apply substring_whole.
Qed.

Section Prose.
Context {reader : JsonReader}.

Lemma parse_action_in_prose (before inside after : string) :
  PyStr.contains before "{" = false ->
  PyStr.contains after "}" = false ->
  VisionWebAgent.parse_action (before ++ ("{" ++ inside ++ "}") ++ after)
  = match json_loads ("{" ++ inside ++ "}") with
    | None => Raise JSONDecodeError
    | Some (JDict action_dict) => AgentAction_of_dict action_dict
    | Some _ => Raise TypeError
    end.
Proof.
  intros Hb Ha. unfold VisionWebAgent.parse_action.
  assert (PyStr.find (before ++ ("{" ++ inside ++ "}") ++ after) "{" = PyStr.len before)
    as ->.
  { change (("{" ++ inside ++ "}") ++ after) with (String "{" ((inside ++ "}") ++ after)).
    apply find_after_prose, Hb. }
  assert (PyStr.rfind (before ++ ("{" ++ inside ++ "}") ++ after) "}"
          = PyStr.len before + PyStr.len ("{" ++ inside ++ "}") - 1) as ->.
  { replace (before ++ ("{" ++ inside ++ "}") ++ after)
      with ((before ++ "{" ++ inside) ++ String "}" after).
    - rewrite (rfind_before_prose _ _ _ Ha). unfold PyStr.len.
      rewrite !length_append. cbn [String.length]. lia.
    - rewrite !append_assoc. reflexivity. }
  replace (PyStr.len before + PyStr.len ("{" ++ inside ++ "}") - 1 + 1)
    with (PyStr.len before + PyStr.len ("{" ++ inside ++ "}")) by lia.
  rewrite slice_middle by discriminate.
  assert (0 <= PyStr.len before) by (unfold PyStr.len; lia).
  assert (0 < PyStr.len ("{" ++ inside ++ "}")).
  { unfold PyStr.len. change ("{" ++ inside ++ "}") with (String "{" (inside ++ "}")).
    cbn [String.length]. lia. }
  destruct (Z.eqb_spec (PyStr.len before) (-1)); [lia|].
  destruct (Z.eqb_spec (PyStr.len before + PyStr.len ("{" ++ inside ++ "}")) 0); [lia|].
  reflexivity.
Qed.

(** For every JSON reader: prose around the JSON object does not change
    what the parser of the task loop returns, as long as the text before
    the object holds no opening brace and the text after it no closing
    brace; the object alone is what reaches [json.loads]. *)
Theorem task_parser_ignores_surrounding_prose (before inside after : string) :
  PyStr.contains before "{" = false ->
  PyStr.contains after "}" = false ->
  VisionWebAgent._parse_action_response (before ++ ("{" ++ inside ++ "}") ++ after)
  = VisionWebAgent._parse_action_response ("{" ++ inside ++ "}").
Proof.
  intros Hb Ha. unfold VisionWebAgent._parse_action_response.
  rewrite (parse_action_in_prose before inside after Hb Ha).
  pose proof (parse_action_in_prose "" inside "" eq_refl eq_refl) as E.
  change ("" ++ ("{" ++ inside ++ "}") ++ "") with (("{" ++ inside ++ "}") ++ "") in E.
  rewrite append_empty in E. rewrite E. reflexivity.
Qed.

End Prose.

Lemma task_parser_prose_witness :
  let inside := PyStr.slice (Mock.dumps click_seven) 1 (-1) in
  VisionWebAgent._parse_action_response (reader := Mock.reader [click_seven])
    ("Here is the next action: " ++ ("{" ++ inside ++ "}") ++ " I hope it helps.")
  = VisionWebAgent._parse_action_response (reader := Mock.reader [click_seven])
      ("{" ++ inside ++ "}").
Proof.
  intros inside.
  apply (task_parser_ignores_surrounding_prose (reader := Mock.reader [click_seven])
           "Here is the next action: " inside " I hope it helps."); reflexivity.
Defined.

(** ** Runs of the navigation and of the task parser on concrete inputs *)

Lemma navigation_guard_witness :
  let w := Mock.start (Mock.with_elements [register_or_log_in; sign_in_button]) in
  exists evs,
    trace (snd (AuthHandler._navigate_to_login_page w)) = (trace w ++ evs)%list
    /\ clicks_guarded no_sign_up None evs.
Proof.
  intros w.
  apply (navigation_clicks_are_guarded w (fst (AuthHandler._navigate_to_login_page w))).
  vm_compute. reflexivity.
Defined.

Lemma task_parser_garbage_witness :
  VisionWebAgent._parse_action_response (reader := Mock.reader [])
    "I cannot see the page."
  = VisionWebAgent.fallback_action
  /\ action_type (VisionWebAgent._parse_action_response (reader := Mock.reader [])
                    "I cannot see the page.") = act_wait.
Proof.
  apply (task_parser_waits_on_garbage (reader := Mock.reader []) "I cannot see the page.").
  left. reflexivity.
Defined.

(** ** The login agent and the password; the fallback and its markers *)

Section Secrets.
Context {Σ : Type} {browser : Browser Σ} {reader : JsonReader}.

(** For every browser and JSON reader: the password does not reach the
    language model.  Two runs of [decide_login_action] that differ only in
    the stored password read the same file and send the same query (same
    screenshot, identifier, URL and element summary), and leave the same
    world; the password enters only afterwards, where a placeholder in the
    answer is replaced. *)
Theorem password_never_reaches_the_language_model (credentials : gmap string string)
    (password other : string) (screenshot_path : string) (elements : list ElementInfo)
    (current_url : string) (w : World Σ) :
  snd (VisionLoginAgent.decide_login_action screenshot_path
         (<["password" := password]> credentials) elements current_url w)
  = snd (VisionLoginAgent.decide_login_action screenshot_path
           (<["password" := other]> credentials) elements current_url w).
Proof.
  unfold VisionLoginAgent.decide_login_action, bind, lift_res.
  rewrite !lookup_insert_ne by discriminate.
  destruct (perform (ReadFile screenshot_path) w) as [[data|e] w0]; [|reflexivity].
  destruct (perform (LlmCreate data _ current_url _) w0) as [[answer|e] w1]; reflexivity.
Qed.

Lemma execute_total (executor : SoMConfig) (action : AgentAction) (w : World Σ) :
  exists (b : bool) (w' : World Σ), ActionExecutor.execute executor action w = (Ok b, w').
Proof.
  unfold ActionExecutor.execute. apply try_except_all_ok.
  intros w0. exists false, w0. reflexivity.
Qed.

Variable self : AuthHandler.Config.

(** For every browser: the vision fallback of a handler that has a marker
    and an executor never raises.  When the configuration of the marker
    holds what the marker script is built from, the fallback marks the page
    first and removes the markers last, whatever the action does in
    between; otherwise it returns [False] and leaves the page untouched,
    with neither a mark nor a removal. *)
Theorem vision_fallback_removes_its_markers (marker executor : SoMConfig)
    (vision_state : VisionLoginAgent.LoginDecision) (screenshot_path : string)
    (w : World Σ) :
  AuthHandler.som_marker self = Some marker ->
  AuthHandler.action_executor self = Some executor ->
  (forall style, SoMMarker.marker_style marker = Ok style ->
     exists (success : bool) (w' : World Σ) marked (between : list event) removed,
       AuthHandler._vision_fallback_action self vision_state screenshot_path w
       = (Ok success, w')
       /\ trace w' = (trace w ++ [Called (MarkerScript style) marked] ++ between
                      ++ [Called RemoveMarkersScript removed])%list)
  /\ (forall e, SoMMarker.marker_style marker = Raise e ->
        AuthHandler._vision_fallback_action self vision_state screenshot_path w
        = (Ok false, w)).
Proof.
  intros Hm He. unfold AuthHandler._vision_fallback_action. rewrite Hm, He.
  split.
  - intros style Hs.
    unfold try_except at 1. unfold bind at 1.
    unfold SoMMarker.mark_page at 1. rewrite Hs.
    unfold bind at 1, lift_res at 1. unfold try_except at 1, perform at 1.
    destruct (respond _ (MarkerScript style) (page w)) as [r0 p0].
    set (w0 := {| page := p0; trace := trace w ++ [Called (MarkerScript style) r0] |}).
    assert (exists els, (match r0 with
                         | Ok a => (Ok a, w0)
                         | Raise e => if isinstance_Exception e then ret [] w0
                                      else (Raise e, w0)
                         end) = (Ok els, w0)) as [els ->].
    { destruct r0; cbn; eauto. }
    unfold bind at 1.
    destruct (execute_total executor (VisionLoginAgent.action vision_state) w0)
      as (success & w1 & E).
    rewrite E.
    destruct (execute_no_llm executor (VisionLoginAgent.action vision_state) _ _ _ E)
      as (between & T1 & _).
    unfold bind, SoMMarker.remove_markers, try_except, perform, ret.
    destruct (respond _ RemoveMarkersScript (page w1)) as [[u|e] p2]; cbn;
      eexists success, _, r0, between, _; (split; [reflexivity|]); cbn [trace];
      rewrite T1; subst w0; cbn [trace]; rewrite <- !app_assoc; reflexivity.
  - intros e Hs. unfold try_except at 1. unfold bind at 1.
    unfold SoMMarker.mark_page at 1. rewrite Hs. reflexivity.
Qed.

End Secrets.

Lemma vision_fallback_witness :
  let decision :=
    {| VisionLoginAgent.action := click_action "[2]" "Click sign in";
       VisionLoginAgent.is_logged_in := JBool false;
       VisionLoginAgent.is_login_page := JBool true;
       VisionLoginAgent.decision_reasoning := JStr "" |} in
  (forall style, SoMMarker.marker_style SoMMarker.default_config = Ok style ->
     exists (success : bool) (w' : World Mock.Page) marked (between : list event) removed,
       AuthHandler._vision_fallback_action vision_handler decision
         "/tmp/auth_step_1.png" (Mock.start sign_in_form)
       = (Ok success, w')
       /\ trace w' = (trace (Mock.start sign_in_form)
                      ++ [Called (MarkerScript style) marked] ++ between
                      ++ [Called RemoveMarkersScript removed])%list)
  /\ AuthHandler._vision_fallback_action three_keys_handler decision
       "/tmp/auth_step_1.png" (Mock.start sign_in_form)
     = (Ok false, Mock.start sign_in_form).
Proof.
  intros decision. split.
  - apply (vision_fallback_removes_its_markers vision_handler SoMMarker.default_config
             SoMMarker.default_config); reflexivity.
  - refine (proj2 (vision_fallback_removes_its_markers three_keys_handler three_keys
                     SoMMarker.default_config decision "/tmp/auth_step_1.png"
                     (Mock.start sign_in_form) eq_refl eq_refl) KeyError _).
    reflexivity.
Defined.
